(** * backup-otomatis: the restore orchestration pipeline

    A shallow embedding of the Go program (package [main]): the per-file
    state machine [processFile], the database restorer [restoreDB], the
    backup locator [findBakFile] and the completion tracker
    [upsertSpreadsheetRow], together with the properties that the
    specification states about them.

    Go strings are byte sequences and are modelled by [string].  A Go
    [error] is modelled by its message: [None] is [nil].  Every call to an
    external collaborator (Drive, Sheets, the file system, [7z], [icacls],
    [sqlcmd]) is recorded, with its outcome, in a log carried by the world
    state; the outcomes themselves are read from an environment whose
    answers may depend on everything that has happened so far.  What the
    program writes with [log.Printf] is not part of the model.

    [restoreDB] builds each argument list with [append] on the shared
    slice [args]; every list is handed to [exec.Command], which copies
    it, before the next one is built, so the lists are modelled as
    values. *)

From Stdlib Require Import String Ascii List ZArith Lia Bool Arith.
From Stdlib Require Import DecimalString DecimalN.
Import ListNotations.

Local Open Scope string_scope.
Local Open Scope list_scope.

(** Go's [+] on strings. *)
Infix "+++" := String.append (right associativity, at level 60).

(** ** Package [strings] *)

Module strings.

(** The six ASCII bytes of Go's [asciiSpace] table. *)
Definition isSpace (c : ascii) : bool :=
  let n := nat_of_ascii c in
  existsb (Nat.eqb n) [9; 10; 11; 12; 13; 32]%nat.

(** The white space of [unicode.IsSpace] beyond ASCII, as the bytes of
    its UTF-8 encoding: U+0085 and U+00A0 on two bytes; U+1680,
    U+2000 to U+200A, U+2028, U+2029, U+202F, U+205F and U+3000 on
    three. *)
Definition isSpace2 (a b : ascii) : bool :=
  Nat.eqb (nat_of_ascii a) 194 && existsb (Nat.eqb (nat_of_ascii b)) [133; 160]%nat.

Definition isSpace3 (a b c : ascii) : bool :=
  let x := nat_of_ascii a in
  let y := nat_of_ascii b in
  let z := nat_of_ascii c in
  (Nat.eqb x 225 && Nat.eqb y 154 && Nat.eqb z 128) ||
  (Nat.eqb x 226 && Nat.eqb y 128 &&
     ((Nat.leb 128 z && Nat.leb z 138) || existsb (Nat.eqb z) [168; 169; 175]%nat)) ||
  (Nat.eqb x 226 && Nat.eqb y 129 && Nat.eqb z 159) ||
  (Nat.eqb x 227 && Nat.eqb y 128 && Nat.eqb z 128).

(** Dropping the runs of white space at the front of a string, for a
    given reading of the encodings on two and three bytes.  A byte that
    starts no white space, a stray continuation byte included, ends the
    run. *)
Fixpoint trimFront (two : ascii -> ascii -> bool) (three : ascii -> ascii -> ascii -> bool)
    (s : string) : string :=
  match s with
  | EmptyString => EmptyString
  | String a s1 =>
      if isSpace a then trimFront two three s1
      else
        match s1 with
        | EmptyString => s
        | String b s2 =>
            if two a b then trimFront two three s2
            else
              match s2 with
              | EmptyString => s
              | String c s3 => if three a b c then trimFront two three s3 else s
              end
        end
  end.

Fixpoint reverse_onto (s acc : string) : string :=
  match s with
  | EmptyString => acc
  | String c s' => reverse_onto s' (String c acc)
  end.

Definition reverse (s : string) : string := reverse_onto s EmptyString.

(** [TrimLeftFunc(s, unicode.IsSpace)]. *)
Definition TrimLeft (s : string) : string := trimFront isSpace2 isSpace3 s.

(** [TrimRightFunc(s, unicode.IsSpace)]: the last rune is looked for
    from the end of the string, so the encodings are read backwards. *)
Definition TrimRight (s : string) : string :=
  reverse (trimFront (fun a b => isSpace2 b a) (fun a b c => isSpace3 c b a) (reverse s)).

(** [strings.TrimSpace]: its fast path over ASCII and its fall back to
    [TrimFunc] with [unicode.IsSpace] come to trimming the front and
    then the back. *)
Definition TrimSpace (s : string) : string := TrimRight (TrimLeft s).

Definition HasPrefix (s pre : string) : bool := String.prefix pre s.

Definition HasSuffix (s suf : string) : bool :=
  Nat.leb (String.length suf) (String.length s) &&
  String.eqb (substring (String.length s - String.length suf) (String.length suf) s) suf.

Definition Contains (s sub : string) : bool :=
  match index 0 sub s with Some _ => true | None => false end.

(** [Split s sep] for a non-empty separator.  [skip] counts the bytes
    of a separator just matched that are still to be passed over, [cur]
    is the piece being read. *)
Fixpoint split_go (sep : string) (skip : nat) (cur : string) (s : string) : list string :=
  match s with
  | EmptyString => [cur]
  | String c s' =>
      match skip with
      | S k => split_go sep k cur s'
      | O =>
          if String.prefix sep s
          then cur :: split_go sep (String.length sep - 1) EmptyString s'
          else split_go sep 0 (cur +++ String c EmptyString) s'
      end
  end.

Definition Split (s sep : string) : list string := split_go sep 0 EmptyString s.

(** [SplitN s sep 2]: cut at the first occurrence of the separator. *)
Definition SplitN2 (s sep : string) : list string :=
  match index 0 sep s with
  | Some i =>
      [substring 0 i s;
       substring (i + String.length sep) (String.length s - (i + String.length sep)) s]
  | None => [s]
  end.

Definition upper (c : ascii) : ascii :=
  let n := nat_of_ascii c in
  if Nat.leb 97 n && Nat.leb n 122 then ascii_of_nat (n - 32) else c.

(** [ToUpper] on the ASCII letters; other bytes are left as they are. *)
Fixpoint ToUpper (s : string) : string :=
  match s with
  | EmptyString => EmptyString
  | String c s' => String (upper c) (ToUpper s')
  end.

(** [EqualFold] on the ASCII letters.  It is used against the literal
    NULL only, whose letters have no other case variants. *)
Definition EqualFold (s t : string) : bool := String.eqb (ToUpper s) (ToUpper t).

End strings.

Definition lf : string := String (ascii_of_nat 10) EmptyString.
Definition backslash : string := String (ascii_of_nat 92) EmptyString.

(** U+00A0, the no-break space, and U+3000, the ideographic space, in
    UTF-8. *)
Definition nbsp : string := String (ascii_of_nat 194) (String (ascii_of_nat 160) EmptyString).
Definition ideographicSpace : string :=
  String (ascii_of_nat 227) (String (ascii_of_nat 128) (String (ascii_of_nat 128) EmptyString)).


(** ** Values shared with the collaborators *)

(** A Go [error]: [None] is [nil], [Some msg] an error whose [Error()]
    text is [msg]. *)
Definition error : Type := option string.

Inductive result (A : Type) : Type :=
| Ok (a : A)
| Err (e : string).
Arguments Ok {A} a.
Arguments Err {A} e.

(** The fields of [drive.File] that the program reads. *)
Record File : Type := mkFile {
  Id : string;
  Name : string;
  CreatedTime : string;
  Size : Z;
  Parents : list string
}.

(** A cell of a [sheets.ValueRange]: an [interface{}] that either holds a
    string or something else. *)
Inductive Cell : Type :=
| CellString (s : string)
| CellOther.

#[local] Set Warnings "-register-all".

(** What [filepath.Walk] meets under a root: regular files, directories
    with their entries in the order of the walk (sorted by name),
    directories whose names cannot be read, and entries whose [Lstat]
    fails. *)
Inductive FsNode : Type :=
| FsFile (name : string)
| FsDir (name : string) (entries : list FsNode)
| FsDirUnreadable (name : string) (e : string)
| FsLstatError (name : string) (e : string).

Definition node_name (n : FsNode) : string :=
  match n with
  | FsFile name | FsDir name _ | FsDirUnreadable name _ | FsLstatError name _ => name
  end.

Record FileInfo : Type := mkFileInfo { info_Name : string; info_IsDir : bool }.

(** One call to a collaborator, with its outcome. *)
Inductive Event : Type :=
| DriveDelete (id : string) (err : error)
| DriveGet (id fields : string) (err : error)
| DriveDownload (id : string) (err : error)
| OsCreate (path : string) (err : error)
| IoCopy (path : string) (err : error)
| OsMkdirTemp (r : result string)
| OsRemoveAll (path : string)
| FilepathWalk (root : string)
| Exec (name : string) (args : list string) (out : string) (err : error)
| SheetsGet (range : string) (err : error)
| SheetsUpdate (a1 value : string) (err : error)
| SheetsAppend (range : string) (row : list string) (err : error).

(** The world: the ids of the files in the remote store, the cells of
    columns A:B of the ledger, and the log of calls made so far. *)
Record World : Type := mkWorld {
  store : list string;
  ledger : list (list Cell);
  log : list Event
}.

(** The environment.  Its first fields are the library functions that
    depend on the platform or on the process environment; the others
    answer the calls to the collaborators, given the log so far. *)
Record Env : Type := mkEnv {
  (* time.Parse(time.RFC3339, s), in nanoseconds *)
  time_Parse : string -> option Z;
  (* t.In(loc).Format(layout) *)
  time_Format : Z -> string -> string -> string;
  time_LoadLocation : string -> result string;
  time_Local : string;
  os_Getenv : string -> string;
  filepath_Join : string -> string -> string;
  filepath_Dir : string -> string;
  PathSeparator : string;
  time_Now : list Event -> Z;
  drive_Delete : list Event -> string -> error;
  drive_Get : list Event -> string -> string -> result File;
  drive_Download : list Event -> string -> error;
  os_Create : list Event -> string -> error;
  io_Copy : list Event -> string -> error;
  os_MkdirTemp : list Event -> result string;
  os_Tree : list Event -> string -> FsNode;
  (* cmd.Run, cmd.Output, cmd.CombinedOutput: what was captured, and the
     error; a command that exits with a failure still hands back what it
     wrote *)
  exec_Command : list Event -> string -> list string -> string * error;
  sheets_Get : list Event -> string -> error;
  sheets_Update : list Event -> string -> string -> error;
  sheets_Append : list Event -> string -> list string -> error
}.

(** ** The state monad of the program *)

Definition M (A : Type) : Type := World -> A * World.

Definition ret {A} (a : A) : M A := fun w => (a, w).

Definition bind {A B} (m : M A) (k : A -> M B) : M B :=
  fun w => let (a, w') := m w in k a w'.

Notation "x <- m ;; k" := (bind m (fun x => k))
  (at level 61, m at next level, right associativity).
Notation "' pat <- m ;; k" := (bind m (fun x => match x with pat => k end))
  (at level 61, pat pattern, m at next level, right associativity).
Notation "m ;;; k" := (bind m (fun _ => k))
  (at level 61, right associativity).

Definition history : M (list Event) := fun w => (log w, w).

Definition emit (ev : Event) : M unit :=
  fun w => (tt, mkWorld (store w) (ledger w) (log w ++ [ev])).

Definition readLedger : M (list (list Cell)) := fun w => (ledger w, w).

Definition writeLedger (g : list (list Cell)) : M unit :=
  fun w => (tt, mkWorld (store w) g (log w)).

Definition removeFromStore (id : string) : M unit :=
  fun w => (tt, mkWorld (filter (fun x => negb (String.eqb x id)) (store w)) (ledger w) (log w)).

(** [defer d] around a body: [d] runs when the body returns. *)
Definition defer {A} (d : M unit) (body : M A) : M A :=
  r <- body ;; d ;;; ret r.

(** fmt.Errorf("...: %v", err) *)
Definition Errorf (msg e : string) : error := Some (msg +++ e).

(** ** The ledger as the Sheets service keeps it *)

(** The verb [%d] of [fmt.Sprintf] on an integer that is not negative. *)
Definition itoa (n : Z) : string := NilEmpty.string_of_uint (N.to_uint (Z.to_N n)).

(** The row number of an A1 reference to a cell of column B. *)
Definition parseB (a1 : string) : option nat :=
  match a1 with
  | String "B" digits =>
      match NilEmpty.uint_of_string digits with
      | Some d => match N.to_nat (N.of_uint d) with O => None | S n => Some (S n) end
      | None => None
      end
  | _ => None
  end.

(** Writing a value into column B of a row; a row without a column A
    gets an empty one. *)
Definition setB (row : list Cell) (value : string) : list Cell :=
  match row with
  | [] => [CellString ""; CellString value]
  | a :: rest => a :: CellString value :: tl rest
  end.

(** Writing column B of the row of index [i]; the sheet grows when the
    row lies beyond its last one. *)
Fixpoint updateB (g : list (list Cell)) (i : nat) (value : string) : list (list Cell) :=
  match g, i with
  | row :: g', O => setB row value :: g'
  | row :: g', S i' => row :: updateB g' i' value
  | [], O => [setB [] value]
  | [], S i' => [] :: updateB [] i' value
  end.

(** ** The collaborators *)

Section Collaborators.

Variable env : Env.

(** srv.Files.Delete(id).Do() *)
Definition Files_Delete (id : string) : M error :=
  h <- history ;;
  let err := drive_Delete env h id in
  emit (DriveDelete id err) ;;;
  match err with
  | Some e => ret (Some e)
  | None => removeFromStore id ;;; ret None
  end.

(** srv.Files.Get(id).Fields(fields).Do() *)
Definition Files_Get (id fields : string) : M (result File) :=
  h <- history ;;
  let r := drive_Get env h id fields in
  emit (DriveGet id fields (match r with Ok _ => None | Err e => Some e end)) ;;;
  ret r.

Definition run (name : string) (args : list string) : M (string * error) :=
  h <- history ;;
  let r := exec_Command env h name args in
  emit (Exec name args (fst r) (snd r)) ;;;
  ret r.

Definition os_RemoveAll (path : string) : M unit := emit (OsRemoveAll path).

(** srv.Spreadsheets.Values.Get(spreadsheetID, range).Do(): the rows of
    the range. *)
Definition Values_Get (range : string) : M (result (list (list Cell))) :=
  h <- history ;;
  let err := sheets_Get env h range in
  emit (SheetsGet range err) ;;;
  match err with
  | Some e => ret (Err e)
  | None => g <- readLedger ;; ret (Ok g)
  end.

(** srv.Spreadsheets.Values.Update(spreadsheetID, a1, vr).Do() with one
    value: the cell is the one that the A1 reference names.  The cell
    keeps the text it is given; what the service makes of a text that
    reads as a number or a date is not modelled. *)
Definition Values_Update (a1 value : string) : M error :=
  h <- history ;;
  let err := sheets_Update env h a1 value in
  emit (SheetsUpdate a1 value err) ;;;
  match err with
  | Some e => ret (Some e)
  | None =>
      match parseB a1 with
      | Some row => g <- readLedger ;; writeLedger (updateB g (row - 1) value) ;;; ret None
      | None => ret (Some ("Unable to parse range: " +++ a1))
      end
  end.

(** srv.Spreadsheets.Values.Append(spreadsheetID, range, vr).Do() with
    one row: the row is added after the last one. *)
Definition Values_Append (range : string) (row : list string) : M error :=
  h <- history ;;
  let err := sheets_Append env h range row in
  emit (SheetsAppend range row err) ;;;
  match err with
  | Some e => ret (Some e)
  | None => g <- readLedger ;; writeLedger (g ++ [map CellString row]) ;;; ret None
  end.

End Collaborators.

(** ** Package [time] and [fmt] *)

Definition minDuration : Z := - 2 ^ 63.
Definition maxDuration : Z := 2 ^ 63 - 1.

(** [t.Sub(u)]: a [Duration] is a 64-bit count of nanoseconds, and the
    difference is clamped to its range. *)
Definition time_Sub (t u : Z) : Z :=
  let d := (t - u)%Z in
  if (d <? minDuration)%Z then minDuration
  else if (maxDuration <? d)%Z then maxDuration
  else d.

Definition time_Minute : Z := 60 * 1000000000.

(** ** The program *)

Definition minFileSize : Z := 10 * 1024.
Definition maxAgeForDeletion : Z := 10 * time_Minute.

Definition len {A} (l : list A) : Z := Z.of_nat (List.length l).

Section Program.

Variable env : Env.

Definition deleteSmallFile (file : File) : M error :=
  err <- Files_Delete env (Id file) ;;
  match err with
  | Some e => ret (Errorf "failed to delete small file: " e)
  | None => ret None
  end.

Definition createTempDir : M (string * error) :=
  h <- history ;;
  let r := os_MkdirTemp env h in
  emit (OsMkdirTemp r) ;;;
  match r with
  | Err e => ret ("", Errorf "failed to create temp dir: " e)
  | Ok tempDir => ret (tempDir, None)
  end.

Definition downloadFile (fileID destPath : string) : M error :=
  h <- history ;;
  let err := drive_Download env h fileID in
  emit (DriveDownload fileID err) ;;;
  match err with
  | Some e => ret (Some e)
  | None =>
      h <- history ;;
      let err := os_Create env h destPath in
      emit (OsCreate destPath err) ;;;
      match err with
      | Some e => ret (Some e)
      | None =>
          h <- history ;;
          let err := io_Copy env h destPath in
          emit (IoCopy destPath err) ;;;
          ret err
      end
  end.

Definition extract7z (archivePath destDir password : string) : M error :=
  r <- run env "7z" ["x"; "-p" +++ password; archivePath; "-o" +++ destDir] ;;
  ret (snd r).

(** [filepath.Walk]'s inner [walk].  [fn] is the callback; the variables
    it captures are the state [S].  The callback of this program returns
    either [nil] or the error it was handed, never [SkipDir]. *)
Fixpoint walk {S : Type} (fn : S -> string -> option FileInfo -> error -> S * error)
    (path : string) (n : FsNode) (s : S) {struct n} : S * error :=
  match n with
  | FsLstatError _ e => fn s path None (Some e)
  | FsFile name => fn s path (Some (mkFileInfo name false)) None
  | FsDirUnreadable name e => fn s path (Some (mkFileInfo name true)) (Some e)
  | FsDir name entries =>
      let (s1, err1) := fn s path (Some (mkFileInfo name true)) None in
      match err1 with
      | Some e => (s1, Some e)
      | None =>
          (fix loop (names : list FsNode) (s : S) {struct names} : S * error :=
             match names with
             | [] => (s, None)
             | c :: names' =>
                 let filename := filepath_Join env path (node_name c) in
                 let (s', err) := walk fn filename c s in
                 match err with
                 | Some e => (s', Some e)
                 | None => loop names' s'
                 end
             end) entries s1
      end
  end.

(** The loop of [walk] over the names of a directory, on its own. *)
Definition walkNames {S : Type} (fn : S -> string -> option FileInfo -> error -> S * error)
    (path : string) : list FsNode -> S -> S * error :=
  fix loop (names : list FsNode) (s : S) {struct names} : S * error :=
    match names with
    | [] => (s, None)
    | c :: names' =>
        let filename := filepath_Join env path (node_name c) in
        let (s', err) := walk fn filename c s in
        match err with
        | Some e => (s', Some e)
        | None => loop names' s'
        end
    end.

Definition filepath_Walk {S : Type} (root : string)
    (fn : S -> string -> option FileInfo -> error -> S * error) (s : S) : M (S * error) :=
  h <- history ;;
  emit (FilepathWalk root) ;;;
  ret (walk fn root (os_Tree env h root) s).

(** The function literal handed to [filepath.Walk]; its state is the
    captured variable [bakFile]. *)
Definition findBakFile_fn (bakFile path : string) (info : option FileInfo) (err : error)
    : string * error :=
  match err with
  | Some e => (bakFile, Some e)
  | None =>
      match info with
      | Some i => if strings.HasSuffix (info_Name i) ".bak" then (path, None) else (bakFile, None)
      | None => (bakFile, None)
      end
  end.

Definition findBakFile (dir : string) : M (string * error) :=
  '(bakFile, err) <- filepath_Walk dir findBakFile_fn "" ;;
  match err with
  | Some e => ret ("", Some e)
  | None =>
      if String.eqb bakFile "" then ret ("", Some "no .bak file found")
      else ret (bakFile, None)
  end.

Definition downloadAndExtract (file : File) (tempDir password : string) : M (string * error) :=
  let downloadedFile := filepath_Join env tempDir (Name file) in
  err <- downloadFile (Id file) downloadedFile ;;
  match err with
  | Some e => ret ("", Errorf "failed to download file: " e)
  | None =>
      let extractDir := filepath_Join env tempDir "extracted" in
      err <- extract7z downloadedFile extractDir password ;;
      match err with
      | Some e => ret ("", Errorf "failed to extract 7z: " e)
      | None =>
          '(bakFile, err) <- findBakFile extractDir ;;
          match err with
          | Some e => ret ("", Errorf "failed to find .bak file: " e)
          | None => ret (bakFile, None)
          end
      end
  end.

Definition grantPermissions (bakFile dbHost : string) : M unit :=
  let serviceAcct :=
    if strings.Contains dbHost backslash
    then "NT SERVICE" +++ backslash +++ "MSSQL$" +++ nth 1 (strings.SplitN2 dbHost backslash) ""
    else "NT SERVICE" +++ backslash +++ "MSSQLSERVER" in
  run env "icacls" [bakFile; "/grant"; serviceAcct +++ ":F"] ;;;
  let extractFolder := filepath_Dir env bakFile in
  run env "icacls" [extractFolder; "/grant"; serviceAcct +++ ":F"; "/T"] ;;;
  ret tt.

Definition shouldDelete (file : File) : M bool :=
  match time_Parse env (CreatedTime file) with
  | None => ret false
  | Some createdTime =>
      h <- history ;;
      ret (maxAgeForDeletion <=? time_Sub (time_Now env h) createdTime)%Z
  end.

Definition formatCreatedTime (createdTimeStr : string) : string :=
  match time_Parse env createdTimeStr with
  | None => createdTimeStr
  | Some t =>
      let tz := os_Getenv env "SPREADSHEET_TIMEZONE" in
      let loc :=
        if String.eqb tz "" || strings.EqualFold tz "Local" then time_Local env
        else match time_LoadLocation env tz with
             | Err _ => time_Local env
             | Ok l => l
             end in
      time_Format env t loc "1/2/2006 15:04:05"
  end.

(** *** restoreDB *)

(** The connection arguments [args]. *)
Definition sqlcmdArgs (host user pass database : string) : list string :=
  ["-S"; host; "-d"; database] ++
  (if String.eqb user "" && String.eqb pass "" then ["-E"] else ["-U"; user; "-P"; pass]).

(** One turn of the loop over the lines of the file list; the state is
    the pair of variables [dataLogical], [logLogical]. *)
Definition fileListLine (names : string * string) (l : string) : string * string :=
  let l := strings.TrimSpace l in
  if String.eqb l "" then names
  else
    let cols := map strings.TrimSpace (strings.Split l "|") in
    if (len cols <? 3)%Z then names
    else
      let typ := strings.ToUpper (nth 2 cols "") in
      if strings.HasPrefix typ "L" then (fst names, nth 0 cols "")
      else (nth 0 cols "", snd names).

Definition fileList (listOut : string) : string * string :=
  if negb (String.eqb listOut "")
  then fold_left fileListLine (strings.Split listOut lf) ("", "")
  else ("", "").

(** The data path, from what the query of the instance default printed. *)
Definition resolveDataPath (out bakPath : string) : string :=
  let dataPath := strings.TrimSpace out in
  if String.eqb dataPath "" || strings.EqualFold dataPath "NULL"
  then filepath_Dir env bakPath
  else dataPath.

Definition fileListQuery (bakPath : string) : string :=
  "SET NOCOUNT ON; RESTORE FILELISTONLY FROM DISK='" +++ bakPath +++ "'".

Definition dataPathQuery : string :=
  "SET NOCOUNT ON; SELECT SERVERPROPERTY('InstanceDefaultDataPath')".

Definition singleUserQuery (dbName : string) : string :=
  "ALTER DATABASE " +++ dbName +++ " SET SINGLE_USER WITH ROLLBACK IMMEDIATE;".

Definition restoreQuery (dbName bakPath dataLogical mdfTarget logLogical ldfTarget : string)
    : string :=
  "RESTORE DATABASE " +++ dbName +++ " FROM DISK='" +++ bakPath +++
  "' WITH REPLACE, MOVE '" +++ dataLogical +++ "' TO '" +++ mdfTarget +++
  "', MOVE '" +++ logLogical +++ "' TO '" +++ ldfTarget +++ "'".

Definition multiUserQuery (dbName : string) : string :=
  "ALTER DATABASE " +++ dbName +++ " SET MULTI_USER;".

(** The logical names of the RESTORE statement: the detected ones, or
    the defaults. *)
Definition dataLogicalOr (dbName dataLogical : string) : string :=
  if String.eqb dataLogical "" then dbName else dataLogical.

Definition logLogicalOr (dbName logLogical : string) : string :=
  if String.eqb logLogical "" then dbName +++ "_log" else logLogical.

Definition restoreDB (host user pass dbName bakPath : string) : M error :=
  let args := sqlcmdArgs host user pass "master" in
  let argsList := args ++ ["-h"; "-1"; "-W"; "-s"; "|"; "-Q"; fileListQuery bakPath] in
  '(out, err) <- run env "sqlcmd" argsList ;;
  match err with
  | Some e => ret (Errorf "failed to run RESTORE FILELISTONLY: " e)
  | None =>
      let listOut := strings.TrimSpace out in
      let '(dataLogical, logLogical) := fileList listOut in
      let argsPath := args ++ ["-h"; "-1"; "-W"; "-Q"; dataPathQuery] in
      '(out, _) <- run env "sqlcmd" argsPath ;;
      let dataPath := resolveDataPath out bakPath in
      let dataLogical := dataLogicalOr dbName dataLogical in
      let logLogical := logLogicalOr dbName logLogical in
      let argsSingle := args ++ ["-Q"; singleUserQuery dbName] in
      '(_, err) <- run env "sqlcmd" argsSingle ;;
      match err with
      | Some e => ret (Errorf "failed to set database to single user: " e)
      | None =>
          let mdfTarget := filepath_Join env dataPath (dbName +++ ".mdf") in
          let ldfTarget := filepath_Join env dataPath (dbName +++ "_log.ldf") in
          let query := restoreQuery dbName bakPath dataLogical mdfTarget logLogical ldfTarget in
          let argsRestore := args ++ ["-Q"; query] in
          '(_, err) <- run env "sqlcmd" argsRestore ;;
          match err with
          | Some e => ret (Errorf "restore failed: " e)
          | None =>
              let argsMulti := args ++ ["-Q"; multiUserQuery dbName] in
              run env "sqlcmd" argsMulti ;;;
              ret None
          end
      end
  end.

Definition runUpdateQuery (host user pass dbName query : string) : M error :=
  let args := sqlcmdArgs host user pass dbName ++ ["-Q"; query] in
  '(_, err) <- run env "sqlcmd" args ;;
  ret err.

(** *** The completion tracker *)

Definition getParentFolderName (file : File) : M (string * error) :=
  match Parents file with
  | parentID :: _ =>
      r <- Files_Get env parentID "id, name" ;;
      match r with
      | Err e => ret ("", Some e)
      | Ok f => ret (Name f, None)
      end
  | [] =>
      r <- Files_Get env (Id file) "parents" ;;
      match r with
      | Err e => ret ("", Some e)
      | Ok fi =>
          match Parents fi with
          | parent :: _ =>
              r <- Files_Get env parent "name" ;;
              match r with
              | Err e => ret ("", Some e)
              | Ok p => ret (Name p, None)
              end
          | [] => ret ("", None)
          end
      end
  end.

(** The search loop for [kab] in column A: the index of the first row
    that matches, counted from [i], or -1. *)
Fixpoint searchKab (values : list (list Cell)) (kab : string) (i : Z) : Z :=
  match values with
  | [] => (-1)%Z
  | row :: values' =>
      match row with
      | CellString s :: _ =>
          if String.eqb (strings.TrimSpace s) (strings.TrimSpace kab) then i
          else searchKab values' kab (i + 1)%Z
      | _ => searchKab values' kab (i + 1)%Z
      end
  end.

Definition upsertSpreadsheetRow (spreadsheetID kab createdTime : string) : M error :=
  let readRange := "A:B" in
  r <- Values_Get env readRange ;;
  match r with
  | Err e => ret (Errorf "failed to read spreadsheet: " e)
  | Ok values =>
      let rowIndex := searchKab values kab 0 in
      if (0 <=? rowIndex)%Z then
        let a1 := "B" +++ itoa (rowIndex + 1) in
        err <- Values_Update env a1 createdTime ;;
        match err with
        | Some e => ret (Errorf ("failed to update spreadsheet cell " +++ a1 +++ ": ") e)
        | None => ret None
        end
      else
        err <- Values_Append env "A:B" [kab; createdTime] ;;
        match err with
        | Some e => ret (Errorf "failed to append row to spreadsheet: " e)
        | None => ret None
        end
  end.

Definition deleteFileAndUpdateSpreadsheet (spreadsheetID : string) (file : File) : M error :=
  err <- Files_Delete env (Id file) ;;
  match err with
  | Some e => ret (Errorf "failed to delete Drive file: " e)
  | None =>
      '(parentName, pErr) <- getParentFolderName file ;;
      match pErr with
      | Some _ => ret None
      | None =>
          let createdStr := formatCreatedTime (CreatedTime file) in
          upsertSpreadsheetRow spreadsheetID parentName createdStr ;;;
          ret None
      end
  end.

(** *** The file processor *)

Definition processFile (spreadsheetID : string) (file : File)
    (dbHost dbUser dbPass dbName password updateQuery : string) : M error :=
  if (Size file <? minFileSize)%Z then deleteSmallFile file
  else
    '(tempDir, err) <- createTempDir ;;
    match err with
    | Some e => ret (Some e)
    | None =>
        defer (os_RemoveAll tempDir)
          ('(bakFile, err) <- downloadAndExtract file tempDir password ;;
           match err with
           | Some e =>
               del <- shouldDelete file ;;
               (if del then deleteFileAndUpdateSpreadsheet spreadsheetID file ;;; ret tt
                else ret tt) ;;;
               ret (Some e)
           | None =>
               grantPermissions bakFile dbHost ;;;
               err <- restoreDB dbHost dbUser dbPass dbName bakFile ;;
               match err with
               | Some e => ret (Some e)
               | None =>
                   err <- runUpdateQuery dbHost dbUser dbPass dbName updateQuery ;;
                   match err with
                   | Some e => ret (Some e)
                   | None =>
                       err <- deleteFileAndUpdateSpreadsheet spreadsheetID file ;;
                       match err with
                       | Some e => ret (Some e)
                       | None => ret None
                       end
                   end
               end
           end)
    end.

End Program.

(** ** Vocabulary of the specification *)

(** Calls that touch the ledger, and calls that delete from the store. *)
Definition isLedgerEvent (ev : Event) : bool :=
  match ev with
  | SheetsGet _ _ | SheetsUpdate _ _ _ | SheetsAppend _ _ _ => true
  | _ => false
  end.

Definition isDeleteEvent (ev : Event) : bool :=
  match ev with
  | DriveDelete _ _ => true
  | _ => false
  end.

Definition quietEvent (ev : Event) : bool := negb (isLedgerEvent ev || isDeleteEvent ev).

(** From [w] to [w'] the store and the ledger are as they were, and the
    log has grown by calls that neither delete nor touch the ledger. *)
Definition unchanged (w w' : World) : Prop :=
  store w' = store w /\ ledger w' = ledger w /\
  exists evs, log w' = log w ++ evs /\ forallb quietEvent evs = true.

(** A computation is quiet when it leaves every world unchanged. *)
Definition Quiet {A} (m : M A) : Prop := forall w, unchanged w (snd (m w)).

(** The error of the lookup of the parent folder, when it runs after
    the deletion of the file in the world [w]. *)
Definition parentLookupError (env : Env) (file : File) (w : World) : error :=
  snd (fst (getParentFolderName env file (snd (Files_Delete env (Id file) w)))).

(** *** The five steps of the restorer *)

Section Steps.

Variables host user pass dbName bakPath : string.

Definition fileListCommand : list string :=
  sqlcmdArgs host user pass "master" ++
  ["-h"; "-1"; "-W"; "-s"; "|"; "-Q"; fileListQuery bakPath].

Definition dataPathCommand : list string :=
  sqlcmdArgs host user pass "master" ++ ["-h"; "-1"; "-W"; "-Q"; dataPathQuery].

Definition singleUserCommand : list string :=
  sqlcmdArgs host user pass "master" ++ ["-Q"; singleUserQuery dbName].

(** The RESTORE command that moves the logical files [dataLogical] and
    [logLogical] to the directory [dataPath]. *)
Definition restoreCommand (env : Env) (dataLogical logLogical dataPath : string)
    : list string :=
  sqlcmdArgs host user pass "master" ++
  ["-Q"; restoreQuery dbName bakPath
           dataLogical (filepath_Join env dataPath (dbName +++ ".mdf"))
           logLogical (filepath_Join env dataPath (dbName +++ "_log.ldf"))].

Definition multiUserCommand : list string :=
  sqlcmdArgs host user pass "master" ++ ["-Q"; multiUserQuery dbName].

(** The RESTORE command that [restoreDB] builds from what the first two
    commands printed. *)
Definition restoreCommandOf (env : Env) (out1 out2 : string) : list string :=
  restoreCommand env
    (dataLogicalOr dbName (fst (fileList (strings.TrimSpace out1))))
    (logLogicalOr dbName (snd (fileList (strings.TrimSpace out1))))
    (resolveDataPath env out2 bakPath).

End Steps.

(** *** The backup file set, in the words of the specification *)

Inductive FileKind : Type := Data | Log.

Definition isKind (k : FileKind) (row : string * FileKind) : bool :=
  match k, snd row with
  | Data, Data | Log, Log => true
  | _, _ => false
  end.

(** A line of the manifest as a row: none for a blank line or a line of
    fewer than three columns; otherwise the first column is the logical
    name and the kind is Log when the upper-cased third column starts
    with L, Data otherwise. *)
Definition manifestRow (line : string) : option (string * FileKind) :=
  if String.eqb (strings.TrimSpace line) "" then None
  else
    match map strings.TrimSpace (strings.Split (strings.TrimSpace line) "|") with
    | name :: _ :: typ :: _ =>
        Some (name, if strings.HasPrefix (strings.ToUpper typ) "L" then Log else Data)
    | _ => None
    end.

Fixpoint manifestRows (lines : list string) : list (string * FileKind) :=
  match lines with
  | [] => []
  | l :: lines' =>
      match manifestRow l with
      | Some row => row :: manifestRows lines'
      | None => manifestRows lines'
      end
  end.

(** The logical name retained for a kind: that of the last row of the
    kind, or [none] when the manifest has no row of the kind. *)
Definition retained (k : FileKind) (rows : list (string * FileKind)) (none : string) : string :=
  last (map fst (filter (isKind k) rows)) none.

(** *** The ledger, in the words of the specification *)

(** A row is a row for the key when its column A holds a string whose
    trimmed value is the trimmed key. *)
Definition rowFor (key : string) (row : list Cell) : bool :=
  match row with
  | CellString s :: _ => String.eqb (strings.TrimSpace s) (strings.TrimSpace key)
  | _ => false
  end.

Definition columnB (row : list Cell) : option Cell := nth_error row 1.

(** Find the first row for the key and overwrite its column B in place;
    append the row [key, value] when there is none. *)
Fixpoint upsertRows (g : list (list Cell)) (key value : string) : list (list Cell) :=
  match g with
  | [] => [[CellString key; CellString value]]
  | row :: g' =>
      if rowFor key row then setB row value :: g'
      else row :: upsertRows g' key value
  end.

(** *** The backup locator, in the words of the specification *)

(** A tree that can be walked to its end. *)
Fixpoint readable (n : FsNode) : bool :=
  match n with
  | FsFile _ => true
  | FsDir _ entries => forallb readable entries
  | FsDirUnreadable _ _ | FsLstatError _ _ => false
  end.

(** The entries of a tree that the walk hands to the callback without
    an error, in the order of the walk, each with its path: a directory
    comes before what it contains, and the path of an entry is
    [filepath.Join] of the path of its directory and its name. *)
Fixpoint traversal (join : string -> string -> string) (path : string) (n : FsNode)
    : list (string * FileInfo) :=
  match n with
  | FsFile name => [(path, mkFileInfo name false)]
  | FsDir name entries =>
      (path, mkFileInfo name true) ::
      flat_map (fun c => traversal join (join path (node_name c)) c) entries
  | FsDirUnreadable _ _ | FsLstatError _ _ => []
  end.

Definition isBak (entry : string * FileInfo) : bool :=
  strings.HasSuffix (info_Name (snd entry)) ".bak".

(** What the callback does to [bakFile] at an entry that raised no
    error. *)
Definition keepBak (bakFile : string) (entry : string * FileInfo) : string :=
  if isBak entry then fst entry else bakFile.

(** The paths of the entries whose name ends in .bak, in the order of
    the walk: all of them, the regular files among them, and the
    directories among them. *)
Definition bakPaths (join : string -> string -> string) (path : string) (n : FsNode)
    : list string :=
  map fst (filter isBak (traversal join path n)).

Definition bakFiles (join : string -> string -> string) (path : string) (n : FsNode)
    : list string :=
  map fst (filter (fun e => isBak e && negb (info_IsDir (snd e))) (traversal join path n)).

Definition bakDirectories (join : string -> string -> string) (path : string) (n : FsNode)
    : list string :=
  map fst (filter (fun e => isBak e && info_IsDir (snd e)) (traversal join path n)).

(** [filepath.Join] gives the empty string only when all its elements
    are empty. *)
Definition joinsToPath (join : string -> string -> string) : Prop :=
  forall a b : string, join a b = "" -> a = "" /\ b = "".

(** ** A sample environment

    A POSIX host on which every collaborator answers with success.  The
    sample paths are clean, so [filepath.Join] is concatenation around a
    slash and [filepath.Dir] drops the last element. *)

Module Sample.

Definition second : Z := 1000000000.

(** 2025-01-01T00:00:00Z, in nanoseconds since 1970. *)
Definition newYear : Z := 1735689600 * second.

Definition Parse (s : string) : option Z :=
  if String.eqb s "2025-01-01T00:00:00Z" then Some newYear
  else if String.eqb s "2025-01-01T00:55:00Z" then Some (newYear + 3300 * second)%Z
  else None.

(** The clock stands at 2025-01-01T01:00:00Z. *)
Definition Now (_ : list Event) : Z := (newYear + 3600 * second)%Z.

Definition Format (t : Z) (loc layout : string) : string :=
  if (t =? newYear)%Z then "1/1/2025 00:00:00" else "1/1/2025 00:55:00".

Fixpoint dirGo (s : string) : option string :=
  match s with
  | EmptyString => None
  | String c s' =>
      match dirGo s' with
      | Some d => Some (String c d)
      | None => if Ascii.eqb c "/" then Some EmptyString else None
      end
  end.

Definition Dir (p : string) : string :=
  match dirGo p with
  | Some EmptyString => "/"
  | Some d => d
  | None => "."
  end.

(** [filepath.Join] on elements that are clean: an empty element is
    passed over. *)
Definition Join (a b : string) : string :=
  if String.eqb a "" then b else if String.eqb b "" then a else a +++ "/" +++ b.

Definition tree : FsNode :=
  FsDir "extracted" [FsFile "notes.txt"; FsDir "db" [FsFile "a.bak"; FsFile "b.bak"]].

Definition isQuery (pre : string) (args : list string) : bool :=
  existsb (String.prefix pre) args.

(** [sqlcmd] prints a manifest of two rows for the file list and the
    data directory for the instance default; the other commands print
    nothing. *)
Definition Command (_ : list Event) (name : string) (args : list string) : string * error :=
  if isQuery "SET NOCOUNT ON; RESTORE FILELISTONLY" args
  then ("Susenas|D:\data\Susenas.mdf|D|PRIMARY" +++ lf +++
        "Susenas_log|D:\data\Susenas_log.ldf|L|NULL" +++ lf, None)
  else if isQuery "SET NOCOUNT ON; SELECT SERVERPROPERTY" args
  then ("/var/opt/mssql/data" +++ lf, None)
  else ("", None).

Definition folder : File := mkFile "folder-1" "Kab. Bogor" "" 0 [].

Definition env : Env :=
  {| time_Parse := Parse;
     time_Format := Format;
     time_LoadLocation := fun tz => Ok tz;
     time_Local := "Local";
     os_Getenv := fun _ => "";
     filepath_Join := Join;
     filepath_Dir := Dir;
     PathSeparator := "/";
     time_Now := Now;
     drive_Delete := fun _ _ => None;
     drive_Get := fun _ _ _ => Ok folder;
     drive_Download := fun _ _ => None;
     os_Create := fun _ _ => None;
     io_Copy := fun _ _ => None;
     os_MkdirTemp := fun _ => Ok "/tmp/backup-1";
     os_Tree := fun _ _ => tree;
     exec_Command := Command;
     sheets_Get := fun _ _ => None;
     sheets_Update := fun _ _ _ => None;
     sheets_Append := fun _ _ _ => None |}.

(** The same host with another answer to the commands, to deletions or
    to the lookups of Drive. *)
Definition withCommand (f : list Event -> string -> list string -> string * error)
    (e : Env) : Env :=
  mkEnv (time_Parse e) (time_Format e) (time_LoadLocation e) (time_Local e) (os_Getenv e)
    (filepath_Join e) (filepath_Dir e) (PathSeparator e) (time_Now e) (drive_Delete e)
    (drive_Get e) (drive_Download e) (os_Create e) (io_Copy e) (os_MkdirTemp e) (os_Tree e)
    f (sheets_Get e) (sheets_Update e) (sheets_Append e).

Definition withDelete (f : list Event -> string -> error) (e : Env) : Env :=
  mkEnv (time_Parse e) (time_Format e) (time_LoadLocation e) (time_Local e) (os_Getenv e)
    (filepath_Join e) (filepath_Dir e) (PathSeparator e) (time_Now e) f
    (drive_Get e) (drive_Download e) (os_Create e) (io_Copy e) (os_MkdirTemp e) (os_Tree e)
    (exec_Command e) (sheets_Get e) (sheets_Update e) (sheets_Append e).

Definition withGet (f : list Event -> string -> string -> result File) (e : Env) : Env :=
  mkEnv (time_Parse e) (time_Format e) (time_LoadLocation e) (time_Local e) (os_Getenv e)
    (filepath_Join e) (filepath_Dir e) (PathSeparator e) (time_Now e) (drive_Delete e)
    f (drive_Download e) (os_Create e) (io_Copy e) (os_MkdirTemp e) (os_Tree e)
    (exec_Command e) (sheets_Get e) (sheets_Update e) (sheets_Append e).

Definition withTree (t : FsNode) (e : Env) : Env :=
  mkEnv (time_Parse e) (time_Format e) (time_LoadLocation e) (time_Local e) (os_Getenv e)
    (filepath_Join e) (filepath_Dir e) (PathSeparator e) (time_Now e) (drive_Delete e)
    (drive_Get e) (drive_Download e) (os_Create e) (io_Copy e) (os_MkdirTemp e)
    (fun _ _ => t)
    (exec_Command e) (sheets_Get e) (sheets_Update e) (sheets_Append e).

(** A host on which the command with an argument that starts with
    [pre] prints [out] and ends with [err]. *)
Definition answering (pre out : string) (err : error) (h : list Event) (name : string)
    (args : list string) : string * error :=
  if isQuery pre args then (out, err) else Command h name args.

Definition host (pre out : string) (err : error) : Env :=
  withCommand (answering pre out err) env.

Definition bak : string := "/tmp/backup-1/extracted/db/b.bak".

(** A backup uploaded an hour ago, a backup uploaded five minutes ago,
    one whose creation time is not a timestamp, and a placeholder. *)
Definition old : File :=
  mkFile "file-1" "Susenas2025M_3201.7z" "2025-01-01T00:00:00Z" 52428800 ["folder-1"].
Definition undated : File :=
  mkFile "file-3" "Susenas2025M_3203.7z" "yesterday" 52428800 ["folder-1"].
Definition small : File :=
  mkFile "file-4" "Susenas2025M_3204.7z" "2025-01-01T00:00:00Z" 2048 ["folder-1"].

Definition world : World :=
  mkWorld ["file-1"; "file-2"; "file-3"; "file-4"]
    [[CellString "Kabupaten"; CellString "Susenas"]] [].

Definition run (e : Env) (file : File) : error * World :=
  processFile e "sheet-1" file "localhost" "sa" "secret" "Susenas" "7zpass"
    "UPDATE t SET c = 1" world.

End Sample.

(** ** The batch driver *)

(** How the process ends: [log.Fatal] and [log.Fatalf] print their
    message and exit with status 1. *)
Inductive Exit : Type :=
| Completed
| Fatal (msg : string).

(** What [main] asks before it reaches the files: the loading of the
    .env file, the search of a tool in PATH, the construction of the two
    clients from the credentials file, and the listing of Drive.  The
    variables of the process are read with [os_Getenv], which stands for
    the environment as it is once the .env file is loaded.  The listing
    reads and changes nothing, and is not written to the log. *)
Record Startup : Type := mkStartup {
  godotenv_Load : error;
  exec_LookPath : string -> error;
  drive_NewService : string -> error;
  sheets_NewService : string -> error;
  files_List : list Event -> string -> result (list File)
}.

Section Batch.

Variable st : Startup.
Variable env : Env.

Definition getFilesFromFolder : M (list File * error) :=
  let query := "trashed = false and mimeType != 'application/vnd.google-apps.folder' and name contains 'Susenas2025M'" in
  h <- history ;;
  match files_List st h query with
  | Err e => ret ([], Errorf "Drive API error: " e)
  | Ok files => ret (files, None)
  end.

(** The loop of [main] over the files: an error is logged and the loop
    goes on with the next file. *)
Fixpoint processFiles (spreadsheetID : string) (files : list File)
    (dbHost dbUser dbPass dbName password updateQuery : string) : M unit :=
  match files with
  | [] => ret tt
  | file :: files' =>
      processFile env spreadsheetID file dbHost dbUser dbPass dbName password updateQuery ;;;
      processFiles spreadsheetID files' dbHost dbUser dbPass dbName password updateQuery
  end.

Definition main : M Exit :=
  match godotenv_Load st with
  | Some e => ret (Fatal ("Error loading .env file: " +++ e))
  | None =>
      let dbHost := os_Getenv env "DB_HOST" in
      let dbUser := os_Getenv env "DB_USER" in
      let dbPass := os_Getenv env "DB_PASS" in
      let dbName := os_Getenv env "DB_NAME" in
      let sevenZPassword := os_Getenv env "SEVENZ_PASSWORD" in
      let updateQuery := os_Getenv env "UPDATE_QUERY" in
      let serviceAccountFile := os_Getenv env "SERVICE_ACCOUNT_FILE" in
      let spreadsheetID := os_Getenv env "SPREADSHEET_ID" in
      if String.eqb dbHost "" || String.eqb dbName "" || String.eqb sevenZPassword "" ||
         String.eqb updateQuery "" || String.eqb serviceAccountFile "" ||
         String.eqb spreadsheetID ""
      then ret (Fatal "Missing required environment variables")
      else
        match exec_LookPath st "7z" with
        | Some e =>
            ret (Fatal ("7z not found in PATH: " +++ e +++
                        ". Please install 7-Zip and ensure '7z' is available in PATH."))
        | None =>
            match exec_LookPath st "sqlcmd" with
            | Some e =>
                ret (Fatal ("sqlcmd not found in PATH: " +++ e +++
                            ". Please install SQL Server Command Line Utilities (sqlcmd) and ensure it's available in PATH."))
            | None =>
                match drive_NewService st serviceAccountFile with
                | Some e => ret (Fatal ("Unable to retrieve Drive client: " +++ e))
                | None =>
                    match sheets_NewService st serviceAccountFile with
                    | Some e => ret (Fatal ("Unable to retrieve Sheets client: " +++ e))
                    | None =>
                        '(files, err) <- getFilesFromFolder ;;
                        match err with
                        | Some e => ret (Fatal ("Unable to get files: " +++ e))
                        | None =>
                            processFiles spreadsheetID files dbHost dbUser dbPass dbName
                              sevenZPassword updateQuery ;;;
                            ret Completed
                        end
                    end
                end
            end
        end
  end.

End Batch.

(** ** Further vocabulary *)

(** The variables that [main] requires to be set. *)
Definition requiredVariables : list string :=
  ["DB_HOST"; "DB_NAME"; "SEVENZ_PASSWORD"; "UPDATE_QUERY"; "SERVICE_ACCOUNT_FILE";
   "SPREADSHEET_ID"].

(** The start succeeds up to the listing: the .env file loads, the
    required variables are set, both tools are found and both clients
    are built. *)
Definition ready (st : Startup) (env : Env) : Prop :=
  godotenv_Load st = None /\
  Forall (fun name => os_Getenv env name <> "") requiredVariables /\
  exec_LookPath st "7z" = None /\
  exec_LookPath st "sqlcmd" = None /\
  drive_NewService st (os_Getenv env "SERVICE_ACCOUNT_FILE") = None /\
  sheets_NewService st (os_Getenv env "SERVICE_ACCOUNT_FILE") = None.

(** The query that selects the candidate files. *)
Definition candidateQuery : string :=
  "trashed = false and mimeType != 'application/vnd.google-apps.folder' and name contains 'Susenas2025M'".

(** The loop of [main] with the settings read from the environment. *)
Definition batch (env : Env) (files : list File) : M unit :=
  processFiles env (os_Getenv env "SPREADSHEET_ID") files
    (os_Getenv env "DB_HOST") (os_Getenv env "DB_USER") (os_Getenv env "DB_PASS")
    (os_Getenv env "DB_NAME") (os_Getenv env "SEVENZ_PASSWORD") (os_Getenv env "UPDATE_QUERY").

(** A deletion that names one of the given files, or a call that is not
    a deletion. *)
Definition deleteWithin (ids : list string) (ev : Event) : bool :=
  match ev with
  | DriveDelete id _ => existsb (String.eqb id) ids
  | _ => true
  end.

(** From [w] to [w'] no file has entered the store, no file other than
    the given ones has left it, and no other file was asked to be
    deleted. *)
Definition confined (ids : list string) (w w' : World) : Prop :=
  (forall x, In x (store w') -> In x (store w)) /\
  (forall x, ~ In x ids -> In x (store w) -> In x (store w')) /\
  exists evs, log w' = log w ++ evs /\ forallb (deleteWithin ids) evs = true.

Definition Confined {A} (ids : list string) (m : M A) : Prop :=
  forall w, confined ids w (snd (m w)).

(** What [processFile] does between the creation of the scratch
    directory and its deferred removal. *)
Definition inScratch (env : Env) (spreadsheetID : string) (file : File)
    (dbHost dbUser dbPass dbName password updateQuery tempDir : string) : M error :=
  '(bakFile, err) <- downloadAndExtract env file tempDir password ;;
  match err with
  | Some e =>
      del <- shouldDelete env file ;;
      (if del then deleteFileAndUpdateSpreadsheet env spreadsheetID file ;;; ret tt
       else ret tt) ;;;
      ret (Some e)
  | None =>
      grantPermissions env bakFile dbHost ;;;
      err <- restoreDB env dbHost dbUser dbPass dbName bakFile ;;
      match err with
      | Some e => ret (Some e)
      | None =>
          err <- runUpdateQuery env dbHost dbUser dbPass dbName updateQuery ;;
          match err with
          | Some e => ret (Some e)
          | None =>
              err <- deleteFileAndUpdateSpreadsheet env spreadsheetID file ;;
              match err with
              | Some e => ret (Some e)
              | None => ret None
              end
          end
      end
  end.

(** The error that stops the walk of a tree: that of the first entry, in
    the order of the walk, that cannot be read. *)
Fixpoint firstError (n : FsNode) : error :=
  match n with
  | FsFile _ => None
  | FsDir _ entries =>
      (fix first (l : list FsNode) : error :=
         match l with
         | [] => None
         | c :: l' => match firstError c with Some e => Some e | None => first l' end
         end) entries
  | FsDirUnreadable _ e | FsLstatError _ e => Some e
  end.

(** Every call is a [sqlcmd] on the given connection arguments. *)
Definition sqlcmdOn (args : list string) (ev : Event) : Prop :=
  exists (rest : list string) (out : string) (err : error),
    ev = Exec "sqlcmd" (args ++ rest) out err.

(** The account of the SQL Server service for a host: the default
    instance, or the instance named after the first backslash. *)
Definition serviceAccount (dbHost : string) : string :=
  if strings.Contains dbHost backslash
  then "NT SERVICE" +++ backslash +++ "MSSQL$" +++ nth 1 (strings.SplitN2 dbHost backslash) ""
  else "NT SERVICE" +++ backslash +++ "MSSQLSERVER".

(** ** A sample start *)

Module SampleRun.

Definition Getenv (name : string) : string :=
  if String.eqb name "DB_HOST" then "localhost"
  else if String.eqb name "DB_NAME" then "Susenas"
  else if String.eqb name "SEVENZ_PASSWORD" then "7zpass"
  else if String.eqb name "UPDATE_QUERY" then "UPDATE t SET c = 1"
  else if String.eqb name "SERVICE_ACCOUNT_FILE" then "sa.json"
  else if String.eqb name "SPREADSHEET_ID" then "sheet-1"
  else "".

(** The sample host with the variables of the .env file set; user and
    password are left empty. *)
Definition withGetenv (f : string -> string) (e : Env) : Env :=
  mkEnv (time_Parse e) (time_Format e) (time_LoadLocation e) (time_Local e) f
    (filepath_Join e) (filepath_Dir e) (PathSeparator e) (time_Now e) (drive_Delete e)
    (drive_Get e) (drive_Download e) (os_Create e) (io_Copy e) (os_MkdirTemp e) (os_Tree e)
    (exec_Command e) (sheets_Get e) (sheets_Update e) (sheets_Append e).

Definition env : Env := withGetenv Getenv Sample.env.

Definition withMkdirTemp (f : list Event -> result string) (e : Env) : Env :=
  mkEnv (time_Parse e) (time_Format e) (time_LoadLocation e) (time_Local e) (os_Getenv e)
    (filepath_Join e) (filepath_Dir e) (PathSeparator e) (time_Now e) (drive_Delete e)
    (drive_Get e) (drive_Download e) (os_Create e) (io_Copy e) f (os_Tree e)
    (exec_Command e) (sheets_Get e) (sheets_Update e) (sheets_Append e).

Definition withDownload (f : list Event -> string -> error) (e : Env) : Env :=
  mkEnv (time_Parse e) (time_Format e) (time_LoadLocation e) (time_Local e) (os_Getenv e)
    (filepath_Join e) (filepath_Dir e) (PathSeparator e) (time_Now e) (drive_Delete e)
    (drive_Get e) f (os_Create e) (io_Copy e) (os_MkdirTemp e) (os_Tree e)
    (exec_Command e) (sheets_Get e) (sheets_Update e) (sheets_Append e).

Definition withSheets (get : list Event -> string -> error)
    (update : list Event -> string -> string -> error)
    (append : list Event -> string -> list string -> error) (e : Env) : Env :=
  mkEnv (time_Parse e) (time_Format e) (time_LoadLocation e) (time_Local e) (os_Getenv e)
    (filepath_Join e) (filepath_Dir e) (PathSeparator e) (time_Now e) (drive_Delete e)
    (drive_Get e) (drive_Download e) (os_Create e) (io_Copy e) (os_MkdirTemp e) (os_Tree e)
    (exec_Command e) get update append.

Definition withZone (tz : string) (load : string -> result string) (e : Env) : Env :=
  mkEnv (time_Parse e) (time_Format e) load (time_Local e)
    (fun name => if String.eqb name "SPREADSHEET_TIMEZONE" then tz else os_Getenv e name)
    (filepath_Join e) (filepath_Dir e) (PathSeparator e) (time_Now e) (drive_Delete e)
    (drive_Get e) (drive_Download e) (os_Create e) (io_Copy e) (os_MkdirTemp e) (os_Tree e)
    (exec_Command e) (sheets_Get e) (sheets_Update e) (sheets_Append e).

Definition listing (files : result (list File)) : Startup :=
  mkStartup None (fun _ => None) (fun _ => None) (fun _ => None) (fun _ _ => files).

(** A backup that lies in no folder. *)
Definition orphan : File :=
  mkFile "file-6" "Susenas2025M_3206.7z" "2025-01-01T00:00:00Z" 52428800 [].

Definition tiny : File :=
  mkFile "file-5" "Susenas2025M_3205.7z" "2025-01-01T00:00:00Z" 0 ["folder-1"].

(** A host that refuses the deletion of the first small file only. *)
Definition refusing (h : list Event) (id : string) : error :=
  if String.eqb id "file-4" then Some "googleapi: Error 403" else None.

End SampleRun.

(** ** The library functions on samples *)

Example TrimSpace_sample : strings.TrimSpace ("  a b " +++ lf) = "a b".
Proof. reflexivity. Qed.

(** White space beyond ASCII is trimmed as well, at both ends; a byte
    that is no rune on its own is not. *)
Example TrimSpace_unicode :
  strings.TrimSpace (nbsp +++ "  Kab. Bogor" +++ nbsp +++ ideographicSpace +++ lf)
    = "Kab. Bogor" /\
  strings.TrimSpace (" a" +++ nbsp +++ "b ") = "a" +++ nbsp +++ "b" /\
  strings.TrimSpace (String (ascii_of_nat 160) "a" +++ String (ascii_of_nat 194) " ")
    = String (ascii_of_nat 160) "a" +++ String (ascii_of_nat 194) "".
Proof. repeat split; reflexivity. Qed.

Example Split_sample : strings.Split "a|b||c|" "|" = ["a"; "b"; ""; "c"; ""].
Proof. reflexivity. Qed.

Example Split_long_separator : strings.Split "a--b-c--" "--" = ["a"; "b-c"; ""].
Proof. reflexivity. Qed.

Example Split_empty : strings.Split "" lf = [""].
Proof. reflexivity. Qed.

Example SplitN2_sample :
  strings.SplitN2 ("srv" +++ backslash +++ "SQLEXPRESS") backslash = ["srv"; "SQLEXPRESS"].
Proof. reflexivity. Qed.

Example HasSuffix_sample :
  strings.HasSuffix "Susenas.bak" ".bak" = true /\ strings.HasSuffix "bak" ".bak" = false.
Proof. split; reflexivity. Qed.

Example EqualFold_sample :
  strings.EqualFold "nUlL" "NULL" = true /\ strings.EqualFold "NULL " "NULL" = false.
Proof. split; reflexivity. Qed.

Example time_Sub_sample :
  time_Sub 10 3 = 7%Z /\ time_Sub (2 ^ 64) 0 = maxDuration /\ time_Sub 0 (2 ^ 64) = minDuration.
Proof. repeat split; reflexivity. Qed.

Example itoa_sample : itoa 12 = "12" /\ parseB "B12" = Some 12 /\ parseB "B0" = None.
Proof. repeat split; reflexivity. Qed.

(** The manifest of the specification: a data row and a log row, a
    blank line and a line of two columns between them. *)
Example fileList_sample :
  fileList ("DataLog|C:\db\DataLog.mdf|D|PRIMARY" +++ lf +++ lf +++ "rows|2" +++ lf +++
            " DataLog_log | C:\db\DataLog_log.ldf | l | NULL")
  = ("DataLog", "DataLog_log").
Proof. reflexivity. Qed.

(** A type column that a no-break space precedes is read as the
    column of a log row. *)
Example fileList_unicode_type_column :
  fileList ("Susenas|D:\data\Susenas.mdf|D|PRIMARY" +++ lf +++
            "Susenas_log|D:\data\Susenas_log.ldf|" +++ nbsp +++ "L|NULL")
  = ("Susenas", "Susenas_log").
Proof. reflexivity. Qed.

(** ** Running the monad *)

Lemma bind_run {A B} (m : M A) (k : A -> M B) (w w' : World) (a : A) :
  m w = (a, w') -> bind m k w = k a w'.
Proof. intros H; unfold bind; rewrite H; reflexivity. Qed.

Lemma run_eq (env : Env) (name : string) (args : list string) (w : World) :
  run env name args w =
  (exec_Command env (log w) name args,
   mkWorld (store w) (ledger w)
     (log w ++ [Exec name args (fst (exec_Command env (log w) name args))
                               (snd (exec_Command env (log w) name args))])).
Proof. reflexivity. Qed.

Lemma run_log (env : Env) (name : string) (args : list string) (w w' : World)
    (out : string) (err : error) :
  run env name args w = ((out, err), w') ->
  store w' = store w /\ ledger w' = ledger w /\ log w' = log w ++ [Exec name args out err].
Proof.
  rewrite run_eq; intros H; inversion H as [[H1 H2]].
  rewrite H1; cbn; auto.
Qed.

(** ** Quiet computations *)

Lemma Quiet_ret {A} (a : A) : Quiet (ret a).
Proof.
  intros w; cbn; repeat split; exists []; rewrite app_nil_r; auto.
Qed.

Lemma Quiet_bind {A B} (m : M A) (k : A -> M B) :
  Quiet m -> (forall a, Quiet (k a)) -> Quiet (bind m k).
Proof.
  intros Hm Hk w; unfold bind.
  destruct (m w) as [a w1] eqn:E.
  specialize (Hm w); rewrite E in Hm; cbn [snd] in Hm.
  destruct Hm as (Hs & Hl & evs & Hlog & Hq).
  destruct (Hk a w1) as (Hs' & Hl' & evs' & Hlog' & Hq').
  repeat split; try congruence.
  exists (evs ++ evs'); split.
  - rewrite Hlog', Hlog, app_assoc; reflexivity.
  - rewrite forallb_app, Hq, Hq'; reflexivity.
Qed.

Lemma Quiet_history : Quiet history.
Proof.
  intros w; cbn; repeat split; exists []; rewrite app_nil_r; auto.
Qed.

Lemma Quiet_emit (ev : Event) : quietEvent ev = true -> Quiet (emit ev).
Proof.
  intros H w; cbn; repeat split; exists [ev]; cbn; rewrite H; auto.
Qed.

Lemma Quiet_run (env : Env) (name : string) (args : list string) : Quiet (run env name args).
Proof.
  unfold run; apply Quiet_bind; [apply Quiet_history|]; intros h.
  apply Quiet_bind; [apply Quiet_emit; reflexivity|]; intros _; apply Quiet_ret.
Qed.

(** Splits a quiet goal along the structure of the program. *)
Ltac quiet :=
  repeat first
    [ apply Quiet_ret
    | apply Quiet_history
    | apply Quiet_run
    | apply Quiet_emit; reflexivity
    | apply Quiet_bind; [| intros ?]
    | match goal with
      | |- Quiet (match ?x with _ => _ end) => destruct x
      | |- Quiet (if ?x then _ else _) => destruct x
      | |- Quiet (let (_, _) := ?x in _) => destruct x
      end ].

Lemma Quiet_createTempDir (env : Env) : Quiet (createTempDir env).
Proof. unfold createTempDir; quiet. Qed.

Lemma Quiet_downloadAndExtract (env : Env) (file : File) (tempDir password : string) :
  Quiet (downloadAndExtract env file tempDir password).
Proof.
  unfold downloadAndExtract, downloadFile, extract7z, findBakFile, filepath_Walk; quiet.
Qed.

Lemma Quiet_grantPermissions (env : Env) (bakFile dbHost : string) :
  Quiet (grantPermissions env bakFile dbHost).
Proof. unfold grantPermissions; quiet. Qed.

Lemma Quiet_restoreDB (env : Env) (host user pass dbName bakPath : string) :
  Quiet (restoreDB env host user pass dbName bakPath).
Proof. unfold restoreDB; quiet. Qed.

Lemma Quiet_runUpdateQuery (env : Env) (host user pass dbName query : string) :
  Quiet (runUpdateQuery env host user pass dbName query).
Proof. unfold runUpdateQuery; quiet. Qed.

Lemma Quiet_shouldDelete (env : Env) (file : File) : Quiet (shouldDelete env file).
Proof. unfold shouldDelete; quiet. Qed.

Lemma Quiet_os_RemoveAll (path : string) : Quiet (os_RemoveAll path).
Proof. unfold os_RemoveAll; quiet. Qed.

(** What a quiet computation tells about the world it ends in. *)
Lemma Quiet_at {A} (m : M A) (w w' : World) (a : A) :
  Quiet m -> m w = (a, w') -> unchanged w w'.
Proof. intros Hq H; specialize (Hq w); rewrite H in Hq; exact Hq. Qed.

Lemma unchanged_trans (w1 w2 w3 : World) :
  unchanged w1 w2 -> unchanged w2 w3 -> unchanged w1 w3.
Proof.
  intros (S1 & L1 & evs1 & E1 & Q1) (S2 & L2 & evs2 & E2 & Q2).
  repeat split; try congruence.
  exists (evs1 ++ evs2); split.
  - rewrite E2, E1, app_assoc; reflexivity.
  - rewrite forallb_app, Q1, Q2; reflexivity.
Qed.

Lemma unchanged_emit (w : World) (ev : Event) :
  quietEvent ev = true -> unchanged w (mkWorld (store w) (ledger w) (log w ++ [ev])).
Proof. intros H; repeat split; exists [ev]; cbn; rewrite H; auto. Qed.

(** ** The size gate *)

Section SizeGate.

Variable env : Env.
Variables spreadsheetID dbHost dbUser dbPass dbName password updateQuery : string.

(** C8.  A candidate file whose declared size is below 10 KiB gets the
    deletion of the source attempted and nothing else: the log grows by
    that one call, so no scratch directory is created and no download,
    extraction, restore or ledger call is made, and the ledger is left
    as it was. *)
Theorem processFile_small_file (file : File) (w : World) :
  (Size file < 10 * 1024)%Z ->
  exists err w',
    processFile env spreadsheetID file dbHost dbUser dbPass dbName password updateQuery w
      = (err, w') /\
    log w' = log w ++ [DriveDelete (Id file) (drive_Delete env (log w) (Id file))] /\
    ledger w' = ledger w /\
    err = match drive_Delete env (log w) (Id file) with
          | Some e => Some ("failed to delete small file: " +++ e)
          | None => None
          end.
Proof.
  intros Hsize.
  unfold processFile.
  replace (Size file <? minFileSize)%Z with true
    by (symmetry; apply Z.ltb_lt; exact Hsize).
  unfold deleteSmallFile, Files_Delete, bind, history, emit, removeFromStore, ret; cbn.
  destruct (drive_Delete env (log w) (Id file)) as [e|]; cbn;
    eexists; eexists; repeat split; reflexivity.
Qed.

End SizeGate.

Lemma processFile_small_file_witness :
  exists err w',
    processFile Sample.env "sheet-1" Sample.small "localhost" "sa" "secret" "Susenas"
      "7zpass" "UPDATE t SET c = 1" Sample.world = (err, w') /\
    log w' = [DriveDelete "file-4" None] /\
    ledger w' = ledger Sample.world /\
    err = None.
Proof.
  exact (processFile_small_file Sample.env "sheet-1" "localhost" "sa" "secret" "Susenas"
           "7zpass" "UPDATE t SET c = 1" Sample.small Sample.world eq_refl).
Defined.

(** ** The database restorer *)

Section Restorer.

Variable env : Env.
Variables host user pass dbName bakPath : string.

Lemma restoreDB_until_single_user (w w1 w2 : World) (out1 out2 : string) (err2 : error) :
  run env "sqlcmd" (fileListCommand host user pass bakPath) w = ((out1, None), w1) ->
  run env "sqlcmd" (dataPathCommand host user pass) w1 = ((out2, err2), w2) ->
  restoreDB env host user pass dbName bakPath w =
  ('(_, err) <- run env "sqlcmd" (singleUserCommand host user pass dbName) ;;
   match err with
   | Some e => ret (Errorf "failed to set database to single user: " e)
   | None =>
       '(_, err) <- run env "sqlcmd" (restoreCommandOf host user pass dbName bakPath env out1 out2) ;;
       match err with
       | Some e => ret (Errorf "restore failed: " e)
       | None =>
           run env "sqlcmd" (multiUserCommand host user pass dbName) ;;; ret None
       end
   end) w2.
Proof.
  intros H1 H2.
  unfold restoreDB.
  rewrite (bind_run _ _ _ _ _ H1).
  destruct (fileList (strings.TrimSpace out1)) as [d l] eqn:E.
  rewrite (bind_run _ _ _ _ _ H2).
  unfold restoreCommandOf; rewrite E; reflexivity.
Qed.

(** C4.  When the single-user-mode command fails, [restoreDB] returns an
    error and stops: the log holds the three commands issued so far and
    neither the RESTORE nor the multi-user-mode command.  When the
    RESTORE command succeeds, [restoreDB] returns [nil] whatever the
    multi-user-mode command answers, a failure included. *)
Theorem restoreDB_access_mode_steps (w w1 w2 : World) (out1 out2 : string) (err2 : error) :
  run env "sqlcmd" (fileListCommand host user pass bakPath) w = ((out1, None), w1) ->
  run env "sqlcmd" (dataPathCommand host user pass) w1 = ((out2, err2), w2) ->
  (forall (out3 e : string) (w3 : World),
      run env "sqlcmd" (singleUserCommand host user pass dbName) w2 = ((out3, Some e), w3) ->
      restoreDB env host user pass dbName bakPath w
        = (Some ("failed to set database to single user: " +++ e), w3) /\
      log w3 = log w ++
        [Exec "sqlcmd" (fileListCommand host user pass bakPath) out1 None;
         Exec "sqlcmd" (dataPathCommand host user pass) out2 err2;
         Exec "sqlcmd" (singleUserCommand host user pass dbName) out3 (Some e)]) /\
  (forall (out3 out4 out5 e : string) (w3 w4 w5 : World),
      run env "sqlcmd" (singleUserCommand host user pass dbName) w2 = ((out3, None), w3) ->
      run env "sqlcmd" (restoreCommandOf host user pass dbName bakPath env out1 out2) w3 = ((out4, None), w4) ->
      run env "sqlcmd" (multiUserCommand host user pass dbName) w4 = ((out5, Some e), w5) ->
      restoreDB env host user pass dbName bakPath w = (None, w5)).
Proof.
  intros H1 H2; split.
  - intros out3 e w3 H3.
    rewrite (restoreDB_until_single_user _ _ _ _ _ _ H1 H2).
    rewrite (bind_run _ _ _ _ _ H3); split; [reflexivity|].
    apply run_log in H1, H2, H3.
    destruct H1 as (_ & _ & L1), H2 as (_ & _ & L2), H3 as (_ & _ & L3).
    rewrite L3, L2, L1, <- !app_assoc; reflexivity.
  - intros out3 out4 out5 e w3 w4 w5 H3 H4 H5.
    rewrite (restoreDB_until_single_user _ _ _ _ _ _ H1 H2).
    rewrite (bind_run _ _ _ _ _ H3); cbv beta iota.
    rewrite (bind_run _ _ _ _ _ H4); cbv beta iota.
    rewrite (bind_run _ _ _ _ _ H5); reflexivity.
Qed.

(** Once the single-user-mode command has succeeded, the next command
    in the log is the RESTORE built from the two answers. *)
Lemma restoreDB_issues_restore (w w1 w2 w3 : World) (out1 out2 out3 : string) (err2 : error) :
  run env "sqlcmd" (fileListCommand host user pass bakPath) w = ((out1, None), w1) ->
  run env "sqlcmd" (dataPathCommand host user pass) w1 = ((out2, err2), w2) ->
  run env "sqlcmd" (singleUserCommand host user pass dbName) w2 = ((out3, None), w3) ->
  exists (r : error) (w' : World) (out4 : string) (err4 : error) (rest : list Event),
    restoreDB env host user pass dbName bakPath w = (r, w') /\
    log w' = log w3 ++
      Exec "sqlcmd" (restoreCommandOf host user pass dbName bakPath env out1 out2) out4 err4
      :: rest.
Proof.
  intros H1 H2 H3.
  rewrite (restoreDB_until_single_user _ _ _ _ _ _ H1 H2).
  rewrite (bind_run _ _ _ _ _ H3); cbv beta iota.
  destruct (run env "sqlcmd" (restoreCommandOf host user pass dbName bakPath env out1 out2) w3)
    as [[out4 err4] w4] eqn:H4.
  rewrite (bind_run _ _ _ _ _ H4); cbv beta iota.
  pose proof (run_log _ _ _ _ _ _ _ H4) as (_ & _ & L4).
  destruct err4 as [e|].
  - exists (Errorf "restore failed: " e), w4, out4, (Some e), [].
    split; [reflexivity | exact L4].
  - destruct (run env "sqlcmd" (multiUserCommand host user pass dbName) w4)
      as [[out5 err5] w5] eqn:H5.
    rewrite (bind_run _ _ _ _ _ H5).
    pose proof (run_log _ _ _ _ _ _ _ H5) as (_ & _ & L5).
    exists None, w5, out4, None, [Exec "sqlcmd" (multiUserCommand host user pass dbName) out5 err5].
    split; [reflexivity|].
    rewrite L5, L4, <- app_assoc; reflexivity.
Qed.

End Restorer.

(** ** The manifest *)

Lemma last_cons {A} (x d : A) (l : list A) : last (x :: l) d = last l x.
Proof.
  revert x d; induction l as [|y l IH]; intros x d; [reflexivity|].
  change (last (x :: y :: l) d) with (last (y :: l) d).
  rewrite (IH y d), (IH y x); reflexivity.
Qed.

(** One turn of the loop is the row of the line, put into its slot. *)
Lemma fileListLine_row (names : string * string) (l : string) :
  fileListLine names l =
  match manifestRow l with
  | None => names
  | Some (name, Log) => (fst names, name)
  | Some (name, Data) => (name, snd names)
  end.
Proof.
  unfold fileListLine, manifestRow.
  destruct (String.eqb (strings.TrimSpace l) ""); [reflexivity|].
  destruct (map strings.TrimSpace (strings.Split (strings.TrimSpace l) "|"))
    as [|a [|b [|c cols]]]; try reflexivity.
  replace (len (a :: b :: c :: cols) <? 3)%Z with false.
  - cbn [nth]. destruct (strings.HasPrefix (strings.ToUpper c) "L"); reflexivity.
  - symmetry; apply Z.ltb_ge; unfold len; cbn [List.length]; lia.
Qed.

Lemma retained_cons (k : FileKind) (row : string * FileKind)
    (rows : list (string * FileKind)) (none : string) :
  retained k (row :: rows) none = retained k rows (if isKind k row then fst row else none).
Proof.
  unfold retained; cbn [filter].
  destruct (isKind k row); cbn [map]; [apply last_cons | reflexivity].
Qed.

Lemma fileList_loop (lines : list string) (names : string * string) :
  fold_left fileListLine lines names =
  (retained Data (manifestRows lines) (fst names),
   retained Log (manifestRows lines) (snd names)).
Proof.
  revert names; induction lines as [|l lines IH]; intros names.
  - destruct names; reflexivity.
  - cbn [fold_left manifestRows]; rewrite IH, fileListLine_row.
    destruct (manifestRow l) as [[name [|]]|]; try reflexivity;
      rewrite !retained_cons; reflexivity.
Qed.

Lemma fileList_blank (listOut : string) : listOut = "" -> fileList listOut = ("", "").
Proof. intros ->; reflexivity. Qed.

(** Runs the program on a closed input. *)
Ltac evaluate := cbv; reflexivity.

Lemma restoreDB_access_mode_steps_witness :
  fst (restoreDB
         (Sample.host "ALTER DATABASE Susenas SET SINGLE_USER" "" (Some "exit status 1"))
         "localhost" "sa" "secret" "Susenas" Sample.bak Sample.world)
    = Some "failed to set database to single user: exit status 1" /\
  fst (restoreDB
         (Sample.host "ALTER DATABASE Susenas SET MULTI_USER" "" (Some "exit status 1"))
         "localhost" "sa" "secret" "Susenas" Sample.bak Sample.world)
    = None.
Proof.
  split.
  - edestruct (restoreDB_access_mode_steps
                 (Sample.host "ALTER DATABASE Susenas SET SINGLE_USER" "" (Some "exit status 1"))
                 "localhost" "sa" "secret" "Susenas" Sample.bak Sample.world)
      as [Hfail _]; [evaluate | evaluate |].
    edestruct Hfail as [Hr _]; [evaluate |].
    rewrite Hr; reflexivity.
  - edestruct (restoreDB_access_mode_steps
                 (Sample.host "ALTER DATABASE Susenas SET MULTI_USER" "" (Some "exit status 1"))
                 "localhost" "sa" "secret" "Susenas" Sample.bak Sample.world)
      as [_ Hwarn]; [evaluate | evaluate |].
    erewrite Hwarn; [reflexivity | evaluate | evaluate | evaluate].
Defined.

(** C5.  The loop over the manifest keeps, for each kind, the first
    column of the last row of that kind, where a row is a line that is
    not blank and has three columns or more and is a Log row exactly when
    its upper-cased third column starts with L; and when the manifest
    command printed nothing, the RESTORE command that [restoreDB] issues
    moves the logical files [dbName] and [dbName + "_log"]. *)
Theorem restoreDB_manifest (env : Env) (host user pass dbName bakPath : string) :
  (forall listOut : string,
      fileList listOut =
      (retained Data (manifestRows (strings.Split listOut lf)) "",
       retained Log (manifestRows (strings.Split listOut lf)) "")) /\
  (forall (w w1 w2 w3 : World) (out1 out2 out3 : string) (err2 : error),
      run env "sqlcmd" (fileListCommand host user pass bakPath) w = ((out1, None), w1) ->
      strings.TrimSpace out1 = "" ->
      run env "sqlcmd" (dataPathCommand host user pass) w1 = ((out2, err2), w2) ->
      run env "sqlcmd" (singleUserCommand host user pass dbName) w2 = ((out3, None), w3) ->
      exists (r : error) (w' : World) (out4 : string) (err4 : error) (rest : list Event),
        restoreDB env host user pass dbName bakPath w = (r, w') /\
        log w' = log w3 ++
          Exec "sqlcmd"
            (restoreCommand host user pass dbName bakPath env
               dbName (dbName +++ "_log") (resolveDataPath env out2 bakPath)) out4 err4
          :: rest).
Proof.
  split.
  - intros listOut; unfold fileList.
    destruct (String.eqb listOut "") eqn:E.
    + apply String.eqb_eq in E; subst listOut; reflexivity.
    + cbn [negb]; apply fileList_loop.
  - intros w w1 w2 w3 out1 out2 out3 err2 H1 Hblank H2 H3.
    destruct (restoreDB_issues_restore env host user pass dbName bakPath _ _ _ _ _ _ _ _ H1 H2 H3)
      as (r & w' & out4 & err4 & rest & Hr & Hlog).
    exists r, w', out4, err4, rest; split; [exact Hr|].
    rewrite Hlog; unfold restoreCommandOf; rewrite Hblank; reflexivity.
Qed.

Lemma restoreDB_manifest_witness :
  exists (r : error) (w' : World) (out4 : string) (err4 : error) (rest : list Event),
    restoreDB (Sample.host "SET NOCOUNT ON; RESTORE FILELISTONLY" lf None)
      "localhost" "sa" "secret" "Susenas" Sample.bak Sample.world = (r, w') /\
    skipn 3 (log w') =
      Exec "sqlcmd"
        ["-S"; "localhost"; "-d"; "master"; "-U"; "sa"; "-P"; "secret"; "-Q";
         "RESTORE DATABASE Susenas FROM DISK='/tmp/backup-1/extracted/db/b.bak' WITH REPLACE, MOVE 'Susenas' TO '/var/opt/mssql/data/Susenas.mdf', MOVE 'Susenas_log' TO '/var/opt/mssql/data/Susenas_log.ldf'"]
        out4 err4
      :: rest.
Proof.
  edestruct (restoreDB_manifest (Sample.host "SET NOCOUNT ON; RESTORE FILELISTONLY" lf None)
               "localhost" "sa" "secret" "Susenas" Sample.bak) as [_ Hempty].
  edestruct (Hempty Sample.world) as (r & w' & out4 & err4 & rest & Hr & Hlog);
    [evaluate | evaluate | evaluate | evaluate |].
  exists r, w', out4, err4, rest; split; [exact Hr|].
  rewrite Hlog; reflexivity.
Defined.

(** ** The data path *)

(** An answer that is blank or NULL resolves to the directory of the
    backup file. *)
Lemma resolveDataPath_fallback (env : Env) (out bakPath : string) :
  strings.TrimSpace out = "" \/ strings.EqualFold (strings.TrimSpace out) "NULL" = true ->
  resolveDataPath env out bakPath = filepath_Dir env bakPath.
Proof.
  intros [H | H]; unfold resolveDataPath; rewrite H; [reflexivity|].
  rewrite orb_true_r; reflexivity.
Qed.

(** C6, where the code departs from it.  When the data-path query fails
    after having printed a text that is neither blank nor NULL, the data
    path is that text and not the directory of the backup file: the
    error of the query is not consulted, and the RESTORE command moves
    the files under the printed text. *)
Theorem restoreDB_failed_data_path_query (env : Env) (host user pass dbName bakPath : string)
    (w w1 w2 w3 : World) (out1 out2 out3 e : string) :
  run env "sqlcmd" (fileListCommand host user pass bakPath) w = ((out1, None), w1) ->
  run env "sqlcmd" (dataPathCommand host user pass) w1 = ((out2, Some e), w2) ->
  strings.TrimSpace out2 <> "" ->
  strings.EqualFold (strings.TrimSpace out2) "NULL" = false ->
  run env "sqlcmd" (singleUserCommand host user pass dbName) w2 = ((out3, None), w3) ->
  resolveDataPath env out2 bakPath = strings.TrimSpace out2 /\
  exists (r : error) (w' : World) (out4 : string) (err4 : error) (rest : list Event),
    restoreDB env host user pass dbName bakPath w = (r, w') /\
    log w' = log w3 ++
      Exec "sqlcmd"
        (restoreCommand host user pass dbName bakPath env
           (dataLogicalOr dbName (fst (fileList (strings.TrimSpace out1))))
           (logLogicalOr dbName (snd (fileList (strings.TrimSpace out1))))
           (strings.TrimSpace out2)) out4 err4
      :: rest.
Proof.
  intros H1 H2 Hne Hnull H3.
  assert (Hpath : resolveDataPath env out2 bakPath = strings.TrimSpace out2).
  { unfold resolveDataPath; rewrite Hnull.
    destruct (String.eqb (strings.TrimSpace out2) "") eqn:E; [|reflexivity].
    apply String.eqb_eq in E; contradiction. }
  split; [exact Hpath|].
  destruct (restoreDB_issues_restore env host user pass dbName bakPath _ _ _ _ _ _ _ _ H1 H2 H3)
    as (r & w' & out4 & err4 & rest & Hr & Hlog).
  exists r, w', out4, err4, rest; split; [exact Hr|].
  rewrite Hlog; unfold restoreCommandOf; rewrite Hpath; reflexivity.
Qed.

Lemma restoreDB_failed_data_path_query_witness :
  resolveDataPath
    (Sample.host "SET NOCOUNT ON; SELECT" "Sqlcmd: Error: Login timeout expired."
       (Some "exit status 1"))
    "Sqlcmd: Error: Login timeout expired." Sample.bak
    = "Sqlcmd: Error: Login timeout expired." /\
  exists (r : error) (w' : World) (out4 : string) (err4 : error) (rest : list Event),
    restoreDB
      (Sample.host "SET NOCOUNT ON; SELECT" "Sqlcmd: Error: Login timeout expired."
         (Some "exit status 1"))
      "localhost" "sa" "secret" "Susenas" Sample.bak Sample.world = (r, w') /\
    skipn 3 (log w') =
      Exec "sqlcmd"
        ["-S"; "localhost"; "-d"; "master"; "-U"; "sa"; "-P"; "secret"; "-Q";
         "RESTORE DATABASE Susenas FROM DISK='/tmp/backup-1/extracted/db/b.bak' WITH REPLACE, MOVE 'Susenas' TO 'Sqlcmd: Error: Login timeout expired./Susenas.mdf', MOVE 'Susenas_log' TO 'Sqlcmd: Error: Login timeout expired./Susenas_log.ldf'"]
        out4 err4
      :: rest.
Proof.
  edestruct (restoreDB_failed_data_path_query
               (Sample.host "SET NOCOUNT ON; SELECT" "Sqlcmd: Error: Login timeout expired."
                  (Some "exit status 1"))
               "localhost" "sa" "secret" "Susenas" Sample.bak Sample.world)
    as (Hpath & r & w' & out4 & err4 & rest & Hr & Hlog);
    [evaluate | evaluate | cbv; discriminate | evaluate | evaluate |].
  split; [exact Hpath|].
  exists r, w', out4, err4, rest; split; [exact Hr|].
  rewrite Hlog; reflexivity.
Defined.

(** ** The backup locator *)

Lemma FsNode_induction (P : FsNode -> Prop) :
  (forall name, P (FsFile name)) ->
  (forall name entries, Forall P entries -> P (FsDir name entries)) ->
  (forall name e, P (FsDirUnreadable name e)) ->
  (forall name e, P (FsLstatError name e)) ->
  forall n, P n.
Proof.
  intros Hfile Hdir Hunreadable Hlstat.
  fix IH 1; intros [name | name entries | name e | name e].
  - apply Hfile.
  - apply Hdir; induction entries as [|c entries IHentries]; constructor.
    + apply IH.
    + exact IHentries.
  - apply Hunreadable.
  - apply Hlstat.
Qed.

Lemma keepBak_last (entries : list (string * FileInfo)) (bakFile : string) :
  fold_left keepBak entries bakFile = last (map fst (filter isBak entries)) bakFile.
Proof.
  revert bakFile; induction entries as [|e entries IH]; intros bakFile; [reflexivity|].
  cbn [fold_left filter]; rewrite IH; unfold keepBak.
  destruct (isBak e); [|reflexivity].
  cbn [map]; rewrite last_cons; reflexivity.
Qed.

Section Locator.

Variable env : Env.

Lemma walk_dir {S : Type} (fn : S -> string -> option FileInfo -> error -> S * error)
    (path name : string) (entries : list FsNode) (s : S) :
  walk env fn path (FsDir name entries) s =
  let (s1, err1) := fn s path (Some (mkFileInfo name true)) None in
  match err1 with
  | Some e => (s1, Some e)
  | None => walkNames env fn path entries s1
  end.
Proof. reflexivity. Qed.

Lemma walkNames_readable (path : string) (entries : list FsNode) :
  Forall (fun n => readable n = true ->
                   forall path bakFile : string,
                     walk env findBakFile_fn path n bakFile =
                     (fold_left keepBak (traversal (filepath_Join env) path n) bakFile, None))
         entries ->
  forallb readable entries = true ->
  forall bakFile : string,
    walkNames env findBakFile_fn path entries bakFile =
    (fold_left keepBak
       (flat_map (fun c => traversal (filepath_Join env)
                             (filepath_Join env path (node_name c)) c) entries)
       bakFile, None).
Proof.
  induction 1 as [|c entries Hc _ IH]; intros Hr bakFile; [reflexivity|].
  cbn [forallb] in Hr; apply andb_prop in Hr; destruct Hr as [Hrc Hrest].
  cbn [walkNames flat_map]; rewrite (Hc Hrc), fold_left_app.
  apply IH; exact Hrest.
Qed.

(** The walk of a readable tree hands every entry to the callback, in
    the order of [traversal], and ends without an error. *)
Lemma walk_readable (n : FsNode) :
  readable n = true ->
  forall (path bakFile : string),
    walk env findBakFile_fn path n bakFile =
    (fold_left keepBak (traversal (filepath_Join env) path n) bakFile, None).
Proof.
  induction n as [name | name entries IH | name e | name e] using FsNode_induction;
    intros Hr path bakFile; try discriminate Hr.
  - cbn [walk traversal fold_left findBakFile_fn info_Name]; unfold keepBak, isBak.
    cbn [fst snd info_Name]; destruct (strings.HasSuffix name ".bak"); reflexivity.
  - rewrite walk_dir; cbn [traversal fold_left findBakFile_fn info_Name].
    unfold keepBak at 2, isBak; cbn [fst snd info_Name]; cbn [readable] in Hr.
    destruct (strings.HasSuffix name ".bak"); apply walkNames_readable; assumption.
Qed.

Lemma traversal_paths (n : FsNode) :
  joinsToPath (filepath_Join env) ->
  forall path : string, path <> "" ->
    Forall (fun e => fst e <> "") (traversal (filepath_Join env) path n).
Proof.
  intros Hjoin.
  induction n as [name | name entries IH | name e | name e] using FsNode_induction;
    intros path Hne; cbn [traversal].
  - constructor; [exact Hne | constructor].
  - constructor; [exact Hne|].
    induction entries as [|c entries IHentries]; [constructor|].
    inversion IH as [|? ? IHc IHrest]; subst.
    cbn [flat_map]; apply Forall_app; split.
    + apply IHc; intros E; apply Hjoin in E; destruct E as [E _]; contradiction.
    + apply IHentries; exact IHrest.
  - constructor.
  - constructor.
Qed.

End Locator.

(** The error of a walk that fails is that of the first entry that
    cannot be read. *)
Section WalkError.

Variable env : Env.

Lemma walkNames_firstError (path : string) (entries : list FsNode) :
  Forall (fun n => forall path bakFile : string,
                     snd (walk env findBakFile_fn path n bakFile) = firstError n)
         entries ->
  forall bakFile : string,
    snd (walkNames env findBakFile_fn path entries bakFile) =
    firstError (FsDir "" entries).
Proof.
  induction 1 as [|c entries Hc _ IH]; intros bakFile; [reflexivity|].
  cbn [walkNames firstError]; specialize (Hc (filepath_Join env path (node_name c)) bakFile).
  destruct (walk env findBakFile_fn (filepath_Join env path (node_name c)) c bakFile)
    as [s' err]; cbn [snd] in Hc; rewrite <- Hc.
  destruct err; [reflexivity | apply IH].
Qed.

Lemma walk_firstError (n : FsNode) :
  forall path bakFile : string,
    snd (walk env findBakFile_fn path n bakFile) = firstError n.
Proof.
  induction n as [name | name entries IH | name e | name e] using FsNode_induction;
    intros path bakFile; try reflexivity.
  - cbn [walk findBakFile_fn info_Name firstError].
    destruct (strings.HasSuffix name ".bak"); reflexivity.
  - rewrite walk_dir; cbn [findBakFile_fn info_Name].
    destruct (strings.HasSuffix name ".bak"); apply walkNames_firstError; exact IH.
Qed.

Lemma firstError_readable (n : FsNode) : firstError n = None -> readable n = true.
Proof.
  induction n as [name | name entries IH | name e | name e] using FsNode_induction;
    intros H; try discriminate H; [reflexivity|].
  cbn [firstError readable] in *.
  induction IH as [|c entries Hc _ IHentries]; [reflexivity|].
  cbn [forallb]; destruct (firstError c); [discriminate H|].
  rewrite (Hc eq_refl); exact (IHentries H).
Qed.

End WalkError.

(** Where no directory is named like a backup, the entries named like
    one are the regular files so named. *)
Lemma bakPaths_files (join : string -> string -> string) (path : string) (n : FsNode) :
  bakDirectories join path n = [] -> bakPaths join path n = bakFiles join path n.
Proof.
  unfold bakDirectories, bakPaths, bakFiles; intros H; f_equal.
  apply filter_ext_in; intros e He.
  destruct (isBak e) eqn:B, (info_IsDir (snd e)) eqn:D; try reflexivity.
  exfalso.
  assert (Hin : In (fst e) (map fst (filter (fun e => isBak e && info_IsDir (snd e))
                                        (traversal join path n)))).
  { apply in_map, filter_In; split; [exact He | rewrite B, D; reflexivity]. }
  rewrite H in Hin; exact Hin.
Qed.

(** C9, as the code has it.  When the walk of the tree meets an entry
    that cannot be read, [findBakFile] returns the error of the first
    such entry and no path, whatever it has found before.  Otherwise it
    returns the path of the last entry, in the order of the walk, whose
    name ends in .bak when there is one or more, and the error "no .bak
    file found" exactly when there is none; an entry is a regular file
    or a directory, the root included.  So on a tree that holds no
    directory whose name ends in .bak, it returns the path of the last
    file so named, and the error exactly when there is no such file.
    The root is a path that is not empty, and [filepath.Join] gives an
    empty path from empty elements only. *)
Theorem findBakFile_last_match (env : Env) (dir : string) (w : World) :
  joinsToPath (filepath_Join env) ->
  dir <> "" ->
  match firstError (os_Tree env (log w) dir) with
  | Some e => fst (findBakFile env dir w) = ("", Some e)
  | None =>
      ((bakPaths (filepath_Join env) dir (os_Tree env (log w) dir) <> [] ->
        fst (findBakFile env dir w) =
        (last (bakPaths (filepath_Join env) dir (os_Tree env (log w) dir)) "", None)) /\
       (fst (findBakFile env dir w) = ("", Some "no .bak file found") <->
        bakPaths (filepath_Join env) dir (os_Tree env (log w) dir) = [])) /\
      (bakDirectories (filepath_Join env) dir (os_Tree env (log w) dir) = [] ->
       (bakFiles (filepath_Join env) dir (os_Tree env (log w) dir) <> [] ->
        fst (findBakFile env dir w) =
        (last (bakFiles (filepath_Join env) dir (os_Tree env (log w) dir)) "", None)) /\
       (fst (findBakFile env dir w) = ("", Some "no .bak file found") <->
        bakFiles (filepath_Join env) dir (os_Tree env (log w) dir) = []))
  end.
Proof.
  intros Hjoin Hdir.
  destruct (firstError (os_Tree env (log w) dir)) as [e|] eqn:Herr.
  { unfold findBakFile, filepath_Walk, bind, history, emit, ret.
    pose proof (walk_firstError env (os_Tree env (log w) dir) dir "") as Hw.
    cbn [log].
    destruct (walk env findBakFile_fn dir (os_Tree env (log w) dir) "") as [bakFile err].
    cbn [snd] in Hw; rewrite Hw, Herr; reflexivity. }
  pose proof (firstError_readable _ Herr) as Hr.
  assert (Hrun : fst (findBakFile env dir w) =
                 let bakFile := last (bakPaths (filepath_Join env) dir
                                        (os_Tree env (log w) dir)) "" in
                 if String.eqb bakFile "" then ("", Some "no .bak file found")
                 else (bakFile, None)).
  { unfold findBakFile, filepath_Walk, bind, history, emit, ret; cbn [fst snd log].
    rewrite (walk_readable env _ Hr), keepBak_last;
      fold (bakPaths (filepath_Join env) dir (os_Tree env (log w) dir)).
    cbv zeta.
    destruct (String.eqb _ ""); reflexivity. }
  assert (Hfound : bakPaths (filepath_Join env) dir (os_Tree env (log w) dir) <> [] ->
                   String.eqb (last (bakPaths (filepath_Join env) dir
                                       (os_Tree env (log w) dir)) "") "" = false).
  { intros Hne. apply String.eqb_neq.
    pose proof (traversal_paths env (os_Tree env (log w) dir) Hjoin dir Hdir) as Hall.
    unfold bakPaths in *.
    set (found := filter _ _) in *.
    assert (Hsub : Forall (fun e => fst e <> "") found).
    { apply Forall_forall; intros e He; apply filter_In in He.
      rewrite Forall_forall in Hall; apply Hall, He. }
    destruct (exists_last (l := map fst found) Hne) as (l' & p & Heq).
    rewrite Heq, last_last.
    assert (Hin : In p (map fst found)) by (rewrite Heq; apply in_or_app; right; left; reflexivity).
    apply in_map_iff in Hin; destruct Hin as (e & <- & He).
    rewrite Forall_forall in Hsub; apply Hsub, He. }
  assert (Hentries :
            (bakPaths (filepath_Join env) dir (os_Tree env (log w) dir) <> [] ->
             fst (findBakFile env dir w) =
             (last (bakPaths (filepath_Join env) dir (os_Tree env (log w) dir)) "", None)) /\
            (fst (findBakFile env dir w) = ("", Some "no .bak file found") <->
             bakPaths (filepath_Join env) dir (os_Tree env (log w) dir) = [])).
  { rewrite Hrun; cbv zeta; split.
    - intros Hne; rewrite (Hfound Hne); reflexivity.
    - split.
      + intros Heq.
        destruct (bakPaths (filepath_Join env) dir (os_Tree env (log w) dir)) as [|p l] eqn:E;
          [reflexivity|].
        rewrite Hfound in Heq by discriminate. discriminate Heq.
      + intros ->; reflexivity. }
  split; [exact Hentries|].
  intros Hnodir; rewrite <- (bakPaths_files _ _ _ Hnodir); exact Hentries.
Qed.

Lemma joinsToPath_sample : joinsToPath Sample.Join.
Proof.
  intros a b; unfold Sample.Join; destruct a, b; cbn; try discriminate; auto.
Defined.

Lemma findBakFile_last_match_witness :
  fst (findBakFile Sample.env "/tmp/backup-1/extracted" Sample.world)
    = ("/tmp/backup-1/extracted/db/b.bak", None) /\
  fst (findBakFile (Sample.withTree (FsDir "extracted" [FsFile "notes.txt"]) Sample.env)
         "/tmp/backup-1/extracted" Sample.world)
    = ("", Some "no .bak file found") /\
  fst (findBakFile
         (Sample.withTree
            (FsDir "extracted" [FsFile "a.bak"; FsLstatError "db" "lstat db: input/output error"])
            Sample.env)
         "/tmp/backup-1/extracted" Sample.world)
    = ("", Some "lstat db: input/output error").
Proof.
  split; [|split].
  - destruct (findBakFile_last_match Sample.env "/tmp/backup-1/extracted" Sample.world
                joinsToPath_sample ltac:(discriminate)) as [_ Hfiles].
    destruct (Hfiles eq_refl) as [Hlast _].
    apply Hlast; discriminate.
  - destruct (findBakFile_last_match
                (Sample.withTree (FsDir "extracted" [FsFile "notes.txt"]) Sample.env)
                "/tmp/backup-1/extracted" Sample.world
                joinsToPath_sample ltac:(discriminate)) as [_ Hfiles].
    destruct (Hfiles eq_refl) as [_ Hnone].
    apply Hnone; reflexivity.
  - exact (findBakFile_last_match
             (Sample.withTree
                (FsDir "extracted"
                   [FsFile "a.bak"; FsLstatError "db" "lstat db: input/output error"])
                Sample.env)
             "/tmp/backup-1/extracted" Sample.world
             joinsToPath_sample ltac:(discriminate)).
Defined.

(** A tree with one backup file and, after it, a directory that cannot
    be read: [findBakFile] returns the error of the walk, neither the
    path of the file nor "no .bak file found". *)
Lemma findBakFile_unreadable_directory :
  let env := Sample.withTree
               (FsDir "extracted" [FsFile "a.bak"; FsDirUnreadable "db" "permission denied"])
               Sample.env in
  bakFiles (filepath_Join env) "/tmp/backup-1/extracted"
    (os_Tree env (log Sample.world) "/tmp/backup-1/extracted")
    = ["/tmp/backup-1/extracted/a.bak"] /\
  fst (findBakFile env "/tmp/backup-1/extracted" Sample.world) = ("", Some "permission denied").
Proof. split; reflexivity. Qed.

(** The callback does not ask whether an entry is a directory: one whose
    name ends in .bak is kept like a regular file. *)
Example findBakFile_directory_entry :
  fst (findBakFile
         (Sample.withTree (FsDir "extracted" [FsFile "a.bak"; FsDir "old.bak" []]) Sample.env)
         "/tmp/backup-1/extracted" Sample.world)
    = ("/tmp/backup-1/extracted/old.bak", None).
Proof. reflexivity. Qed.

(** A tree that holds a directory so named and no such file: no error
    is returned. *)
Example findBakFile_directory_only :
  let env := Sample.withTree (FsDir "extracted" [FsDir "old.bak" [FsFile "notes.txt"]])
               Sample.env in
  bakFiles (filepath_Join env) "/tmp/backup-1/extracted"
    (os_Tree env (log Sample.world) "/tmp/backup-1/extracted") = [] /\
  fst (findBakFile env "/tmp/backup-1/extracted" Sample.world)
    = ("/tmp/backup-1/extracted/old.bak", None).
Proof. split; reflexivity. Qed.

(** ** The completion tracker *)

(** The reference to a cell of column B that the program prints reads
    back as the row number it was printed from. *)
Lemma parseB_itoa (n : Z) :
  (0 <= n)%Z -> parseB ("B" +++ itoa (n + 1)) = Some (S (Z.to_nat n)).
Proof.
  intros Hn; unfold parseB, itoa; cbn [String.append].
  rewrite NilEmpty.usu, DecimalN.Unsigned.of_to.
  replace (N.to_nat (Z.to_N (n + 1))) with (S (Z.to_nat n)) by lia.
  reflexivity.
Qed.

Lemma rowFor_setB (key value : string) (row : list Cell) :
  rowFor key row = true -> rowFor key (setB row value) = true.
Proof. destruct row as [|[s|] rest]; intros H; try discriminate H; exact H. Qed.

Lemma columnB_setB (value : string) (row : list Cell) :
  columnB (setB row value) = Some (CellString value).
Proof. destruct row; reflexivity. Qed.

Lemma rowFor_new (key value : string) :
  rowFor key [CellString key; CellString value] = true.
Proof. apply String.eqb_refl. Qed.

(** The search loop against the words of the specification: it ends
    with -1 when no row is a row for the key and the upsert appends, and
    with the index of the first such row otherwise, which the upsert
    overwrites. *)
Lemma searchKab_upsertRows (g : list (list Cell)) (kab value : string) (i : Z) :
  (0 <= i)%Z ->
  (searchKab g kab i = (-1)%Z /\
   upsertRows g kab value = g ++ [[CellString kab; CellString value]]) \/
  ((i <= searchKab g kab i)%Z /\
   upsertRows g kab value = updateB g (Z.to_nat (searchKab g kab i - i)) value).
Proof.
  revert i; induction g as [|row g IH]; intros i Hi; [left; split; reflexivity|].
  assert (Hskip : rowFor kab row = false ->
            (searchKab g kab (i + 1) = (-1)%Z /\
             row :: upsertRows g kab value = (row :: g) ++ [[CellString kab; CellString value]]) \/
            ((i <= searchKab g kab (i + 1))%Z /\
             row :: upsertRows g kab value =
             updateB (row :: g) (Z.to_nat (searchKab g kab (i + 1) - i)) value)).
  { intros _; destruct (IH (i + 1)%Z ltac:(lia)) as [[H1 H2] | [H1 H2]].
    - left; split; [exact H1 | rewrite H2; reflexivity].
    - right; split; [lia|].
      replace (Z.to_nat (searchKab g kab (i + 1) - i))
        with (S (Z.to_nat (searchKab g kab (i + 1) - (i + 1)))) by lia.
      cbn [updateB]; rewrite H2; reflexivity. }
  cbn [searchKab upsertRows].
  destruct row as [|[s|] rest]; cbn [rowFor] in *; try (apply Hskip; reflexivity).
  destruct (String.eqb (strings.TrimSpace s) (strings.TrimSpace kab)); [|apply Hskip; reflexivity].
  right; split; [lia|]. rewrite Z.sub_diag; reflexivity.
Qed.

Lemma filter_upsertRows (g : list (list Cell)) (key value : string) :
  filter (rowFor key) (upsertRows g key value) =
  match filter (rowFor key) g with
  | [] => [[CellString key; CellString value]]
  | row :: rest => setB row value :: rest
  end.
Proof.
  induction g as [|row g IH]; cbn [upsertRows filter].
  - rewrite rowFor_new; reflexivity.
  - destruct (rowFor key row) eqn:E; cbn [filter].
    + rewrite (rowFor_setB _ _ _ E); reflexivity.
    + rewrite E; exact IH.
Qed.

(** A call that returns [nil] has done to the ledger what the
    specification words, and nothing to the store. *)
Lemma upsertSpreadsheetRow_upsertRows (env : Env) (spreadsheetID kab createdTime : string)
    (w w' : World) :
  upsertSpreadsheetRow env spreadsheetID kab createdTime w = (None, w') ->
  ledger w' = upsertRows (ledger w) kab createdTime /\ store w' = store w.
Proof.
  unfold upsertSpreadsheetRow, Values_Get, Values_Update, Values_Append, Errorf,
    bind, history, emit, readLedger, writeLedger, ret; cbn [log ledger store].
  destruct (sheets_Get env (log w) "A:B"); [discriminate|]; cbn [log ledger store].
  destruct (searchKab_upsertRows (ledger w) kab createdTime 0 ltac:(lia)) as [[H1 H2] | [H1 H2]].
  - rewrite H1; cbn [Z.leb Z.compare].
    destruct (sheets_Append env _ "A:B" _); [discriminate|].
    intros H; injection H as <-; cbn [ledger store log]; rewrite H2; auto.
  - replace (0 <=? searchKab (ledger w) kab 0)%Z with true by (symmetry; apply Z.leb_le; exact H1).
    destruct (sheets_Update env _ _ _); [discriminate|].
    rewrite parseB_itoa by exact H1.
    intros H; injection H as <-; cbn [ledger store log].
    rewrite H2, Z.sub_0_r, Nat.sub_0_r; auto.
Qed.

(** C7, as the code has it.  Two upserts of a key that both return [nil]
    each overwrite column B of the first row for the key in place, or
    append the row [key, value] when the ledger has no row for the key;
    they never add a row for a key that has one, and the first row for
    the key ends with the second value in column B.  On a ledger that
    held at most one row for the key, exactly one row for the key
    remains, with the second value. *)
Theorem upsertSpreadsheetRow_twice (env : Env) (spreadsheetID K T1 T2 : string)
    (w w1 w2 : World) :
  upsertSpreadsheetRow env spreadsheetID K T1 w = (None, w1) ->
  upsertSpreadsheetRow env spreadsheetID K T2 w1 = (None, w2) ->
  ledger w1 = upsertRows (ledger w) K T1 /\
  ledger w2 = upsertRows (ledger w1) K T2 /\
  List.length (filter (rowFor K) (ledger w2))
    = Nat.max 1 (List.length (filter (rowFor K) (ledger w))) /\
  (exists row rest,
      filter (rowFor K) (ledger w2) = row :: rest /\ columnB row = Some (CellString T2)) /\
  (List.length (filter (rowFor K) (ledger w)) <= 1 ->
   exists row,
     filter (rowFor K) (ledger w2) = [row] /\ columnB row = Some (CellString T2)).
Proof.
  intros H1 H2.
  apply upsertSpreadsheetRow_upsertRows in H1, H2.
  destruct H1 as [L1 _], H2 as [L2 _].
  split; [exact L1|]; split; [exact L2|].
  rewrite L2, L1, !filter_upsertRows.
  destruct (filter (rowFor K) (ledger w)) as [|row rest]; cbn [List.length].
  - split; [reflexivity|]; split.
    + eexists; eexists; split; [reflexivity | reflexivity].
    + intros _; eexists; split; reflexivity.
  - split; [reflexivity|]; split.
    + eexists; eexists; split; [reflexivity | apply columnB_setB].
    + intros Hlen; destruct rest; [|cbn in Hlen; lia].
      eexists; split; [reflexivity | apply columnB_setB].
Qed.

Lemma upsertSpreadsheetRow_twice_witness :
  let w1 := snd (upsertSpreadsheetRow Sample.env "sheet-1" "Kab. Bogor" "T1" Sample.world) in
  let w2 := snd (upsertSpreadsheetRow Sample.env "sheet-1" "Kab. Bogor" "T2" w1) in
  ledger w2 = upsertRows (ledger w1) "Kab. Bogor" "T2" /\
  exists row,
    filter (rowFor "Kab. Bogor") (ledger w2) = [row] /\ columnB row = Some (CellString "T2").
Proof.
  intros w1 w2.
  destruct (upsertSpreadsheetRow_twice Sample.env "sheet-1" "Kab. Bogor" "T1" "T2"
              Sample.world w1 w2 eq_refl eq_refl) as (_ & L2 & _ & _ & Hone).
  split; [exact L2|].
  apply Hone; vm_compute; lia.
Defined.

(** A ledger cell that a no-break space follows is the cell of the key:
    the row is updated in place and none is appended. *)
Example upsertSpreadsheetRow_unicode_key :
  let w := mkWorld [] [[CellString "Kabupaten"; CellString "Susenas"];
                       [CellString ("Kab. Bogor" +++ nbsp); CellString "T0"]] [] in
  exists w1 : World,
    upsertSpreadsheetRow Sample.env "sheet-1" "Kab. Bogor" "T1" w = (None, w1) /\
    ledger w1 = [[CellString "Kabupaten"; CellString "Susenas"];
                 [CellString ("Kab. Bogor" +++ nbsp); CellString "T1"]].
Proof. eexists; split; [evaluate | reflexivity]. Qed.

(** On a ledger that already holds two rows for a key, two upserts of
    the key leave two rows for it, and here both with the second value
    in column B. *)
Lemma upsertSpreadsheetRow_keeps_duplicates :
  let w := mkWorld [] [[CellString "Kab. Bogor"; CellString "1/1/2025 00:00:00"];
                       [CellString "Kab. Bogor"; CellString "T2"]] [] in
  exists w1 w2 : World,
    upsertSpreadsheetRow Sample.env "sheet-1" "Kab. Bogor" "T1" w = (None, w1) /\
    upsertSpreadsheetRow Sample.env "sheet-1" "Kab. Bogor" "T2" w1 = (None, w2) /\
    ledger w2 = [[CellString "Kab. Bogor"; CellString "T2"];
                 [CellString "Kab. Bogor"; CellString "T2"]] /\
    List.length (filter (rowFor "Kab. Bogor") (ledger w2)) = 2.
Proof.
  eexists; eexists; split; [evaluate|]; split; [evaluate|].
  split; reflexivity.
Qed.

(** ** The age gate *)

(** Clamping the age to the range of a [Duration] does not move it
    across the threshold of ten minutes. *)
Lemma time_Sub_threshold (now t : Z) :
  (maxAgeForDeletion <=? time_Sub now t)%Z = (maxAgeForDeletion <=? now - t)%Z.
Proof.
  unfold time_Sub, maxAgeForDeletion, time_Minute, minDuration, maxDuration.
  change (2 ^ 63)%Z with 9223372036854775808%Z.
  repeat match goal with
         | |- context [(?a <? ?b)%Z] => destruct (Z.ltb_spec a b)
         | |- context [(?a <=? ?b)%Z] => destruct (Z.leb_spec a b)
         end; try reflexivity; lia.
Qed.

Lemma shouldDelete_unparsed (env : Env) (file : File) (w : World) :
  time_Parse env (CreatedTime file) = None -> shouldDelete env file w = (false, w).
Proof. intros H; unfold shouldDelete; rewrite H; reflexivity. Qed.

Lemma shouldDelete_parsed (env : Env) (file : File) (w : World) (t : Z) :
  time_Parse env (CreatedTime file) = Some t ->
  shouldDelete env file w = ((maxAgeForDeletion <=? time_Now env (log w) - t)%Z, w).
Proof.
  intros H; unfold shouldDelete; rewrite H.
  unfold bind, history, ret; rewrite time_Sub_threshold; reflexivity.
Qed.

(** ** Deletion and ledger update *)

Lemma Quiet_Files_Get (env : Env) (id fields : string) : Quiet (Files_Get env id fields).
Proof. unfold Files_Get; quiet. Qed.

Lemma Quiet_getParentFolderName (env : Env) (file : File) :
  Quiet (getParentFolderName env file).
Proof.
  unfold getParentFolderName.
  destruct (Parents file).
  - apply Quiet_bind; [apply Quiet_Files_Get|]; intros [f | e].
    + destruct (Parents f); [apply Quiet_ret|].
      apply Quiet_bind; [apply Quiet_Files_Get|]; intros [p | e]; apply Quiet_ret.
    + apply Quiet_ret.
  - apply Quiet_bind; [apply Quiet_Files_Get|]; intros [f | e]; apply Quiet_ret.
Qed.

(** An upsert starts by reading the ledger; it deletes nothing. *)
Lemma upsertSpreadsheetRow_log (env : Env) (spreadsheetID kab createdTime : string)
    (w : World) :
  exists (r : error) (w' : World) (rest : list Event),
    upsertSpreadsheetRow env spreadsheetID kab createdTime w = (r, w') /\
    log w' = log w ++ SheetsGet "A:B" (sheets_Get env (log w) "A:B") :: rest /\
    forallb (fun ev => negb (isDeleteEvent ev)) rest = true /\
    store w' = store w.
Proof.
  unfold upsertSpreadsheetRow, Values_Get, Values_Update, Values_Append, Errorf,
    bind, history, emit, readLedger, writeLedger, ret; cbn [log ledger store].
  destruct (sheets_Get env (log w) "A:B"); cbn [log ledger store].
  - eexists; eexists; exists []; repeat split.
  - destruct (0 <=? searchKab (ledger w) kab 0)%Z.
    + destruct (sheets_Update env _ _ _); [|destruct (parseB _)];
        eexists; eexists; eexists; (split; [reflexivity|]); cbn [log store];
        rewrite <- app_assoc; repeat split.
    + destruct (sheets_Append env _ _ _);
        eexists; eexists; eexists; (split; [reflexivity|]); cbn [log store];
        rewrite <- app_assoc; repeat split.
Qed.

Lemma removed_from_store (id : string) (l : list string) :
  ~ In id (filter (fun x => negb (String.eqb x id)) l).
Proof.
  intros H; apply filter_In in H; destruct H as [_ H].
  rewrite String.eqb_refl in H; discriminate H.
Qed.

Lemma Files_Delete_eq (env : Env) (id : string) (w : World) :
  Files_Delete env id w =
  (drive_Delete env (log w) id,
   match drive_Delete env (log w) id with
   | Some _ => mkWorld (store w) (ledger w) (log w ++ [DriveDelete id (drive_Delete env (log w) id)])
   | None =>
       mkWorld (filter (fun x => negb (String.eqb x id)) (store w)) (ledger w)
         (log w ++ [DriveDelete id None])
   end).
Proof.
  unfold Files_Delete, bind, history, emit, removeFromStore, ret; cbn [log store ledger].
  destruct (drive_Delete env (log w) id); reflexivity.
Qed.

(** The deletion comes first.  When it fails, nothing else happens; when
    it succeeds, the file has left the store, and the ledger is touched
    exactly when the name of the parent folder was found. *)
Lemma deleteFileAndUpdateSpreadsheet_order (env : Env) (spreadsheetID : string) (file : File)
    (w : World) :
  exists (r : error) (w' : World) (evs : list Event),
    deleteFileAndUpdateSpreadsheet env spreadsheetID file w = (r, w') /\
    log w' = log w ++ DriveDelete (Id file) (drive_Delete env (log w) (Id file)) :: evs /\
    forallb (fun ev => negb (isDeleteEvent ev)) evs = true /\
    match drive_Delete env (log w) (Id file) with
    | Some e =>
        r = Some ("failed to delete Drive file: " +++ e) /\
        evs = [] /\ ledger w' = ledger w /\ store w' = store w
    | None =>
        r = None /\ ~ In (Id file) (store w') /\
        (existsb isLedgerEvent evs = true <-> parentLookupError env file w = None)
    end.
Proof.
  unfold deleteFileAndUpdateSpreadsheet, parentLookupError.
  rewrite (bind_run _ _ _ _ _ (Files_Delete_eq env (Id file) w)), Files_Delete_eq.
  destruct (drive_Delete env (log w) (Id file)) as [e|]; cbn [snd].
  - eexists; eexists; exists []; cbn; repeat split.
  - set (wd := mkWorld _ _ _).
    change (log w ++ [DriveDelete (Id file) None]) with (log wd).
    unfold bind at 1.
    destruct (getParentFolderName env file wd) as [[parentName pErr] wp] eqn:P.
    pose proof (Quiet_at _ _ _ _ (Quiet_getParentFolderName env file) P)
      as (Sp & Lp & evp & Ep & Qp).
    assert (Hnd : forallb (fun ev => negb (isDeleteEvent ev)) evp = true).
    { rewrite forallb_forall in *; intros ev Hin; specialize (Qp ev Hin).
      unfold quietEvent in Qp; destruct (isDeleteEvent ev); [|reflexivity].
      rewrite orb_true_r in Qp; discriminate Qp. }
    assert (Hnl : existsb isLedgerEvent evp = false).
    { destruct (existsb isLedgerEvent evp) eqn:X; [|reflexivity].
      apply existsb_exists in X; destruct X as (ev & Hin & Hev).
      rewrite forallb_forall in Qp; specialize (Qp ev Hin).
      unfold quietEvent in Qp; rewrite Hev in Qp; discriminate Qp. }
    assert (Hstore : ~ In (Id file) (store wp))
      by (rewrite Sp; apply removed_from_store).
    cbn [fst snd]; destruct pErr as [pe|].
    + exists None, wp, evp; split; [reflexivity|]; split.
      * rewrite Ep; subst wd; cbn [log]; rewrite <- app_assoc; reflexivity.
      * split; [exact Hnd|]; split; [reflexivity|]; split; [exact Hstore|].
        rewrite Hnl; split; discriminate.
    + destruct (upsertSpreadsheetRow_log env spreadsheetID parentName
                  (formatCreatedTime env (CreatedTime file)) wp)
        as (r & wu & rest & U & Eu & Qu & Su).
      unfold bind; rewrite U.
      exists None, wu, (evp ++ SheetsGet "A:B" (sheets_Get env (log wp) "A:B") :: rest).
      split; [reflexivity|]; split.
      * rewrite Eu, Ep; subst wd; cbn [log]; rewrite <- !app_assoc; reflexivity.
      * split; [rewrite forallb_app, Hnd; exact Qu|].
        split; [reflexivity|]; split; [rewrite Su; exact Hstore|].
        rewrite existsb_app; cbn [existsb isLedgerEvent]; rewrite orb_true_r.
        split; reflexivity.
Qed.

(** After a deletion that succeeded and a parent folder that was named,
    what is left of the call is the upsert of that name, on a ledger
    that nothing has touched. *)
Lemma deleteFileAndUpdateSpreadsheet_upsert (env : Env) (spreadsheetID : string) (file : File)
    (w wp : World) (parentName : string) :
  drive_Delete env (log w) (Id file) = None ->
  getParentFolderName env file (snd (Files_Delete env (Id file) w)) = ((parentName, None), wp) ->
  ledger wp = ledger w /\
  deleteFileAndUpdateSpreadsheet env spreadsheetID file w =
  (None,
   snd (upsertSpreadsheetRow env spreadsheetID parentName
          (formatCreatedTime env (CreatedTime file)) wp)).
Proof.
  intros Hd Hp.
  pose proof (Quiet_at _ _ _ _ (Quiet_getParentFolderName env file) Hp) as (_ & Pl & _).
  rewrite Files_Delete_eq, Hd in Pl, Hp; cbn [snd ledger] in Pl, Hp.
  split; [exact Pl|].
  unfold deleteFileAndUpdateSpreadsheet.
  rewrite (bind_run _ _ _ _ _ (Files_Delete_eq env (Id file) w)), Hd.
  rewrite (bind_run _ _ _ _ _ Hp); cbv beta iota.
  unfold bind, ret.
  destruct (upsertSpreadsheetRow env spreadsheetID parentName
              (formatCreatedTime env (CreatedTime file)) wp); reflexivity.
Qed.

(** ** The file processor *)

Lemma defer_run {A} (d : M unit) (body : M A) (w w' : World) (r : A) :
  body w = (r, w') -> defer d body w = (r, snd (d w')).
Proof.
  intros H; unfold defer; rewrite (bind_run _ _ _ _ _ H).
  unfold bind, ret; destruct (d w'); reflexivity.
Qed.

Lemma unchanged_os_RemoveAll (w : World) (path : string) :
  unchanged w (snd (os_RemoveAll path w)).
Proof. apply (Quiet_os_RemoveAll path w). Qed.

Section FileProcessor.

Variable env : Env.
Variables spreadsheetID dbHost dbUser dbPass dbName password updateQuery : string.
Variable file : File.

(** Past the size gate and the creation of the scratch directory. *)
Lemma processFile_in_scratch (w w1 : World) (tempDir : string) :
  (minFileSize <= Size file)%Z ->
  createTempDir env w = ((tempDir, None), w1) ->
  processFile env spreadsheetID file dbHost dbUser dbPass dbName password updateQuery w =
  defer (os_RemoveAll tempDir)
    ('(bakFile, err) <- downloadAndExtract env file tempDir password ;;
     match err with
     | Some e =>
         del <- shouldDelete env file ;;
         (if del then deleteFileAndUpdateSpreadsheet env spreadsheetID file ;;; ret tt
          else ret tt) ;;;
         ret (Some e)
     | None =>
         grantPermissions env bakFile dbHost ;;;
         err <- restoreDB env dbHost dbUser dbPass dbName bakFile ;;
         match err with
         | Some e => ret (Some e)
         | None =>
             err <- runUpdateQuery env dbHost dbUser dbPass dbName updateQuery ;;
             match err with
             | Some e => ret (Some e)
             | None =>
                 err <- deleteFileAndUpdateSpreadsheet env spreadsheetID file ;;
                 match err with
                 | Some e => ret (Some e)
                 | None => ret None
                 end
             end
         end
     end) w1.
Proof.
  intros Hsize Htemp; unfold processFile.
  replace (Size file <? minFileSize)%Z with false by (symmetry; apply Z.ltb_ge; exact Hsize).
  rewrite (bind_run _ _ _ _ _ Htemp); reflexivity.
Qed.

(** C10.  When the download or the extraction fails and the creation
    time of the file does not parse, [shouldDelete] answers false and
    the file is handled as a young one: [processFile] returns the error
    of the extraction, removes the scratch directory, and leaves the
    store and the ledger as they were, with no deletion and no ledger
    call in the log. *)
Theorem processFile_unparsed_time (w w1 w2 : World) (tempDir bakFile e : string) :
  (minFileSize <= Size file)%Z ->
  createTempDir env w = ((tempDir, None), w1) ->
  downloadAndExtract env file tempDir password w1 = ((bakFile, Some e), w2) ->
  time_Parse env (CreatedTime file) = None ->
  shouldDelete env file w2 = (false, w2) /\
  exists w' : World,
    processFile env spreadsheetID file dbHost dbUser dbPass dbName password updateQuery w
      = (Some e, w') /\
    log w' = log w2 ++ [OsRemoveAll tempDir] /\
    unchanged w w'.
Proof.
  intros Hsize Htemp Hextract Hparse.
  pose proof (shouldDelete_unparsed env file w2 Hparse) as Hgate.
  split; [exact Hgate|].
  rewrite (processFile_in_scratch _ _ _ Hsize Htemp).
  erewrite defer_run.
  2:{ rewrite (bind_run _ _ _ _ _ Hextract); cbv beta iota.
      rewrite (bind_run _ _ _ _ _ Hgate); reflexivity. }
  eexists; split; [reflexivity|]; split; [reflexivity|].
  eapply unchanged_trans; [exact (Quiet_at _ _ _ _ (Quiet_createTempDir env) Htemp)|].
  eapply unchanged_trans;
    [exact (Quiet_at _ _ _ _ (Quiet_downloadAndExtract env file tempDir password) Hextract)|].
  apply unchanged_os_RemoveAll.
Qed.

(** C3.  When [restoreDB] fails, or succeeds and is followed by a
    failing [runUpdateQuery], [processFile] returns that error; on the
    way it has deleted nothing from the store and made no ledger call,
    and the store and the ledger are as they were, so the file is
    still there for the next run. *)
Theorem processFile_restore_failure (w w1 w2 w3 w4 : World) (tempDir bakFile e : string) :
  (minFileSize <= Size file)%Z ->
  createTempDir env w = ((tempDir, None), w1) ->
  downloadAndExtract env file tempDir password w1 = ((bakFile, None), w2) ->
  grantPermissions env bakFile dbHost w2 = (tt, w3) ->
  (restoreDB env dbHost dbUser dbPass dbName bakFile w3 = (Some e, w4) \/
   exists wr : World,
     restoreDB env dbHost dbUser dbPass dbName bakFile w3 = (None, wr) /\
     runUpdateQuery env dbHost dbUser dbPass dbName updateQuery wr = (Some e, w4)) ->
  exists w' : World,
    processFile env spreadsheetID file dbHost dbUser dbPass dbName password updateQuery w
      = (Some e, w') /\
    log w' = log w4 ++ [OsRemoveAll tempDir] /\
    unchanged w w'.
Proof.
  intros Hsize Htemp Hextract Hgrant Hfail.
  rewrite (processFile_in_scratch _ _ _ Hsize Htemp).
  pose proof (Quiet_at _ _ _ _ (Quiet_createTempDir env) Htemp) as U1.
  pose proof (Quiet_at _ _ _ _ (Quiet_downloadAndExtract env file tempDir password) Hextract)
    as U2.
  pose proof (Quiet_at _ _ _ _ (Quiet_grantPermissions env bakFile dbHost) Hgrant) as U3.
  assert (U4 : unchanged w3 w4).
  { destruct Hfail as [Hr | (wr & Hr & Hq)].
    - exact (Quiet_at _ _ _ _ (Quiet_restoreDB env _ _ _ _ _) Hr).
    - eapply unchanged_trans.
      + exact (Quiet_at _ _ _ _ (Quiet_restoreDB env _ _ _ _ _) Hr).
      + exact (Quiet_at _ _ _ _ (Quiet_runUpdateQuery env _ _ _ _ _) Hq). }
  erewrite defer_run.
  2:{ rewrite (bind_run _ _ _ _ _ Hextract); cbv beta iota.
      rewrite (bind_run _ _ _ _ _ Hgrant).
      destruct Hfail as [Hr | (wr & Hr & Hq)].
      - rewrite (bind_run _ _ _ _ _ Hr); reflexivity.
      - rewrite (bind_run _ _ _ _ _ Hr); cbv beta iota.
        rewrite (bind_run _ _ _ _ _ Hq); reflexivity. }
  eexists; split; [reflexivity|]; split; [reflexivity|].
  repeat (eapply unchanged_trans; [eassumption|]).
  apply unchanged_os_RemoveAll.
Qed.

(** C2.  When the restore and the correction query have succeeded,
    nothing has been deleted and no ledger call made so far; the next
    call is the deletion of the source, so that every ledger call of
    the run comes after it.  When that deletion fails, [processFile]
    returns its error, the only call that follows is the removal of
    the scratch directory, and the ledger is as it was.  When it
    succeeds, the file has left the store and the ledger calls follow
    exactly when the parent folder is named: what is left of the run is
    then the upsert of that name with the formatted creation time, on
    the ledger as the run found it, and the removal of the scratch
    directory. *)
Theorem processFile_finalize (w w1 w2 w3 w4 w5 : World) (tempDir bakFile : string) :
  (minFileSize <= Size file)%Z ->
  createTempDir env w = ((tempDir, None), w1) ->
  downloadAndExtract env file tempDir password w1 = ((bakFile, None), w2) ->
  grantPermissions env bakFile dbHost w2 = (tt, w3) ->
  restoreDB env dbHost dbUser dbPass dbName bakFile w3 = (None, w4) ->
  runUpdateQuery env dbHost dbUser dbPass dbName updateQuery w4 = (None, w5) ->
  unchanged w w5 /\
  exists (r : error) (w' : World) (evs : list Event),
    processFile env spreadsheetID file dbHost dbUser dbPass dbName password updateQuery w
      = (r, w') /\
    log w' = log w5 ++ DriveDelete (Id file) (drive_Delete env (log w5) (Id file)) :: evs /\
    forallb (fun ev => negb (isDeleteEvent ev)) evs = true /\
    match drive_Delete env (log w5) (Id file) with
    | Some e =>
        r = Some ("failed to delete Drive file: " +++ e) /\
        evs = [OsRemoveAll tempDir] /\ ledger w' = ledger w /\ store w' = store w
    | None =>
        r = None /\ ~ In (Id file) (store w') /\
        (existsb isLedgerEvent evs = true <-> parentLookupError env file w5 = None) /\
        forall (parentName : string) (wp : World),
          getParentFolderName env file (snd (Files_Delete env (Id file) w5))
            = ((parentName, None), wp) ->
          ledger wp = ledger w /\
          w' = snd (os_RemoveAll tempDir
                      (snd (upsertSpreadsheetRow env spreadsheetID parentName
                              (formatCreatedTime env (CreatedTime file)) wp))) /\
          (fst (upsertSpreadsheetRow env spreadsheetID parentName
                  (formatCreatedTime env (CreatedTime file)) wp) = None ->
           ledger w' =
           upsertRows (ledger w) parentName (formatCreatedTime env (CreatedTime file)))
    end.
Proof.
  intros Hsize Htemp Hextract Hgrant Hrestore Hquery.
  assert (U : unchanged w w5).
  { eapply unchanged_trans; [exact (Quiet_at _ _ _ _ (Quiet_createTempDir env) Htemp)|].
    eapply unchanged_trans;
      [exact (Quiet_at _ _ _ _ (Quiet_downloadAndExtract env file tempDir password) Hextract)|].
    eapply unchanged_trans;
      [exact (Quiet_at _ _ _ _ (Quiet_grantPermissions env bakFile dbHost) Hgrant)|].
    eapply unchanged_trans;
      [exact (Quiet_at _ _ _ _ (Quiet_restoreDB env _ _ _ _ _) Hrestore)|].
    exact (Quiet_at _ _ _ _ (Quiet_runUpdateQuery env _ _ _ _ _) Hquery). }
  split; [exact U|].
  destruct (deleteFileAndUpdateSpreadsheet_order env spreadsheetID file w5)
    as (r & wd & evs & Hd & Hlog & Hnd & Hcase).
  rewrite (processFile_in_scratch _ _ _ Hsize Htemp).
  erewrite defer_run.
  2:{ rewrite (bind_run _ _ _ _ _ Hextract); cbv beta iota.
      rewrite (bind_run _ _ _ _ _ Hgrant).
      rewrite (bind_run _ _ _ _ _ Hrestore); cbv beta iota.
      rewrite (bind_run _ _ _ _ _ Hquery); cbv beta iota.
      rewrite (bind_run _ _ _ _ _ Hd).
      instantiate (1 := wd); instantiate (1 := r).
      destruct r; reflexivity. }
  exists r, (snd (os_RemoveAll tempDir wd)), (evs ++ [OsRemoveAll tempDir]).
  split; [reflexivity|]; cbn [os_RemoveAll emit snd log store ledger].
  split; [rewrite Hlog, <- app_assoc; reflexivity|].
  split; [rewrite forallb_app, Hnd; reflexivity|].
  destruct U as (Us & Ul & _).
  destruct (drive_Delete env (log w5) (Id file)) as [e|] eqn:Hdel.
  - destruct Hcase as (-> & -> & Hl & Hs); repeat split; congruence.
  - destruct Hcase as (-> & Hs & Hiff); split; [reflexivity|]; split; [exact Hs|].
    split.
    + rewrite existsb_app; cbn [existsb isLedgerEvent]; rewrite !orb_false_r; exact Hiff.
    + intros parentName wp Hparent.
      destruct (deleteFileAndUpdateSpreadsheet_upsert env spreadsheetID file w5 wp parentName
                  Hdel Hparent) as [Pl Hrun].
      rewrite Hrun in Hd; injection Hd as <-.
      split; [rewrite Pl, Ul; reflexivity|]; split; [reflexivity|].
      intros Hok.
      destruct (upsertSpreadsheetRow env spreadsheetID parentName
                  (formatCreatedTime env (CreatedTime file)) wp) as [ru wu] eqn:Hu.
      cbn [fst snd] in *; subst ru.
      destruct (upsertSpreadsheetRow_upsertRows _ _ _ _ _ _ Hu) as [Lu _].
      rewrite Lu, Pl, Ul; reflexivity.
Qed.


End FileProcessor.

Lemma processFile_unparsed_time_witness :
  exists w' : World,
    Sample.run (Sample.host "-p7zpass" "" (Some "exit status 2")) Sample.undated
      = (Some "failed to extract 7z: exit status 2", w') /\
    store w' = store Sample.world /\ ledger w' = ledger Sample.world.
Proof.
  edestruct (processFile_unparsed_time
               (Sample.host "-p7zpass" "" (Some "exit status 2"))
               "sheet-1" "localhost" "sa" "secret" "Susenas" "7zpass" "UPDATE t SET c = 1"
               Sample.undated Sample.world)
    as (_ & w' & Hrun & _ & Hstore & Hledger & _);
    [now vm_compute | evaluate | evaluate | reflexivity |].
  exists w'; split; [exact Hrun | split; assumption].
Defined.

Lemma processFile_restore_failure_witness :
  exists w' : World,
    Sample.run (Sample.host "RESTORE DATABASE" "Msg 3201" (Some "exit status 1")) Sample.old
      = (Some "restore failed: exit status 1", w') /\
    store w' = store Sample.world /\ ledger w' = ledger Sample.world.
Proof.
  edestruct (processFile_restore_failure
               (Sample.host "RESTORE DATABASE" "Msg 3201" (Some "exit status 1"))
               "sheet-1" "localhost" "sa" "secret" "Susenas" "7zpass" "UPDATE t SET c = 1"
               Sample.old Sample.world)
    as (w' & Hrun & _ & Hstore & Hledger & _);
    [now vm_compute | evaluate | evaluate | evaluate | left; evaluate |].
  exists w'; split; [exact Hrun | split; assumption].
Defined.

Lemma processFile_finalize_witness :
  (exists (w' : World) (evs : list Event),
      Sample.run (Sample.withDelete (fun _ _ => Some "googleapi: Error 403") Sample.env)
        Sample.old
        = (Some "failed to delete Drive file: googleapi: Error 403", w') /\
      skipn 14 (log w') = DriveDelete "file-1" (Some "googleapi: Error 403") :: evs /\
      evs = [OsRemoveAll "/tmp/backup-1"] /\
      ledger w' = ledger Sample.world) /\
  (exists (w' : World) (evs : list Event),
      Sample.run Sample.env Sample.old = (None, w') /\
      skipn 14 (log w') = DriveDelete "file-1" None :: evs /\
      existsb isLedgerEvent evs = true /\
      ledger w' = [[CellString "Kabupaten"; CellString "Susenas"];
                   [CellString "Kab. Bogor"; CellString "1/1/2025 00:00:00"]]).
Proof.
  split.
  - edestruct (processFile_finalize
                 (Sample.withDelete (fun _ _ => Some "googleapi: Error 403") Sample.env)
                 "sheet-1" "localhost" "sa" "secret" "Susenas" "7zpass" "UPDATE t SET c = 1"
                 Sample.old Sample.world)
      as (_ & r & w' & evs & Hrun & Hlog & _ & Hr & Hevs & Hledger & _);
      [now vm_compute | evaluate | evaluate | evaluate | evaluate | evaluate |].
    exists w', evs; split; [unfold Sample.run; rewrite Hrun, Hr; reflexivity|].
    split; [rewrite Hlog; reflexivity|].
    split; assumption.
  - edestruct (processFile_finalize Sample.env
                 "sheet-1" "localhost" "sa" "secret" "Susenas" "7zpass" "UPDATE t SET c = 1"
                 Sample.old Sample.world)
      as (_ & r & w' & evs & Hrun & Hlog & _ & Hr & _ & Hcalls & Hupsert);
      [now vm_compute | evaluate | evaluate | evaluate | evaluate | evaluate |].
    exists w', evs; split; [unfold Sample.run; rewrite Hrun, Hr; reflexivity|].
    split; [rewrite Hlog; reflexivity|].
    split; [apply Hcalls; reflexivity|].
    edestruct Hupsert as (_ & _ & Hledger); [evaluate|].
    rewrite Hledger; reflexivity.
Defined.



(** The same file on a host that deletes it and then fails to name its
    parent folder: the file has left the store and no ledger call is
    made. *)
Example processFile_old_file_parent_unknown :
  exists w' : World,
    Sample.run
      (Sample.withGet (fun _ _ _ => Err "googleapi: Error 404")
         (Sample.host "-p7zpass" "" (Some "exit status 2")))
      Sample.old
      = (Some "failed to extract 7z: exit status 2", w') /\
    ~ In "file-1" (store w') /\
    existsb isLedgerEvent (log w') = false /\
    ledger w' = ledger Sample.world.
Proof.
  eexists; split; [evaluate|].
  split; [cbn; intuition discriminate | split; reflexivity].
Qed.

(** ** Deletions stay within the files at hand *)

Lemma confined_refl (ids : list string) (w : World) : confined ids w w.
Proof. split; [auto|]; split; [auto|]. exists []; rewrite app_nil_r; auto. Qed.

Lemma confined_trans (ids : list string) (w1 w2 w3 : World) :
  confined ids w1 w2 -> confined ids w2 w3 -> confined ids w1 w3.
Proof.
  intros (I1 & K1 & evs1 & E1 & Q1) (I2 & K2 & evs2 & E2 & Q2).
  split; [auto|]; split; [auto|].
  exists (evs1 ++ evs2); split.
  - rewrite E2, E1, app_assoc; reflexivity.
  - rewrite forallb_app, Q1, Q2; reflexivity.
Qed.

Lemma deleteWithin_incl (ids ids' : list string) (ev : Event) :
  incl ids ids' -> deleteWithin ids ev = true -> deleteWithin ids' ev = true.
Proof.
  intros Hi; destruct ev; cbn; auto.
  intros H; apply existsb_exists in H; destruct H as (x & Hx & E).
  apply existsb_exists; exists x; split; [apply Hi, Hx | exact E].
Qed.

Lemma confined_incl (ids ids' : list string) (w w' : World) :
  incl ids ids' -> confined ids w w' -> confined ids' w w'.
Proof.
  intros Hi (I & K & evs & E & Q); split; [exact I|]; split.
  - intros x Hx; apply K; intros Hin; apply Hx, Hi, Hin.
  - exists evs; split; [exact E|].
    rewrite forallb_forall in *; intros ev Hev; eapply deleteWithin_incl; eauto.
Qed.

Lemma unchanged_confined (ids : list string) (w w' : World) :
  unchanged w w' -> confined ids w w'.
Proof.
  intros (S & _ & evs & E & Q); unfold confined; rewrite S.
  split; [auto|]; split; [auto|].
  exists evs; split; [exact E|].
  rewrite forallb_forall in *; intros ev Hev; specialize (Q ev Hev).
  destruct ev; try reflexivity. discriminate Q.
Qed.

Lemma Confined_Quiet {A} (ids : list string) (m : M A) : Quiet m -> Confined ids m.
Proof. intros H w; apply unchanged_confined, H. Qed.

Lemma Confined_ret {A} (ids : list string) (a : A) : Confined ids (ret a).
Proof. intros w; apply confined_refl. Qed.

Lemma Confined_bind {A B} (ids : list string) (m : M A) (k : A -> M B) :
  Confined ids m -> (forall a, Confined ids (k a)) -> Confined ids (bind m k).
Proof.
  intros Hm Hk w; unfold bind.
  destruct (m w) as [a w1] eqn:E.
  specialize (Hm w); rewrite E in Hm; cbn [snd] in Hm.
  eapply confined_trans; [exact Hm | apply Hk].
Qed.

Lemma Confined_Files_Delete (env : Env) (ids : list string) (id : string) :
  In id ids -> Confined ids (Files_Delete env id).
Proof.
  intros Hin w; rewrite Files_Delete_eq; cbn [snd].
  assert (Hev : forall err, forallb (deleteWithin ids) [DriveDelete id err] = true).
  { intros err; cbn [forallb deleteWithin]; rewrite andb_true_r.
    apply existsb_exists; exists id; split; [exact Hin | apply String.eqb_refl]. }
  destruct (drive_Delete env (log w) id); unfold confined; cbn [store log].
  - split; [auto|]; split; [auto|]. eexists; split; [reflexivity | apply Hev].
  - split; [|split].
    + intros x Hx; apply filter_In in Hx; apply Hx.
    + intros x Hx Hs; apply filter_In; split; [exact Hs|].
      destruct (String.eqb_spec x id); [subst; contradiction | reflexivity].
    + eexists; split; [reflexivity | apply Hev].
Qed.

Lemma Confined_upsertSpreadsheetRow (env : Env) (ids : list string)
    (spreadsheetID kab createdTime : string) :
  Confined ids (upsertSpreadsheetRow env spreadsheetID kab createdTime).
Proof.
  intros w.
  destruct (upsertSpreadsheetRow_log env spreadsheetID kab createdTime w)
    as (r & w' & rest & H & E & Q & S).
  rewrite H; unfold confined; cbn [snd]; rewrite S.
  split; [auto|]; split; [auto|].
  eexists; split; [exact E|].
  cbn [forallb deleteWithin andb].
  rewrite forallb_forall in *; intros ev Hev; specialize (Q ev Hev).
  destruct ev; try reflexivity. discriminate Q.
Qed.

Lemma Confined_deleteFileAndUpdateSpreadsheet (env : Env) (ids : list string)
    (spreadsheetID : string) (file : File) :
  In (Id file) ids -> Confined ids (deleteFileAndUpdateSpreadsheet env spreadsheetID file).
Proof.
  intros Hin; unfold deleteFileAndUpdateSpreadsheet.
  apply Confined_bind; [apply Confined_Files_Delete, Hin|]; intros [e|];
    [apply Confined_ret|].
  apply Confined_bind; [apply Confined_Quiet, Quiet_getParentFolderName|].
  intros [parentName [pe|]]; [apply Confined_ret|].
  apply Confined_bind; [apply Confined_upsertSpreadsheetRow | intros ?; apply Confined_ret].
Qed.

Lemma Confined_processFile (env : Env) (ids : list string) (spreadsheetID : string)
    (file : File) (dbHost dbUser dbPass dbName password updateQuery : string) :
  In (Id file) ids ->
  Confined ids
    (processFile env spreadsheetID file dbHost dbUser dbPass dbName password updateQuery).
Proof.
  intros Hin; unfold processFile, deleteSmallFile, defer.
  destruct (Size file <? minFileSize)%Z.
  - apply Confined_bind; [apply Confined_Files_Delete, Hin|].
    intros [e|]; apply Confined_ret.
  - apply Confined_bind; [apply Confined_Quiet, Quiet_createTempDir|].
    intros [tempDir [e|]]; [apply Confined_ret|].
    apply Confined_bind.
    2:{ intros r; apply Confined_bind;
          [apply Confined_Quiet, Quiet_os_RemoveAll | intros ?; apply Confined_ret]. }
    apply Confined_bind; [apply Confined_Quiet, Quiet_downloadAndExtract|].
    intros [bakFile [e|]].
    + apply Confined_bind; [apply Confined_Quiet, Quiet_shouldDelete|]; intros [|].
      * apply Confined_bind; [|intros ?; apply Confined_ret].
        apply Confined_bind;
          [apply Confined_deleteFileAndUpdateSpreadsheet, Hin | intros ?; apply Confined_ret].
      * apply Confined_bind; intros; apply Confined_ret.
    + apply Confined_bind; [apply Confined_Quiet, Quiet_grantPermissions|]; intros _.
      apply Confined_bind; [apply Confined_Quiet, Quiet_restoreDB|].
      intros [e|]; [apply Confined_ret|].
      apply Confined_bind; [apply Confined_Quiet, Quiet_runUpdateQuery|].
      intros [e|]; [apply Confined_ret|].
      apply Confined_bind; [apply Confined_deleteFileAndUpdateSpreadsheet, Hin|].
      intros [e|]; apply Confined_ret.
Qed.

Lemma not_In_singleton (x id : string) : x <> id -> ~ In x [id].
Proof. intros H [E | []]; apply H; symmetry; exact E. Qed.

(** Whatever happens to a file, [processFile] adds no file to the
    remote store, removes no file but the one it was given, and asks for
    the deletion of no other file. *)
Theorem processFile_deletes_only_its_file (env : Env) (spreadsheetID : string) (file : File)
    (dbHost dbUser dbPass dbName password updateQuery : string) (w : World) :
  exists (r : error) (w' : World) (evs : list Event),
    processFile env spreadsheetID file dbHost dbUser dbPass dbName password updateQuery w
      = (r, w') /\
    log w' = log w ++ evs /\
    (forall id err, In (DriveDelete id err) evs -> id = Id file) /\
    (forall x, In x (store w') -> In x (store w)) /\
    (forall x, x <> Id file -> In x (store w) -> In x (store w')).
Proof.
  pose proof (Confined_processFile env [Id file] spreadsheetID file dbHost dbUser dbPass
                dbName password updateQuery (or_introl eq_refl) w) as H.
  destruct (processFile env spreadsheetID file dbHost dbUser dbPass dbName password
              updateQuery w) as [r w'].
  destruct H as (I & K & evs & E & Q); cbn [snd] in *.
  exists r, w', evs; repeat split; auto.
  - intros id err Hin; rewrite forallb_forall in Q; specialize (Q _ Hin).
    cbn in Q; rewrite orb_false_r in Q; apply String.eqb_eq, Q.
  - intros x Hx; apply K, not_In_singleton, Hx.
Qed.

(** ** The scratch directory *)

Lemma processFile_inScratch (env : Env) (spreadsheetID : string) (file : File)
    (dbHost dbUser dbPass dbName password updateQuery : string) (w w1 : World)
    (tempDir : string) :
  (minFileSize <= Size file)%Z ->
  createTempDir env w = ((tempDir, None), w1) ->
  processFile env spreadsheetID file dbHost dbUser dbPass dbName password updateQuery w =
  defer (os_RemoveAll tempDir)
    (inScratch env spreadsheetID file dbHost dbUser dbPass dbName password updateQuery tempDir)
    w1.
Proof. apply processFile_in_scratch. Qed.

Lemma Confined_inScratch (env : Env) (ids : list string) (spreadsheetID : string)
    (file : File) (dbHost dbUser dbPass dbName password updateQuery tempDir : string) :
  In (Id file) ids ->
  Confined ids
    (inScratch env spreadsheetID file dbHost dbUser dbPass dbName password updateQuery tempDir).
Proof.
  intros Hin; unfold inScratch.
  apply Confined_bind; [apply Confined_Quiet, Quiet_downloadAndExtract|].
  intros [bakFile [e|]].
  - apply Confined_bind; [apply Confined_Quiet, Quiet_shouldDelete|]; intros [|].
    + apply Confined_bind; [|intros ?; apply Confined_ret].
      apply Confined_bind;
        [apply Confined_deleteFileAndUpdateSpreadsheet, Hin | intros ?; apply Confined_ret].
    + apply Confined_bind; intros; apply Confined_ret.
  - apply Confined_bind; [apply Confined_Quiet, Quiet_grantPermissions|]; intros _.
    apply Confined_bind; [apply Confined_Quiet, Quiet_restoreDB|].
    intros [e|]; [apply Confined_ret|].
    apply Confined_bind; [apply Confined_Quiet, Quiet_runUpdateQuery|].
    intros [e|]; [apply Confined_ret|].
    apply Confined_bind; [apply Confined_deleteFileAndUpdateSpreadsheet, Hin|].
    intros [e|]; apply Confined_ret.
Qed.

(** When the scratch directory cannot be created, [processFile] returns
    the error of the creation and does nothing else: nothing is
    downloaded, nothing is removed, and the file stays where it is. *)
Theorem processFile_scratch_failure (env : Env) (spreadsheetID : string) (file : File)
    (dbHost dbUser dbPass dbName password updateQuery : string) (w : World) (e : string) :
  (minFileSize <= Size file)%Z ->
  os_MkdirTemp env (log w) = Err e ->
  processFile env spreadsheetID file dbHost dbUser dbPass dbName password updateQuery w =
  (Some ("failed to create temp dir: " +++ e),
   mkWorld (store w) (ledger w) (log w ++ [OsMkdirTemp (Err e)])).
Proof.
  intros Hsize Hmk; unfold processFile.
  replace (Size file <? minFileSize)%Z with false by (symmetry; apply Z.ltb_ge; exact Hsize).
  unfold createTempDir, bind, history, emit, ret; rewrite Hmk; reflexivity.
Qed.

Lemma processFile_scratch_failure_witness :
  Sample.run (SampleRun.withMkdirTemp (fun _ => Err "no space left on device") Sample.env)
    Sample.old
  = (Some "failed to create temp dir: no space left on device",
     mkWorld (store Sample.world) (ledger Sample.world)
       [OsMkdirTemp (Err "no space left on device")]).
Proof.
  exact (processFile_scratch_failure
           (SampleRun.withMkdirTemp (fun _ => Err "no space left on device") Sample.env)
           "sheet-1" Sample.old "localhost" "sa" "secret" "Susenas" "7zpass"
           "UPDATE t SET c = 1" Sample.world "no space left on device"
           ltac:(now vm_compute) eq_refl).
Defined.

(** Once the scratch directory exists, every way out of [processFile]
    ends with its removal: the last call of the run is [os.RemoveAll] on
    the directory that was created. *)
Theorem processFile_removes_scratch (env : Env) (spreadsheetID : string) (file : File)
    (dbHost dbUser dbPass dbName password updateQuery : string) (w w1 : World)
    (tempDir : string) :
  (minFileSize <= Size file)%Z ->
  createTempDir env w = ((tempDir, None), w1) ->
  exists (r : error) (w' : World) (evs : list Event),
    processFile env spreadsheetID file dbHost dbUser dbPass dbName password updateQuery w
      = (r, w') /\
    log w' = log w ++ OsMkdirTemp (Ok tempDir) :: evs ++ [OsRemoveAll tempDir].
Proof.
  intros Hsize Htemp.
  rewrite (processFile_inScratch _ _ _ _ _ _ _ _ _ _ _ _ Hsize Htemp).
  assert (Hlog1 : log w1 = log w ++ [OsMkdirTemp (Ok tempDir)]).
  { revert Htemp; unfold createTempDir, bind, history, emit, ret.
    destruct (os_MkdirTemp env (log w)) as [d | e]; intros H; inversion H; reflexivity. }
  pose proof (Confined_inScratch env [Id file] spreadsheetID file dbHost dbUser dbPass dbName
                password updateQuery tempDir (or_introl eq_refl) w1) as Hc.
  destruct (inScratch env spreadsheetID file dbHost dbUser dbPass dbName password
              updateQuery tempDir w1) as [r wb] eqn:B.
  destruct Hc as (_ & _ & evs & E & _); cbn [snd] in E.
  rewrite (defer_run _ _ _ _ _ B).
  exists r, (snd (os_RemoveAll tempDir wb)), evs; split; [reflexivity|].
  cbn [os_RemoveAll emit snd log]; rewrite E, Hlog1, <- !app_assoc; reflexivity.
Qed.

Lemma processFile_removes_scratch_witness :
  exists (r : error) (w' : World) (evs : list Event),
    Sample.run (Sample.host "RESTORE DATABASE" "Msg 3201" (Some "exit status 1")) Sample.old
      = (r, w') /\
    log w' = OsMkdirTemp (Ok "/tmp/backup-1") :: evs ++ [OsRemoveAll "/tmp/backup-1"].
Proof.
  exact (processFile_removes_scratch
           (Sample.host "RESTORE DATABASE" "Msg 3201" (Some "exit status 1"))
           "sheet-1" Sample.old "localhost" "sa" "secret" "Susenas" "7zpass"
           "UPDATE t SET c = 1" Sample.world _ "/tmp/backup-1"
           ltac:(now vm_compute) eq_refl).
Defined.

(** ** What a returned [nil] means *)

(** [deleteFileAndUpdateSpreadsheet] returns an error exactly when the
    deletion fails: a parent folder that cannot be named and a ledger
    that cannot be read or written are passed over. *)
Theorem deleteFileAndUpdateSpreadsheet_error (env : Env) (spreadsheetID : string)
    (file : File) (w : World) :
  fst (deleteFileAndUpdateSpreadsheet env spreadsheetID file w) =
  match drive_Delete env (log w) (Id file) with
  | Some e => Some ("failed to delete Drive file: " +++ e)
  | None => None
  end.
Proof.
  destruct (deleteFileAndUpdateSpreadsheet_order env spreadsheetID file w)
    as (r & w' & evs & H & _ & _ & Hcase).
  rewrite H; cbn [fst].
  destruct (drive_Delete env (log w) (Id file)); destruct Hcase as [-> _]; reflexivity.
Qed.

Lemma inScratch_nil (env : Env) (spreadsheetID : string) (file : File)
    (dbHost dbUser dbPass dbName password updateQuery tempDir : string) (w w' : World) :
  inScratch env spreadsheetID file dbHost dbUser dbPass dbName password updateQuery tempDir w
    = (None, w') ->
  ~ In (Id file) (store w').
Proof.
  unfold inScratch, bind at 1.
  destruct (downloadAndExtract env file tempDir password w) as [[bakFile [e|]] w2].
  - unfold bind, ret.
    destruct (shouldDelete env file w2) as [[|] w3];
      [destruct (deleteFileAndUpdateSpreadsheet env spreadsheetID file w3)|];
      discriminate.
  - unfold bind at 1.
    destruct (grantPermissions env bakFile dbHost w2) as [[] w3].
    unfold bind at 1.
    destruct (restoreDB env dbHost dbUser dbPass dbName bakFile w3) as [[e|] w4];
      [discriminate|].
    unfold bind at 1.
    destruct (runUpdateQuery env dbHost dbUser dbPass dbName updateQuery w4) as [[e|] w5];
      [discriminate|].
    unfold bind.
    destruct (deleteFileAndUpdateSpreadsheet_order env spreadsheetID file w5)
      as (r & wd & evs & H & _ & _ & Hcase).
    rewrite H.
    destruct (drive_Delete env (log w5) (Id file)).
    + destruct Hcase as [-> _]; discriminate.
    + destruct Hcase as (-> & Hs & _); unfold ret; intros E; inversion E; subst; exact Hs.
Qed.

(** [processFile] returns [nil] only when the source file has left the
    remote store: a file that is still there after the call was
    reported with an error. *)
Theorem processFile_nil_means_deleted (env : Env) (spreadsheetID : string) (file : File)
    (dbHost dbUser dbPass dbName password updateQuery : string) (w w' : World) :
  processFile env spreadsheetID file dbHost dbUser dbPass dbName password updateQuery w
    = (None, w') ->
  ~ In (Id file) (store w').
Proof.
  destruct (Z.ltb_spec (Size file) minFileSize) as [Hsmall | Hsize].
  - unfold processFile.
    replace (Size file <? minFileSize)%Z with true by (symmetry; apply Z.ltb_lt; exact Hsmall).
    unfold deleteSmallFile; rewrite (bind_run _ _ _ _ _ (Files_Delete_eq env (Id file) w)).
    destruct (drive_Delete env (log w) (Id file)); [discriminate|].
    unfold ret; intros E; inversion E; cbn [store]; apply removed_from_store.
  - destruct (createTempDir env w) as [[tempDir [e|]] w1] eqn:Htemp.
    + unfold processFile.
      replace (Size file <? minFileSize)%Z with false by (symmetry; apply Z.ltb_ge; exact Hsize).
      rewrite (bind_run _ _ _ _ _ Htemp); discriminate.
    + rewrite (processFile_inScratch _ _ _ _ _ _ _ _ _ _ _ _ Hsize Htemp).
      destruct (inScratch env spreadsheetID file dbHost dbUser dbPass dbName password
                  updateQuery tempDir w1) as [r wb] eqn:B.
      rewrite (defer_run _ _ _ _ _ B); intros E; inversion E; subst.
      cbn [os_RemoveAll emit snd store]; eapply inScratch_nil; exact B.
Qed.

Lemma processFile_nil_means_deleted_witness :
  ~ In "file-1" (store (snd (Sample.run Sample.env Sample.old))).
Proof.
  apply (processFile_nil_means_deleted Sample.env "sheet-1" Sample.old "localhost" "sa"
           "secret" "Susenas" "7zpass" "UPDATE t SET c = 1" Sample.world).
  evaluate.
Defined.

(** ** Download and extraction *)

Lemma findBakFile_result (env : Env) (dir : string) (w : World) :
  match snd (fst (findBakFile env dir w)) with
  | Some _ => fst (fst (findBakFile env dir w)) = ""
  | None => fst (fst (findBakFile env dir w)) <> ""
  end.
Proof.
  unfold findBakFile, filepath_Walk, bind, history, emit, ret.
  destruct (walk env findBakFile_fn dir _ "") as [bakFile [e|]]; cbn [fst snd];
    [reflexivity|].
  destruct (String.eqb_spec bakFile ""); cbn [fst snd]; [reflexivity | assumption].
Qed.

(** [downloadAndExtract] hands back either an error, with an empty path
    and a message that names the step that failed, or a path that is
    not empty: the restore is never started on an empty path. *)
Theorem downloadAndExtract_result (env : Env) (file : File) (tempDir password : string)
    (w : World) :
  match snd (fst (downloadAndExtract env file tempDir password w)) with
  | Some e =>
      fst (fst (downloadAndExtract env file tempDir password w)) = "" /\
      exists e0 : string,
        e = "failed to download file: " +++ e0 \/
        e = "failed to extract 7z: " +++ e0 \/
        e = "failed to find .bak file: " +++ e0
  | None => fst (fst (downloadAndExtract env file tempDir password w)) <> ""
  end.
Proof.
  unfold downloadAndExtract.
  destruct (downloadFile env (Id file) (filepath_Join env tempDir (Name file)) w)
    as [[e|] w1] eqn:D; rewrite !(bind_run _ _ _ _ _ D); cbn [fst snd ret Errorf].
  - split; [reflexivity | exists e; auto].
  - destruct (extract7z env (filepath_Join env tempDir (Name file))
                (filepath_Join env tempDir "extracted") password w1)
      as [[e|] w2] eqn:X; rewrite !(bind_run _ _ _ _ _ X); cbn [fst snd ret Errorf].
    + split; [reflexivity | exists e; auto].
    + pose proof (findBakFile_result env (filepath_Join env tempDir "extracted") w2) as H.
      destruct (findBakFile env (filepath_Join env tempDir "extracted") w2)
        as [[bakFile [e|]] w3] eqn:F; rewrite !(bind_run _ _ _ _ _ F);
        cbn [fst snd ret Errorf] in *.
      * split; [reflexivity | exists e; auto].
      * exact H.
Qed.

(** ** The walk that fails *)

(** When an entry of the tree cannot be read, [findBakFile] returns the
    error of the first such entry, in the order of the walk, and an
    empty path, whatever .bak entries the walk has passed before. *)
Theorem findBakFile_walk_error (env : Env) (dir : string) (w : World) (e : string) :
  firstError (os_Tree env (log w) dir) = Some e ->
  fst (findBakFile env dir w) = ("", Some e).
Proof.
  intros H; unfold findBakFile, filepath_Walk, bind, history, emit, ret.
  pose proof (walk_firstError env (os_Tree env (log w) dir) dir "") as Hw.
  cbn [log].
  destruct (walk env findBakFile_fn dir (os_Tree env (log w) dir) "") as [bakFile err].
  cbn [snd] in Hw; rewrite Hw, H; reflexivity.
Qed.

Lemma findBakFile_walk_error_witness :
  fst (findBakFile
         (Sample.withTree
            (FsDir "extracted" [FsFile "a.bak"; FsDirUnreadable "db" "permission denied"])
            Sample.env)
         "/tmp/backup-1/extracted" Sample.world)
  = ("", Some "permission denied").
Proof.
  exact (findBakFile_walk_error
           (Sample.withTree
              (FsDir "extracted" [FsFile "a.bak"; FsDirUnreadable "db" "permission denied"])
              Sample.env)
           "/tmp/backup-1/extracted" Sample.world "permission denied" eq_refl).
Defined.

(** ** The service account *)

Lemma index_backslash (a b : string) :
  index 0 backslash a = None ->
  index 0 backslash (a +++ backslash +++ b) = Some (String.length a).
Proof.
  induction a as [|c a IH]; intros H; [destruct b; reflexivity|].
  cbn [String.append index] in *.
  destruct (String.prefix backslash (String c a)) eqn:P; [discriminate H|].
  assert (P' : String.prefix backslash (String c (a +++ backslash +++ b)) = false).
  { revert P; unfold backslash; cbn [String.prefix].
    destruct (ascii_dec _ c); [destruct a; discriminate | reflexivity]. }
  rewrite P'.
  destruct (index 0 backslash a) eqn:I; [discriminate H|].
  rewrite (IH eq_refl); reflexivity.
Qed.

Lemma substring_all (s : string) : substring 0 (String.length s) s = s.
Proof. induction s as [|c s IH]; cbn; [reflexivity | rewrite IH; reflexivity]. Qed.

Lemma substring_prefix (a b : string) : substring 0 (String.length a) (a +++ b) = a.
Proof.
  induction a as [|c a IH]; cbn [String.append String.length substring].
  - destruct b; reflexivity.
  - rewrite IH; reflexivity.
Qed.

Lemma substring_suffix (a b : string) (n : nat) :
  substring (String.length a) n (a +++ b) = substring 0 n b.
Proof. induction a as [|c a IH]; cbn [String.append String.length substring]; auto. Qed.

Lemma length_append (a b : string) :
  String.length (a +++ b) = String.length a + String.length b.
Proof. induction a as [|c a IH]; cbn; [reflexivity | rewrite IH; reflexivity]. Qed.

Lemma SplitN2_backslash (a b : string) :
  index 0 backslash a = None ->
  strings.SplitN2 (a +++ backslash +++ b) backslash = [a; b].
Proof.
  intros H; unfold strings.SplitN2; rewrite (index_backslash a b H).
  rewrite substring_prefix.
  change (String.length backslash) with 1.
  replace (a +++ backslash +++ b) with ((a +++ backslash) +++ b)
    by (clear; induction a as [|c a IH]; cbn; [reflexivity | rewrite IH; reflexivity]).
  replace (String.length a + 1) with (String.length (a +++ backslash))
    by (rewrite length_append; reflexivity).
  rewrite substring_suffix, length_append, Nat.add_comm, Nat.add_sub, substring_all.
  reflexivity.
Qed.

(** [grantPermissions] never fails and always makes its two grants, the
    second whatever the first answered.  Both name the account of the
    default instance when the host holds no backslash, and the account of
    the instance that follows the first backslash otherwise. *)
Theorem grantPermissions_grants (env : Env) (bakFile dbHost : string) (w : World) :
  (exists (w' : World) (out1 out2 : string) (err1 err2 : error),
      grantPermissions env bakFile dbHost w = (tt, w') /\
      log w' = log w ++
        [Exec "icacls" [bakFile; "/grant"; serviceAccount dbHost +++ ":F"] out1 err1;
         Exec "icacls" [filepath_Dir env bakFile; "/grant"; serviceAccount dbHost +++ ":F"; "/T"]
           out2 err2]) /\
  (strings.Contains dbHost backslash = false ->
   serviceAccount dbHost = "NT SERVICE" +++ backslash +++ "MSSQLSERVER") /\
  (forall server instance : string,
      strings.Contains server backslash = false ->
      dbHost = server +++ backslash +++ instance ->
      serviceAccount dbHost = "NT SERVICE" +++ backslash +++ "MSSQL$" +++ instance).
Proof.
  split; [|split].
  - unfold grantPermissions; fold (serviceAccount dbHost).
    rewrite (bind_run _ _ _ _ _ (run_eq env "icacls" _ w)).
    rewrite (bind_run _ _ _ _ _ (run_eq env "icacls" _ _)).
    eexists; eexists; eexists; eexists; eexists; split; [reflexivity|].
    cbn [log]; rewrite <- app_assoc; reflexivity.
  - intros H; unfold serviceAccount; rewrite H; reflexivity.
  - intros server instance H ->; unfold serviceAccount, strings.Contains in *.
    destruct (index 0 backslash server) eqn:I; [discriminate H|].
    rewrite (index_backslash server instance I), (SplitN2_backslash server instance I).
    reflexivity.
Qed.

Lemma grantPermissions_grants_witness :
  serviceAccount "localhost" = "NT SERVICE\MSSQLSERVER" /\
  serviceAccount "srv\SQLEXPRESS\x" = "NT SERVICE\MSSQL$SQLEXPRESS\x".
Proof.
  destruct (grantPermissions_grants Sample.env Sample.bak "localhost" Sample.world)
    as (_ & Hdefault & _).
  destruct (grantPermissions_grants Sample.env Sample.bak "srv\SQLEXPRESS\x" Sample.world)
    as (_ & _ & Hinstance).
  split; [apply Hdefault; reflexivity|].
  apply (Hinstance "srv" "SQLEXPRESS\x"); reflexivity.
Defined.

(** ** The age gate and the time stamp *)

(** [shouldDelete] changes nothing and answers true exactly when the
    creation time parses and lies ten minutes or more before the clock;
    the clamping of the age to a [Duration] never changes the answer,
    however far in the past or in the future the time stamp lies. *)
Theorem shouldDelete_age_gate (env : Env) (file : File) (w : World) :
  shouldDelete env file w =
  (match time_Parse env (CreatedTime file) with
   | Some t => (t + 10 * 60 * 1000000000 <=? time_Now env (log w))%Z
   | None => false
   end, w).
Proof.
  destruct (time_Parse env (CreatedTime file)) as [t|] eqn:P.
  - rewrite (shouldDelete_parsed env file w t P); f_equal.
    unfold maxAgeForDeletion, time_Minute.
    destruct (Z.leb_spec (10 * (60 * 1000000000)) (time_Now env (log w) - t)),
             (Z.leb_spec (t + 10 * 60 * 1000000000) (time_Now env (log w)));
      try reflexivity; lia.
  - apply shouldDelete_unparsed, P.
Qed.

(** [formatCreatedTime] never fails: a creation time that does not
    parse is handed back as it is, and a time zone that is not set, that
    is spelled Local in any case, or that cannot be loaded gives the
    local time zone. *)
Theorem formatCreatedTime_fallbacks (env : Env) (createdTimeStr : string) :
  (time_Parse env createdTimeStr = None ->
   formatCreatedTime env createdTimeStr = createdTimeStr) /\
  (forall t : Z,
      time_Parse env createdTimeStr = Some t ->
      os_Getenv env "SPREADSHEET_TIMEZONE" = "" \/
      strings.EqualFold (os_Getenv env "SPREADSHEET_TIMEZONE") "Local" = true \/
      (exists e, time_LoadLocation env (os_Getenv env "SPREADSHEET_TIMEZONE") = Err e) ->
      formatCreatedTime env createdTimeStr =
      time_Format env t (time_Local env) "1/2/2006 15:04:05").
Proof.
  unfold formatCreatedTime; split.
  - intros ->; reflexivity.
  - intros t -> [H | [H | [e H]]].
    + rewrite H; reflexivity.
    + rewrite H, orb_true_r; reflexivity.
    + rewrite H; destruct (_ || _); reflexivity.
Qed.

Lemma formatCreatedTime_fallbacks_witness :
  formatCreatedTime Sample.env "yesterday" = "yesterday" /\
  formatCreatedTime
    (SampleRun.withZone "Mars/Olympus" (fun _ => Err "unknown time zone") Sample.env)
    "2025-01-01T00:00:00Z"
  = formatCreatedTime (SampleRun.withZone "lOcAl" (fun tz => Ok tz) Sample.env)
      "2025-01-01T00:00:00Z".
Proof.
  destruct (formatCreatedTime_fallbacks Sample.env "yesterday") as [Hraw _].
  destruct (formatCreatedTime_fallbacks
              (SampleRun.withZone "Mars/Olympus" (fun _ => Err "unknown time zone") Sample.env)
              "2025-01-01T00:00:00Z") as [_ Hbad].
  destruct (formatCreatedTime_fallbacks
              (SampleRun.withZone "lOcAl" (fun tz => Ok tz) Sample.env)
              "2025-01-01T00:00:00Z") as [_ Hlocal].
  split; [apply Hraw; reflexivity|].
  rewrite (Hbad Sample.newYear eq_refl
             (or_intror (or_intror (ex_intro _ "unknown time zone" eq_refl)))).
  rewrite (Hlocal Sample.newYear eq_refl (or_intror (or_introl eq_refl))).
  reflexivity.
Defined.

(** ** More on the database restorer *)

Section RestorerSteps.

Variable env : Env.
Variables host user pass dbName bakPath : string.

(** When the query of the file list fails, [restoreDB] returns its
    error after that one command: the database is not put in
    single-user mode and nothing is restored. *)
Theorem restoreDB_file_list_failure (w w1 : World) (out1 e : string) :
  run env "sqlcmd" (fileListCommand host user pass bakPath) w = ((out1, Some e), w1) ->
  restoreDB env host user pass dbName bakPath w
    = (Some ("failed to run RESTORE FILELISTONLY: " +++ e), w1) /\
  log w1 = log w ++ [Exec "sqlcmd" (fileListCommand host user pass bakPath) out1 (Some e)].
Proof.
  intros H1; unfold restoreDB.
  rewrite (bind_run _ _ _ _ _ H1); split; [reflexivity|].
  apply run_log in H1; apply H1.
Qed.

(** When the RESTORE command fails, [restoreDB] returns its error and
    stops there: the command that sets the database back to multi-user
    mode is not issued, so the database stays in single-user mode. *)
Theorem restoreDB_restore_failure (w w1 w2 w3 w4 : World) (out1 out2 out3 out4 e : string)
    (err2 : error) :
  run env "sqlcmd" (fileListCommand host user pass bakPath) w = ((out1, None), w1) ->
  run env "sqlcmd" (dataPathCommand host user pass) w1 = ((out2, err2), w2) ->
  run env "sqlcmd" (singleUserCommand host user pass dbName) w2 = ((out3, None), w3) ->
  run env "sqlcmd" (restoreCommandOf host user pass dbName bakPath env out1 out2) w3
    = ((out4, Some e), w4) ->
  restoreDB env host user pass dbName bakPath w = (Some ("restore failed: " +++ e), w4) /\
  log w4 = log w ++
    [Exec "sqlcmd" (fileListCommand host user pass bakPath) out1 None;
     Exec "sqlcmd" (dataPathCommand host user pass) out2 err2;
     Exec "sqlcmd" (singleUserCommand host user pass dbName) out3 None;
     Exec "sqlcmd" (restoreCommandOf host user pass dbName bakPath env out1 out2) out4 (Some e)].
Proof.
  intros H1 H2 H3 H4.
  rewrite (restoreDB_until_single_user _ _ _ _ _ _ _ _ _ _ _ _ H1 H2).
  rewrite (bind_run _ _ _ _ _ H3); cbv beta iota.
  rewrite (bind_run _ _ _ _ _ H4); split; [reflexivity|].
  apply run_log in H1, H2, H3, H4.
  destruct H1 as (_ & _ & L1), H2 as (_ & _ & L2), H3 as (_ & _ & L3), H4 as (_ & _ & L4).
  rewrite L4, L3, L2, L1, <- !app_assoc; reflexivity.
Qed.

(** Whatever the commands answer, [restoreDB] issues between one and
    five commands, and each of them is [sqlcmd] on the master database
    of the given host, with the same credentials. *)
Theorem restoreDB_commands (w : World) :
  exists (r : error) (w' : World) (evs : list Event),
    restoreDB env host user pass dbName bakPath w = (r, w') /\
    log w' = log w ++ evs /\
    1 <= List.length evs <= 5 /\
    Forall (sqlcmdOn (sqlcmdArgs host user pass "master")) evs.
Proof.
  assert (Hon : forall rest out err,
             sqlcmdOn (sqlcmdArgs host user pass "master")
               (Exec "sqlcmd" (sqlcmdArgs host user pass "master" ++ rest) out err))
    by (intros rest out err; exists rest, out, err; reflexivity).
  destruct (run env "sqlcmd" (fileListCommand host user pass bakPath) w)
    as [[out1 [e1|]] w1] eqn:H1.
  - unfold restoreDB; rewrite (bind_run _ _ _ _ _ H1).
    pose proof (run_log _ _ _ _ _ _ _ H1) as (_ & _ & L1).
    eexists; eexists; eexists; split; [reflexivity|]; split; [exact L1|].
    split; [cbn; lia | repeat constructor; apply Hon].
  - destruct (run env "sqlcmd" (dataPathCommand host user pass) w1)
      as [[out2 err2] w2] eqn:H2.
    rewrite (restoreDB_until_single_user _ _ _ _ _ _ _ _ _ _ _ _ H1 H2).
    destruct (run env "sqlcmd" (singleUserCommand host user pass dbName) w2)
      as [[out3 err3] w3] eqn:H3.
    rewrite (bind_run _ _ _ _ _ H3); cbv beta iota.
    pose proof (run_log _ _ _ _ _ _ _ H1) as (_ & _ & L1).
    pose proof (run_log _ _ _ _ _ _ _ H2) as (_ & _ & L2).
    pose proof (run_log _ _ _ _ _ _ _ H3) as (_ & _ & L3).
    destruct err3 as [e3|].
    + eexists; eexists; eexists; split; [reflexivity|]; split;
        [rewrite L3, L2, L1, <- !app_assoc; reflexivity|].
      split; [cbn; lia | repeat constructor; apply Hon].
    + destruct (run env "sqlcmd" (restoreCommandOf host user pass dbName bakPath env out1 out2)
                  w3) as [[out4 err4] w4] eqn:H4.
      rewrite (bind_run _ _ _ _ _ H4); cbv beta iota.
      pose proof (run_log _ _ _ _ _ _ _ H4) as (_ & _ & L4).
      destruct err4 as [e4|].
      * eexists; eexists; eexists; split; [reflexivity|]; split;
          [rewrite L4, L3, L2, L1, <- !app_assoc; reflexivity|].
        split; [cbn; lia | repeat constructor; apply Hon].
      * destruct (run env "sqlcmd" (multiUserCommand host user pass dbName) w4)
          as [[out5 err5] w5] eqn:H5.
        rewrite (bind_run _ _ _ _ _ H5).
        pose proof (run_log _ _ _ _ _ _ _ H5) as (_ & _ & L5).
        eexists; eexists; eexists; split; [reflexivity|]; split;
          [rewrite L5, L4, L3, L2, L1, <- !app_assoc; reflexivity|].
        split; [cbn; lia | repeat constructor; apply Hon].
Qed.

(** When the query of the data path prints nothing or prints NULL, in
    any case and with any white space around it, the RESTORE command
    moves the two files into the directory of the backup file. *)
Theorem restoreDB_data_path_fallback (w w1 w2 w3 : World) (out1 out2 out3 : string)
    (err2 : error) :
  run env "sqlcmd" (fileListCommand host user pass bakPath) w = ((out1, None), w1) ->
  run env "sqlcmd" (dataPathCommand host user pass) w1 = ((out2, err2), w2) ->
  strings.TrimSpace out2 = "" \/ strings.EqualFold (strings.TrimSpace out2) "NULL" = true ->
  run env "sqlcmd" (singleUserCommand host user pass dbName) w2 = ((out3, None), w3) ->
  exists (r : error) (w' : World) (out4 : string) (err4 : error) (rest : list Event),
    restoreDB env host user pass dbName bakPath w = (r, w') /\
    log w' = log w3 ++
      Exec "sqlcmd"
        (restoreCommand host user pass dbName bakPath env
           (dataLogicalOr dbName (fst (fileList (strings.TrimSpace out1))))
           (logLogicalOr dbName (snd (fileList (strings.TrimSpace out1))))
           (filepath_Dir env bakPath)) out4 err4
      :: rest.
Proof.
  intros H1 H2 Hblank H3.
  destruct (restoreDB_issues_restore env host user pass dbName bakPath _ _ _ _ _ _ _ _ H1 H2 H3)
    as (r & w' & out4 & err4 & rest & Hr & Hlog).
  exists r, w', out4, err4, rest; split; [exact Hr|].
  rewrite Hlog; unfold restoreCommandOf.
  rewrite (resolveDataPath_fallback env out2 bakPath Hblank); reflexivity.
Qed.

End RestorerSteps.

Lemma restoreDB_file_list_failure_witness :
  fst (restoreDB (Sample.host "SET NOCOUNT ON; RESTORE FILELISTONLY" "" (Some "exit status 1"))
         "localhost" "sa" "secret" "Susenas" Sample.bak Sample.world)
  = Some "failed to run RESTORE FILELISTONLY: exit status 1".
Proof.
  edestruct (restoreDB_file_list_failure
               (Sample.host "SET NOCOUNT ON; RESTORE FILELISTONLY" "" (Some "exit status 1"))
               "localhost" "sa" "secret" "Susenas" Sample.bak Sample.world) as [Hr _];
    [evaluate|].
  rewrite Hr; reflexivity.
Defined.

Lemma restoreDB_restore_failure_witness :
  exists w4 : World,
    restoreDB (Sample.host "RESTORE DATABASE" "Msg 3201" (Some "exit status 1"))
      "localhost" "sa" "secret" "Susenas" Sample.bak Sample.world
    = (Some "restore failed: exit status 1", w4) /\
    List.length (log w4) = 4.
Proof.
  edestruct (restoreDB_restore_failure
               (Sample.host "RESTORE DATABASE" "Msg 3201" (Some "exit status 1"))
               "localhost" "sa" "secret" "Susenas" Sample.bak Sample.world) as [Hr Hl];
    [evaluate | evaluate | evaluate | evaluate |].
  eexists; split; [exact Hr|].
  rewrite Hl; reflexivity.
Defined.

Lemma restoreDB_data_path_fallback_witness :
  exists (r : error) (w' : World) (out4 : string) (err4 : error) (rest : list Event),
    restoreDB (Sample.host "SET NOCOUNT ON; SELECT" (" null" +++ lf) None)
      "localhost" "sa" "secret" "Susenas" Sample.bak Sample.world = (r, w') /\
    skipn 3 (log w') =
      Exec "sqlcmd"
        ["-S"; "localhost"; "-d"; "master"; "-U"; "sa"; "-P"; "secret"; "-Q";
         "RESTORE DATABASE Susenas FROM DISK='/tmp/backup-1/extracted/db/b.bak' WITH REPLACE, MOVE 'Susenas' TO '/tmp/backup-1/extracted/db/Susenas.mdf', MOVE 'Susenas_log' TO '/tmp/backup-1/extracted/db/Susenas_log.ldf'"]
        out4 err4
      :: rest.
Proof.
  edestruct (restoreDB_data_path_fallback
               (Sample.host "SET NOCOUNT ON; SELECT" (" null" +++ lf) None)
               "localhost" "sa" "secret" "Susenas" Sample.bak Sample.world)
    as (r & w' & out4 & err4 & rest & Hr & Hlog);
    [evaluate | evaluate | right; reflexivity | evaluate |].
  exists r, w', out4, err4, rest; split; [exact Hr|].
  rewrite Hlog; reflexivity.
Defined.

(** ** More on the completion tracker *)

Lemma searchKab_range (g : list (list Cell)) (kab : string) (i : Z) :
  (0 <= i)%Z -> searchKab g kab i = (-1)%Z \/ (i <= searchKab g kab i)%Z.
Proof.
  intros Hi; destruct (searchKab_upsertRows g kab "" i Hi) as [[H _] | [H _]]; auto.
Qed.

Lemma upsertSpreadsheetRow_error_ledger (env : Env) (spreadsheetID kab createdTime : string)
    (w w' : World) (e : string) :
  upsertSpreadsheetRow env spreadsheetID kab createdTime w = (Some e, w') ->
  ledger w' = ledger w /\ store w' = store w.
Proof.
  unfold upsertSpreadsheetRow, Values_Get, Values_Update, Values_Append, Errorf,
    bind, history, emit, readLedger, writeLedger, ret; cbn [log ledger store].
  destruct (sheets_Get env (log w) "A:B"); cbn [log ledger store].
  - intros H; injection H as _ <-; auto.
  - destruct (searchKab_range (ledger w) kab 0 ltac:(lia)) as [H1 | H1].
    + rewrite H1; cbn [Z.leb Z.compare].
      destruct (sheets_Append env _ "A:B" _); [|discriminate].
      intros H; injection H as _ <-; auto.
    + replace (0 <=? searchKab (ledger w) kab 0)%Z with true
        by (symmetry; apply Z.leb_le; exact H1).
      destruct (sheets_Update env _ _ _).
      * intros H; injection H as _ <-; auto.
      * rewrite parseB_itoa by exact H1; discriminate.
Qed.

(** An upsert that returns an error leaves the ledger, and the store,
    as they were: a failed read is followed by no write, and a failed
    write has written nothing. *)
Theorem upsertSpreadsheetRow_error (env : Env) (spreadsheetID kab createdTime : string)
    (w w' : World) (e : string) :
  upsertSpreadsheetRow env spreadsheetID kab createdTime w = (Some e, w') ->
  ledger w' = ledger w /\ store w' = store w.
Proof. apply upsertSpreadsheetRow_error_ledger. Qed.

Lemma upsertSpreadsheetRow_error_witness :
  exists w' : World,
    upsertSpreadsheetRow
      (SampleRun.withSheets (fun _ _ => None) (fun _ _ _ => None)
         (fun _ _ _ => Some "googleapi: Error 429") Sample.env)
      "sheet-1" "Kab. Bogor" "T1" Sample.world
    = (Some "failed to append row to spreadsheet: googleapi: Error 429", w') /\
    ledger w' = ledger Sample.world.
Proof.
  eexists; split; [evaluate|].
  eapply (upsertSpreadsheetRow_error
            (SampleRun.withSheets (fun _ _ => None) (fun _ _ _ => None)
               (fun _ _ _ => Some "googleapi: Error 429") Sample.env)
            "sheet-1" "Kab. Bogor" "T1" Sample.world).
  evaluate.
Defined.

Lemma rowFor_setB_eq (key value : string) (row : list Cell) :
  row <> [] -> rowFor key (setB row value) = rowFor key row.
Proof. destruct row as [|[s|] rest]; intros H; [contradiction | reflexivity | reflexivity]. Qed.

Lemma upsertRows_others (g : list (list Cell)) (key value : string) :
  filter (fun row => negb (rowFor key row)) (upsertRows g key value) =
  filter (fun row => negb (rowFor key row)) g.
Proof.
  induction g as [|row g IH]; cbn [upsertRows filter].
  - rewrite rowFor_new; reflexivity.
  - destruct (rowFor key row) eqn:E; cbn [filter].
    + rewrite (rowFor_setB _ _ _ E); reflexivity.
    + rewrite E; cbn [negb]; rewrite IH; reflexivity.
Qed.

Lemma upsertRows_length (g : list (list Cell)) (key value : string) :
  List.length g <= List.length (upsertRows g key value) <= S (List.length g).
Proof.
  induction g as [|row g IH]; cbn [upsertRows]; [cbn; lia|].
  destruct (rowFor key row); cbn [List.length]; lia.
Qed.

(** Whatever it returns, an upsert leaves the rows of the other keys as
    they were and in their order, removes no row, and adds at most
    one. *)
Theorem upsertSpreadsheetRow_other_rows (env : Env) (spreadsheetID kab createdTime : string)
    (w : World) :
  exists (r : error) (w' : World),
    upsertSpreadsheetRow env spreadsheetID kab createdTime w = (r, w') /\
    filter (fun row => negb (rowFor kab row)) (ledger w') =
      filter (fun row => negb (rowFor kab row)) (ledger w) /\
    List.length (ledger w) <= List.length (ledger w') <= S (List.length (ledger w)).
Proof.
  destruct (upsertSpreadsheetRow env spreadsheetID kab createdTime w) as [[e|] w'] eqn:H.
  - apply upsertSpreadsheetRow_error_ledger in H; destruct H as [L _].
    eexists; eexists; split; [reflexivity|]; rewrite L; split; [reflexivity | lia].
  - apply upsertSpreadsheetRow_upsertRows in H; destruct H as [L _].
    eexists; eexists; split; [reflexivity|]; rewrite L; split;
      [apply upsertRows_others | apply upsertRows_length].
Qed.

Lemma searchKab_trimmed (g : list (list Cell)) (kab kab' : string) (i : Z) :
  strings.TrimSpace kab = strings.TrimSpace kab' -> searchKab g kab i = searchKab g kab' i.
Proof.
  intros H; revert i; induction g as [|row g IH]; intros i; [reflexivity|].
  cbn [searchKab]; rewrite H, !IH; reflexivity.
Qed.

(** The key is compared without the white space around it: when the
    ledger holds a row for the key, an upsert under any spelling of the
    key that trims to the same text does the same thing. *)
Theorem upsertSpreadsheetRow_trimmed_key (env : Env) (spreadsheetID kab kab' createdTime : string)
    (w : World) :
  strings.TrimSpace kab = strings.TrimSpace kab' ->
  filter (rowFor kab) (ledger w) <> [] ->
  upsertSpreadsheetRow env spreadsheetID kab createdTime w =
  upsertSpreadsheetRow env spreadsheetID kab' createdTime w.
Proof.
  intros Htrim Hrow.
  unfold upsertSpreadsheetRow.
  destruct (Values_Get env "A:B" w) as [[values | e] w1] eqn:G;
    rewrite !(bind_run _ _ _ _ _ G); [|reflexivity].
  rewrite (searchKab_trimmed values kab kab' 0 Htrim).
  assert (Hv : values = ledger w).
  { revert G; unfold Values_Get, bind, history, emit, readLedger, ret.
    destruct (sheets_Get env (log w) "A:B"); intros H; inversion H; reflexivity. }
  destruct (searchKab_upsertRows values kab' createdTime 0 ltac:(lia)) as [[H1 H2] | [H1 _]].
  - exfalso; apply Hrow.
    rewrite <- (searchKab_trimmed values kab kab' 0 Htrim) in H1.
    destruct (searchKab_upsertRows values kab createdTime 0 ltac:(lia)) as [[_ H3] | [H3 _]];
      [|lia].
    pose proof (filter_upsertRows values kab createdTime) as F.
    rewrite H3, filter_app in F; cbn [filter] in F; rewrite rowFor_new in F.
    rewrite <- Hv; destruct (filter (rowFor kab) values); [reflexivity|].
    apply (f_equal (@List.length _)) in F; rewrite length_app in F; cbn in F; lia.
  - replace (0 <=? searchKab values kab' 0)%Z with true by (symmetry; apply Z.leb_le; exact H1).
    reflexivity.
Qed.

Lemma upsertSpreadsheetRow_trimmed_key_witness :
  upsertSpreadsheetRow Sample.env "sheet-1" "Kabupaten" "T1" Sample.world =
  upsertSpreadsheetRow Sample.env "sheet-1" (" Kabupaten " +++ lf) "T1" Sample.world.
Proof.
  apply (upsertSpreadsheetRow_trimmed_key Sample.env "sheet-1" "Kabupaten"
           (" Kabupaten " +++ lf) "T1" Sample.world); [reflexivity | now vm_compute].
Defined.

(** ** The end of a run on a file *)

(** A file that has no parent folder, neither on its record nor when
    Drive is asked, is recorded all the same: after its deletion the
    upsert is made under the empty key. *)
Theorem deleteFileAndUpdateSpreadsheet_no_parent (env : Env) (spreadsheetID : string)
    (file fi : File) (w : World) :
  Parents file = [] ->
  drive_Delete env (log w) (Id file) = None ->
  drive_Get env (log w ++ [DriveDelete (Id file) None]) (Id file) "parents" = Ok fi ->
  Parents fi = [] ->
  deleteFileAndUpdateSpreadsheet env spreadsheetID file w =
  (None,
   snd (upsertSpreadsheetRow env spreadsheetID "" (formatCreatedTime env (CreatedTime file))
          (mkWorld (filter (fun x => negb (String.eqb x (Id file))) (store w)) (ledger w)
             (log w ++ [DriveDelete (Id file) None; DriveGet (Id file) "parents" None])))).
Proof.
  intros Hp Hd Hg Hfi.
  set (wd := mkWorld (filter (fun x => negb (String.eqb x (Id file))) (store w)) (ledger w)
               (log w ++ [DriveDelete (Id file) None])).
  assert (Hgp : getParentFolderName env file wd =
                (("", None),
                 mkWorld (store wd) (ledger wd)
                   (log wd ++ [DriveGet (Id file) "parents" None]))).
  { unfold getParentFolderName; rewrite Hp.
    unfold Files_Get, bind, history, emit, ret; cbn [log wd].
    rewrite Hg, Hfi; reflexivity. }
  unfold deleteFileAndUpdateSpreadsheet.
  rewrite (bind_run _ _ _ _ _ (Files_Delete_eq env (Id file) w)), Hd.
  fold wd; rewrite (bind_run _ _ _ _ _ Hgp); cbv beta iota.
  unfold bind, ret; subst wd; cbn [log store ledger]; rewrite <- app_assoc.
  destruct (upsertSpreadsheetRow env spreadsheetID ""
              (formatCreatedTime env (CreatedTime file)) _); reflexivity.
Qed.

Lemma deleteFileAndUpdateSpreadsheet_no_parent_witness :
  ledger (snd (deleteFileAndUpdateSpreadsheet Sample.env "sheet-1" SampleRun.orphan
                 Sample.world))
  = [[CellString "Kabupaten"; CellString "Susenas"];
     [CellString ""; CellString "1/1/2025 00:00:00"]].
Proof.
  rewrite (deleteFileAndUpdateSpreadsheet_no_parent Sample.env "sheet-1" SampleRun.orphan
             Sample.folder Sample.world eq_refl eq_refl eq_refl eq_refl).
  reflexivity.
Defined.

Section Success.

Variable env : Env.
Variables spreadsheetID dbHost dbUser dbPass dbName password updateQuery : string.
Variable file : File.

(** When every step succeeds, [processFile] returns [nil], the source
    file has left the store, and the ledger is the one it found with
    the row of the parent folder upserted to the formatted creation
    time. *)
Theorem processFile_success (w w1 w2 w3 w4 w5 wp wu : World)
    (tempDir bakFile parentName : string) :
  (minFileSize <= Size file)%Z ->
  createTempDir env w = ((tempDir, None), w1) ->
  downloadAndExtract env file tempDir password w1 = ((bakFile, None), w2) ->
  grantPermissions env bakFile dbHost w2 = (tt, w3) ->
  restoreDB env dbHost dbUser dbPass dbName bakFile w3 = (None, w4) ->
  runUpdateQuery env dbHost dbUser dbPass dbName updateQuery w4 = (None, w5) ->
  drive_Delete env (log w5) (Id file) = None ->
  getParentFolderName env file (snd (Files_Delete env (Id file) w5))
    = ((parentName, None), wp) ->
  upsertSpreadsheetRow env spreadsheetID parentName
    (formatCreatedTime env (CreatedTime file)) wp = (None, wu) ->
  exists w' : World,
    processFile env spreadsheetID file dbHost dbUser dbPass dbName password updateQuery w
      = (None, w') /\
    ledger w' = upsertRows (ledger w) parentName (formatCreatedTime env (CreatedTime file)) /\
    ~ In (Id file) (store w').
Proof.
  intros Hsize Htemp Hextract Hgrant Hrestore Hquery Hdel Hparent Hupsert.
  assert (U : unchanged w w5).
  { eapply unchanged_trans; [exact (Quiet_at _ _ _ _ (Quiet_createTempDir env) Htemp)|].
    eapply unchanged_trans;
      [exact (Quiet_at _ _ _ _ (Quiet_downloadAndExtract env file tempDir password) Hextract)|].
    eapply unchanged_trans;
      [exact (Quiet_at _ _ _ _ (Quiet_grantPermissions env bakFile dbHost) Hgrant)|].
    eapply unchanged_trans;
      [exact (Quiet_at _ _ _ _ (Quiet_restoreDB env _ _ _ _ _) Hrestore)|].
    exact (Quiet_at _ _ _ _ (Quiet_runUpdateQuery env _ _ _ _ _) Hquery). }
  destruct U as (_ & Ul & _).
  pose proof (Quiet_at _ _ _ _ (Quiet_getParentFolderName env file) Hparent) as (Ps & Pl & _).
  pose proof (upsertSpreadsheetRow_upsertRows _ _ _ _ _ _ Hupsert) as (Lu & Su).
  rewrite Files_Delete_eq, Hdel in Ps, Pl, Hparent; cbn [snd store ledger] in Ps, Pl, Hparent.
  assert (Hd : deleteFileAndUpdateSpreadsheet env spreadsheetID file w5 = (None, wu)).
  { unfold deleteFileAndUpdateSpreadsheet.
    rewrite (bind_run _ _ _ _ _ (Files_Delete_eq env (Id file) w5)), Hdel.
    rewrite (bind_run _ _ _ _ _ Hparent); cbv beta iota.
    rewrite (bind_run _ _ _ _ _ Hupsert); reflexivity. }
  rewrite (processFile_in_scratch _ _ _ _ _ _ _ _ _ _ _ _ Hsize Htemp).
  erewrite defer_run.
  2:{ rewrite (bind_run _ _ _ _ _ Hextract); cbv beta iota.
      rewrite (bind_run _ _ _ _ _ Hgrant).
      rewrite (bind_run _ _ _ _ _ Hrestore); cbv beta iota.
      rewrite (bind_run _ _ _ _ _ Hquery); cbv beta iota.
      rewrite (bind_run _ _ _ _ _ Hd); reflexivity. }
  eexists; split; [reflexivity|]; cbn [os_RemoveAll emit snd ledger store].
  split; [rewrite Lu, Pl, Ul; reflexivity|].
  rewrite Su, Ps; apply removed_from_store.
Qed.

End Success.

Lemma processFile_success_witness :
  exists w' : World,
    Sample.run Sample.env Sample.old = (None, w') /\
    ledger w' = [[CellString "Kabupaten"; CellString "Susenas"];
                 [CellString "Kab. Bogor"; CellString "1/1/2025 00:00:00"]] /\
    ~ In "file-1" (store w').
Proof.
  edestruct (processFile_success Sample.env "sheet-1" "localhost" "sa" "secret" "Susenas"
               "7zpass" "UPDATE t SET c = 1" Sample.old Sample.world)
    as (w' & Hrun & Hledger & Hstore);
    [now vm_compute | evaluate | evaluate | evaluate | evaluate | evaluate | reflexivity
    | evaluate | evaluate |].
  exists w'; split; [exact Hrun|]; split; [rewrite Hledger; reflexivity | exact Hstore].
Defined.

(** ** The batch *)

Lemma nonempty_eqb (s : string) : s <> "" -> String.eqb s "" = false.
Proof. intros H; apply String.eqb_neq, H. Qed.

Lemma main_ready (st : Startup) (env : Env) (w : World) :
  ready st env ->
  main st env w =
  ('(files, err) <- getFilesFromFolder st ;;
   match err with
   | Some e => ret (Fatal ("Unable to get files: " +++ e))
   | None => batch env files ;;; ret Completed
   end) w.
Proof.
  intros (Hload & Hvars & H7z & Hsql & Hdrive & Hsheets).
  unfold main; rewrite Hload.
  unfold requiredVariables in Hvars.
  repeat match goal with
         | H : Forall _ (_ :: _) |- _ => inversion H; subst; clear H
         end.
  repeat match goal with
         | H : os_Getenv env _ <> "" |- _ => apply nonempty_eqb in H; rewrite H
         end.
  cbn [orb]; rewrite H7z, Hsql, Hdrive, Hsheets; reflexivity.
Qed.



(** When the listing of Drive fails, [main] ends with a fatal error
    that carries the error of the listing, and no file is touched. *)
Theorem main_listing_failure (st : Startup) (env : Env) (w : World) (e : string) :
  ready st env ->
  files_List st (log w) candidateQuery = Err e ->
  main st env w = (Fatal ("Unable to get files: Drive API error: " +++ e), w).
Proof.
  intros Hready Hlist; rewrite (main_ready st env w Hready).
  unfold getFilesFromFolder, bind, history, ret.
  fold candidateQuery; rewrite Hlist; reflexivity.
Qed.

Lemma ready_sample (files : result (list File)) : ready (SampleRun.listing files) SampleRun.env.
Proof.
  repeat split; try reflexivity.
  repeat constructor; discriminate.
Defined.

Lemma main_listing_failure_witness :
  main (SampleRun.listing (Err "googleapi: Error 500")) SampleRun.env Sample.world
  = (Fatal "Unable to get files: Drive API error: googleapi: Error 500", Sample.world).
Proof.
  exact (main_listing_failure (SampleRun.listing (Err "googleapi: Error 500")) SampleRun.env
           Sample.world "googleapi: Error 500" (ready_sample _) eq_refl).
Defined.

(** Once the files are listed, [main] runs [processFile] on every one
    of them, in the order of the listing, and ends with completion: the
    error of a file is never fatal and never ends the loop.  The user
    and the password of the database may be empty. *)
Theorem main_completes (st : Startup) (env : Env) (w : World) (files : list File) :
  ready st env ->
  files_List st (log w) candidateQuery = Ok files ->
  main st env w = (Completed, snd (batch env files w)) /\
  forall (file : File) (files' : list File) (w0 : World),
    batch env (file :: files') w0 =
    batch env files'
      (snd (processFile env (os_Getenv env "SPREADSHEET_ID") file
              (os_Getenv env "DB_HOST") (os_Getenv env "DB_USER") (os_Getenv env "DB_PASS")
              (os_Getenv env "DB_NAME") (os_Getenv env "SEVENZ_PASSWORD")
              (os_Getenv env "UPDATE_QUERY") w0)).
Proof.
  intros Hready Hlist; split.
  - rewrite (main_ready st env w Hready).
    unfold getFilesFromFolder, bind, history, ret.
    fold candidateQuery; rewrite Hlist.
    destruct (batch env files w); reflexivity.
  - intros file files' w0; unfold batch; cbn [processFiles]; unfold bind.
    destruct (processFile _ _ _ _ _ _ _ _ _ w0); reflexivity.
Qed.

Lemma main_completes_witness :
  exists w' : World,
    main (SampleRun.listing (Ok [Sample.undated; Sample.small])) 
      (Sample.withCommand (Sample.answering "-p7zpass" "" (Some "exit status 2")) SampleRun.env)
      Sample.world = (Completed, w') /\
    store w' = ["file-1"; "file-2"; "file-3"].
Proof.
  edestruct (main_completes (SampleRun.listing (Ok [Sample.undated; Sample.small]))
               (Sample.withCommand (Sample.answering "-p7zpass" "" (Some "exit status 2"))
                  SampleRun.env)
               Sample.world [Sample.undated; Sample.small]) as [Hmain _].
  - repeat split; try reflexivity. repeat constructor; discriminate.
  - reflexivity.
  - eexists; split; [exact Hmain | reflexivity].
Defined.

Lemma Confined_batch (env : Env) (files : list File) :
  Confined (map Id files) (batch env files).
Proof.
  unfold batch; induction files as [|file files IH]; [apply Confined_ret|].
  cbn [processFiles map]; apply Confined_bind.
  - apply Confined_processFile; left; reflexivity.
  - intros _ w; eapply confined_incl; [|apply IH].
    intros x Hx; right; exact Hx.
Qed.

(** A batch adds no file to the remote store, removes no file that was
    not listed, and asks for the deletion of no file that was not
    listed. *)
Theorem batch_deletes_only_candidates (env : Env) (files : list File) (w : World) :
  (forall x, In x (store (snd (batch env files w))) -> In x (store w)) /\
  (forall x, ~ In x (map Id files) -> In x (store w) ->
             In x (store (snd (batch env files w)))) /\
  exists evs : list Event,
    log (snd (batch env files w)) = log w ++ evs /\
    forall id err, In (DriveDelete id err) evs -> In id (map Id files).
Proof.
  destruct (Confined_batch env files w) as (I & K & evs & E & Q).
  split; [exact I|]; split; [exact K|].
  exists evs; split; [exact E|].
  intros id err Hin; rewrite forallb_forall in Q; specialize (Q _ Hin); cbn in Q.
  apply existsb_exists in Q; destruct Q as (x & Hx & Heq).
  apply String.eqb_eq in Heq; subst; exact Hx.
Qed.

(** In a batch of files that are all below the size threshold, every
    file gets exactly one deletion attempt, in the order of the listing,
    whatever the earlier attempts answered, and nothing else is done. *)
Theorem batch_of_small_files (env : Env) (files : list File) (w : World) :
  Forall (fun file => (Size file < minFileSize)%Z) files ->
  exists errs : list error,
    List.length errs = List.length files /\
    log (snd (batch env files w)) =
      log w ++ map (fun p => DriveDelete (fst p) (snd p)) (combine (map Id files) errs) /\
    ledger (snd (batch env files w)) = ledger w.
Proof.
  unfold batch; intros Hall; revert w; induction Hall as [|file files Hsmall _ IH]; intros w.
  - exists []; cbn; rewrite app_nil_r; auto.
  - cbn [processFiles]; unfold bind.
    assert (Hp : processFile env (os_Getenv env "SPREADSHEET_ID") file
                   (os_Getenv env "DB_HOST") (os_Getenv env "DB_USER")
                   (os_Getenv env "DB_PASS") (os_Getenv env "DB_NAME")
                   (os_Getenv env "SEVENZ_PASSWORD") (os_Getenv env "UPDATE_QUERY") w
                 = deleteSmallFile env file w).
    { unfold processFile.
      replace (Size file <? minFileSize)%Z with true
        by (symmetry; apply Z.ltb_lt; exact Hsmall).
      reflexivity. }
    rewrite Hp; unfold deleteSmallFile.
    rewrite (bind_run _ _ _ _ _ (Files_Delete_eq env (Id file) w)).
    destruct (drive_Delete env (log w) (Id file)) as [e|] eqn:D; unfold ret; cbn [snd];
      match goal with
      | |- context [processFiles _ _ _ _ _ _ _ _ _ ?w1] =>
          destruct (IH w1) as (errs & Hlen & Hlog & Hledger)
      end;
      [exists (Some e :: errs) | exists (None :: errs)];
      (split; [cbn; rewrite Hlen; reflexivity|]);
      (split; [rewrite Hlog; cbn [log map combine fst snd]; rewrite <- app_assoc; reflexivity
              | rewrite Hledger; reflexivity]).
Qed.

Lemma batch_of_small_files_witness :
  exists errs : list error,
    List.length errs = 2 /\
    log (snd (batch (Sample.withDelete SampleRun.refusing SampleRun.env)
                [Sample.small; SampleRun.tiny] Sample.world))
    = map (fun p => DriveDelete (fst p) (snd p)) (combine ["file-4"; "file-5"] errs) /\
    ledger (snd (batch (Sample.withDelete SampleRun.refusing SampleRun.env)
                   [Sample.small; SampleRun.tiny] Sample.world))
    = ledger Sample.world.
Proof.
  exact (batch_of_small_files (Sample.withDelete SampleRun.refusing SampleRun.env)
           [Sample.small; SampleRun.tiny] Sample.world
           ltac:(repeat constructor)).
Defined.

(** ** A manifest that lacks a kind *)

(** A manifest without a row for the log file leaves the log name to its
    default, [dbName] followed by _log, while the data name is the one
    found, the name of the last data row: the RESTORE command that
    [restoreDB] issues moves that data file and the default log file.
    And a manifest without a data row leaves the data name to [dbName],
    while the log name is the one found. *)
Theorem fileList_missing_kind (env : Env) (host user pass dbName bakPath listOut : string) :
  (filter (isKind Log) (manifestRows (strings.Split listOut lf)) = [] ->
   logLogicalOr dbName (snd (fileList listOut)) = dbName +++ "_log" /\
   forall name : string,
     name <> "" ->
     retained Data (manifestRows (strings.Split listOut lf)) "" = name ->
     dataLogicalOr dbName (fst (fileList listOut)) = name /\
     forall (w w1 w2 w3 : World) (out1 out2 out3 : string) (err2 : error),
       run env "sqlcmd" (fileListCommand host user pass bakPath) w = ((out1, None), w1) ->
       strings.TrimSpace out1 = listOut ->
       run env "sqlcmd" (dataPathCommand host user pass) w1 = ((out2, err2), w2) ->
       run env "sqlcmd" (singleUserCommand host user pass dbName) w2 = ((out3, None), w3) ->
       exists (r : error) (w' : World) (out4 : string) (err4 : error) (rest : list Event),
         restoreDB env host user pass dbName bakPath w = (r, w') /\
         log w' = log w3 ++
           Exec "sqlcmd"
             (restoreCommand host user pass dbName bakPath env
                name (dbName +++ "_log") (resolveDataPath env out2 bakPath)) out4 err4
           :: rest) /\
  (filter (isKind Data) (manifestRows (strings.Split listOut lf)) = [] ->
   dataLogicalOr dbName (fst (fileList listOut)) = dbName /\
   forall name : string,
     name <> "" ->
     retained Log (manifestRows (strings.Split listOut lf)) "" = name ->
     logLogicalOr dbName (snd (fileList listOut)) = name).
Proof.
  assert (H : fileList listOut =
              (retained Data (manifestRows (strings.Split listOut lf)) "",
               retained Log (manifestRows (strings.Split listOut lf)) "")).
  { unfold fileList; destruct (String.eqb listOut "") eqn:E.
    - apply String.eqb_eq in E; subst listOut; reflexivity.
    - cbn [negb]; apply fileList_loop. }
  assert (N : forall name : string, name <> "" -> String.eqb name "" = false).
  { intros name Hn; apply String.eqb_neq; exact Hn. }
  split; intros Hnone.
  - assert (Hlog : logLogicalOr dbName (snd (fileList listOut)) = dbName +++ "_log").
    { rewrite H; unfold retained; cbn [snd]; rewrite Hnone; reflexivity. }
    split; [exact Hlog|].
    intros name Hname Hdata.
    assert (Hd : dataLogicalOr dbName (fst (fileList listOut)) = name).
    { rewrite H; cbn [fst]; rewrite Hdata; unfold dataLogicalOr; rewrite (N _ Hname).
      reflexivity. }
    split; [exact Hd|].
    intros w w1 w2 w3 out1 out2 out3 err2 H1 Hout H2 H3.
    destruct (restoreDB_issues_restore env host user pass dbName bakPath _ _ _ _ _ _ _ _ H1 H2 H3)
      as (r & w' & out4 & err4 & rest & Hr & Hl).
    exists r, w', out4, err4, rest; split; [exact Hr|].
    rewrite Hl; unfold restoreCommandOf; rewrite Hout, Hd, Hlog; reflexivity.
  - split.
    + rewrite H; unfold retained; cbn [fst]; rewrite Hnone; reflexivity.
    + intros name Hname Hlog.
      rewrite H; cbn [snd]; rewrite Hlog; unfold logLogicalOr; rewrite (N _ Hname).
      reflexivity.
Qed.

Lemma fileList_missing_kind_witness :
  logLogicalOr "Susenas" (snd (fileList "DataLog|C:\db\DataLog.mdf|D|PRIMARY"))
    = "Susenas_log" /\
  dataLogicalOr "Susenas" (fst (fileList "DataLog|C:\db\DataLog.mdf|D|PRIMARY")) = "DataLog" /\
  exists (r : error) (w' : World) (out4 : string) (err4 : error) (rest : list Event),
    restoreDB
      (Sample.host "SET NOCOUNT ON; RESTORE FILELISTONLY"
         ("DataLog|C:\db\DataLog.mdf|D|PRIMARY" +++ lf) None)
      "localhost" "sa" "secret" "Susenas" Sample.bak Sample.world = (r, w') /\
    skipn 3 (log w') =
      Exec "sqlcmd"
        ["-S"; "localhost"; "-d"; "master"; "-U"; "sa"; "-P"; "secret"; "-Q";
         "RESTORE DATABASE Susenas FROM DISK='/tmp/backup-1/extracted/db/b.bak' WITH REPLACE, MOVE 'DataLog' TO '/var/opt/mssql/data/Susenas.mdf', MOVE 'Susenas_log' TO '/var/opt/mssql/data/Susenas_log.ldf'"]
        out4 err4
      :: rest.
Proof.
  destruct (fileList_missing_kind
              (Sample.host "SET NOCOUNT ON; RESTORE FILELISTONLY"
                 ("DataLog|C:\db\DataLog.mdf|D|PRIMARY" +++ lf) None)
              "localhost" "sa" "secret" "Susenas" Sample.bak
              "DataLog|C:\db\DataLog.mdf|D|PRIMARY")
    as [Hlog _].
  destruct (Hlog eq_refl) as [Hdefault Hfound].
  destruct (Hfound "DataLog" ltac:(discriminate) eq_refl) as [Hdata Hrun].
  split; [exact Hdefault|]; split; [exact Hdata|].
  edestruct Hrun as (r & w' & out4 & err4 & rest & Hr & Hl);
    [evaluate | reflexivity | evaluate | evaluate |].
  exists r, w', out4, err4, rest; split; [exact Hr|].
  rewrite Hl; reflexivity.
Defined.
